(** * MAITRI ai-service: the multimodal emotion inference pipeline

    A shallow embedding of
      - [src/services/emotion_detection.py]  (EmotionCNN, MultimodalFusionNet,
        EmotionDetectionService) and
      - [src/services/audio_processing.py]   (AudioEmotionCNN,
        AudioProcessingService),
    with the records of [src/models/schemas.py] they build, and of the two
    emotion endpoints of [app.py] that call them.

    Conventions.
      - Python floats are rationals ([Q]); the three non-finite values a numpy
        operation can produce are explicit ([np_float]).  Rounding is not
        modelled: arithmetic on finite values is exact.
      - A Python call that may raise returns a [result]; [try ... except ...:
        raise] is the identity on it, a handler that returns a value is written
        out where the source has one.
      - Objects that a call mutates (the MediaPipe face tracker, torch's random
        generator) are threaded through explicitly.
      - Third-party functions (base64, PIL, OpenCV, librosa, and the
        transcendental functions of torch and numpy) are the fields of the
        classes [Base64], [Pil], [Cv2.t], [Librosa.t] and [Elementary]; the
        MediaPipe tracker and torch's generator are the records [FaceMesh.t]
        and [Rng.t].  The embedding fixes nothing about them but their
        types.  [FrameAnalysis], [LibraryText], [Torch.t] and [MediaPipe]
        add what the speech analysis, the endpoints and the loaders need. *)

From Stdlib Require Import String Ascii List ZArith QArith Qabs Qminmax Lia Lqa Bool.
Import ListNotations.

Open Scope string_scope.
Open Scope list_scope.
Open Scope Q_scope.

(* ================================================================== *)
(** * Python: exceptions and results *)
(* ================================================================== *)

(** The exception classes the two services can see.  [LibraryError] stands
    for whatever a third-party call raises. *)
Inductive exn : Type :=
| ValueError (msg : string)
| IndexError (msg : string)
| TypeError (msg : string)
| AttributeError (msg : string)
| LibraryError (origin : string).

Inductive result (A : Type) : Type :=
| Ok (a : A)
| Raise (e : exn).

Arguments Ok {A} a.
Arguments Raise {A} e.

Definition bind {A B : Type} (r : result A) (k : A -> result B) : result B :=
  match r with
  | Ok a => k a
  | Raise e => Raise e
  end.

(** [try: body except Exception as e: raise SomeError(msg)]. *)
Definition reraise_as {A : Type} (e' : exn) (r : result A) : result A :=
  match r with
  | Ok a => Ok a
  | Raise _ => Raise e'
  end.

(** [try: body except Exception: return None] for a body returning an
    optional value. *)
Definition or_none {A : Type} (r : result (option A)) : option A :=
  match r with
  | Ok o => o
  | Raise _ => None
  end.

Module Py.

(** [xs[i]] on a list, for a non-negative index. *)
Definition getitem {A : Type} (xs : list A) (i : nat) : result A :=
  match nth_error xs i with
  | Some x => Ok x
  | None => Raise (IndexError "list index out of range")
  end.

(** Truth value of an [Optional[str]] argument: [None] and the empty string
    are false. *)
Definition truthy (s : option string) : bool :=
  match s with
  | None => false
  | Some EmptyString => false
  | Some (String _ _) => true
  end.

(** [s.startswith(p)]. *)
Fixpoint startswith (p s : string) : bool :=
  match p, s with
  | EmptyString, _ => true
  | String a p', String b s' => if Ascii.eqb a b then startswith p' s' else false
  | String _ _, EmptyString => false
  end.

(** [s.split(c)] for a one-character separator: the fields between the
    separators, at least one. *)
Fixpoint split (c : ascii) (s : string) : list string :=
  match s with
  | EmptyString => [EmptyString]
  | String a s' =>
      if Ascii.eqb a c then EmptyString :: split c s'
      else match split c s' with
           | [] => [String a EmptyString]
           | f :: fs => String a f :: fs
           end
  end.

(** Normalisation of one bound of a slice [xs[lo:hi]] for a sequence of
    length [len]: a negative bound counts from the end, and every bound is
    clipped to the sequence. *)
Definition slice_bound (len i : Z) : Z :=
  if (i <? 0)%Z then Z.max 0 (i + len) else Z.min i len.

(** [xs[lo:hi]]. *)
Definition slice {A : Type} (lo hi : Z) (xs : list A) : list A :=
  let len := Z.of_nat (List.length xs) in
  let a := slice_bound len lo in
  let b := slice_bound len hi in
  firstn (Z.to_nat (b - a)) (skipn (Z.to_nat a) xs).

(** [int(x)] on a finite float: truncation toward zero. *)
Definition int (x : Q) : Z := Z.quot (Qnum x) (Zpos (Qden x)).

(** An insertion-ordered [dict] with string keys. *)
Definition dict (V : Type) : Type := list (string * V).

Fixpoint dict_set {V : Type} (k : string) (v : V) (d : dict V) : dict V :=
  match d with
  | [] => [(k, v)]
  | (k', v') :: d' =>
      if String.eqb k k' then (k, v) :: d' else (k', v') :: dict_set k v d'
  end.

Fixpoint dict_get {V : Type} (k : string) (d : dict V) : option V :=
  match d with
  | [] => None
  | (k', v') :: d' => if String.eqb k k' then Some v' else dict_get k d'
  end.

Definition keys {V : Type} (d : dict V) : list string := map fst d.

End Py.

Declare Scope py_scope.
Notation "x <- r ;; k" := (bind r (fun x => k))
  (at level 100, r at next level, right associativity) : py_scope.
Open Scope py_scope.

(* ================================================================== *)
(** * numpy: floats with non-finite values, reductions, padding *)
(* ================================================================== *)

(** The transcendental functions, which [Q] cannot compute exactly.  The
    theorems state what they need of them ([exp] positive, [sqrt 0 = 0]). *)
Class Elementary : Type := {
  exp : Q -> Q;
  sqrt : Q -> Q
}.

(** A float as numpy holds it.  Signed zeros are not distinguished. *)
Inductive np_float : Type :=
| Finite (q : Q)
| Inf (negative : bool)
| NaN.

Definition is_finite (x : np_float) : bool :=
  match x with
  | Finite _ => true
  | _ => false
  end.

Module Np.

Definition negative (q : Q) : bool := negb (Qle_bool 0 q).

(** [a - b]: no exception; [inf - inf] is nan. *)
Definition sub (a b : np_float) : np_float :=
  match a, b with
  | NaN, _ | _, NaN => NaN
  | Finite x, Finite y => Finite (x - y)
  | Finite _, Inf s => Inf (negb s)
  | Inf s, Finite _ => Inf s
  | Inf s, Inf t => if Bool.eqb s t then NaN else Inf s
  end.

(** [a / b] with numpy's default error state: a zero divisor raises nothing
    (a RuntimeWarning is printed); [0/0] is nan and [x/0] is a signed
    infinity. *)
Definition truediv (a b : np_float) : np_float :=
  match a, b with
  | NaN, _ | _, NaN => NaN
  | Finite x, Finite y =>
      if Qeq_bool y 0 then (if Qeq_bool x 0 then NaN else Inf (negative x))
      else Finite (x / y)
  | Finite x, Inf _ => Finite 0
  | Inf s, Finite y => Inf (xorb s (negative y))
  | Inf _, Inf _ => NaN
  end.

(** The sum of a flat array.  Each partial sum is kept in lowest terms, which
    leaves its value unchanged. *)
Definition sum (xs : list Q) : Q := fold_right (fun v acc => Qred (v + acc)) 0 xs.

(** [np.mean(xs)] of a flat array: nan for an empty one (with a warning). *)
Definition mean (xs : list Q) : np_float :=
  match xs with
  | [] => NaN
  | _ :: _ => Finite (sum xs / inject_Z (Z.of_nat (List.length xs)))
  end.

(** [np.std(xs)], the population standard deviation
    [sqrt(mean(abs(x - mean(x))**2))]. *)
Definition std {E : Elementary} (xs : list Q) : np_float :=
  match mean xs with
  | Finite mu =>
      match mean (map (fun x => (x - mu) * (x - mu)) xs) with
      | Finite v => Finite (sqrt v)
      | other => other
      end
  | other => other
  end.

(** A 2-D array as the list of its rows. *)
Definition array2 (A : Type) : Type := list (list A).

Definition flatten {A : Type} (m : array2 A) : list A := concat m.

(** [m.shape[1]] of a 2-D array with at least one row. *)
Definition shape1 {A : Type} (m : array2 A) : nat :=
  match m with
  | [] => 0%nat
  | r :: _ => length r
  end.

(** [np.mean(m, axis=1)]: one mean per row. *)
Definition mean_axis1 (m : array2 Q) : list np_float := map mean m.

(** [np.pad(m, ((0, 0), (0, w)), mode='constant')]: [w] zeros after each
    row. *)
Definition pad_right (w : nat) (m : array2 np_float) : array2 np_float :=
  map (fun r => r ++ repeat (Finite 0) w) m.

(** [m[:, :n]]. *)
Definition take_columns {A : Type} (n : nat) (m : array2 A) : array2 A :=
  map (firstn n) m.

(** [np.argmax(xs)] scans left to right and keeps the first position of the
    largest value seen: a later entry replaces the running best only when it
    is strictly larger. *)
Fixpoint argmax_scan (best : Q) (best_i i : nat) (xs : list Q) : nat :=
  match xs with
  | [] => best_i
  | x :: xs' =>
      if Qle_bool x best then argmax_scan best best_i (S i) xs'
      else argmax_scan x i (S i) xs'
  end.

Definition argmax (xs : list Q) : result nat :=
  match xs with
  | [] => Raise (ValueError "attempt to get argmax of an empty sequence")
  | x :: xs' => Ok (argmax_scan x 0 1 xs')
  end.

End Np.

(** A 4-D float tensor [batch, channel, row, column]. *)
Definition tensor4 : Type := list (list (Np.array2 np_float)).

(** [torch.from_numpy(m).float().unsqueeze(0).unsqueeze(0)]. *)
Definition unsqueeze2 (m : Np.array2 np_float) : tensor4 := [[m]].

(** The size of the last axis of each row of each plane. *)
Definition last_axis_is (n : nat) (t : tensor4) : Prop :=
  Forall (Forall (Forall (fun row => List.length row = n))) t.

(* ================================================================== *)
(** * torch.nn.functional *)
(* ================================================================== *)

Module F.

(** [F.softmax(x, dim=1)] on the single row of a [1, n] batch. *)
Definition softmax {E : Elementary} (x : list Q) : list Q :=
  let e := map exp x in
  map (fun ei => ei / Np.sum e) e.

End F.

(* ================================================================== *)
(** * src/models/schemas.py *)
(* ================================================================== *)

Module AudioFeatures.
Record t : Type := make {
  mfccs : list np_float;
  pitch : np_float;
  energy : np_float;
  spectral_centroid : np_float;
  zero_crossing_rate : np_float;
  spectral_rolloff : np_float;
  chroma : list np_float
}.
End AudioFeatures.

Module FacialLandmarks.
Record bbox : Type := make_bbox {
  x : Q;
  y : Q;
  width : Q;
  height : Q
}.
Record t : Type := make {
  landmarks : list (list Q);
  visibility : list Q;
  bounding_box : bbox
}.
End FacialLandmarks.

Module EmotionClassification.
Record t : Type := make {
  emotion : string;
  confidence : Q;
  probabilities : Py.dict Q
}.
End EmotionClassification.

(** [wellness_score] keeps its default [None] in everything the two services
    build and is left out, as is [timestamp], a wall-clock default. *)
Module EmotionDetectionResponse.
Record t : Type := make {
  emotion : string;
  confidence : Q;
  source : string;
  facial_landmarks : option (list (list Q));
  audio_features : option AudioFeatures.t
}.
End EmotionDetectionResponse.

(* ================================================================== *)
(** * Third-party interfaces *)
(* ================================================================== *)

(** A mono sample sequence. *)
Definition Audio : Type := list Q.

(** [base64.b64decode]. *)
Class Base64 : Type := {
  b64decode : string -> result string
}.

(** librosa, with the keyword arguments the source passes.  Every feature is
    a 2-D array [feature, frame] of finite values. *)
Module Librosa.
Class t : Type := {
  (** [librosa.load(io.BytesIO(bytes), sr=sr)]: samples and rate. *)
  load : string -> Z -> result (Audio * Z);
  (** [librosa.feature.mfcc(y=, sr=, n_mfcc=)]. *)
  mfcc : Audio -> Z -> nat -> result (Np.array2 Q);
  (** [librosa.piptrack(y=, sr=)]: pitches and magnitudes. *)
  piptrack : Audio -> Z -> result (Np.array2 Q * Np.array2 Q);
  (** [librosa.feature.rms(y=)]. *)
  rms : Audio -> result (Np.array2 Q);
  (** [librosa.feature.spectral_centroid(y=, sr=)]. *)
  spectral_centroid : Audio -> Z -> result (Np.array2 Q);
  (** [librosa.feature.zero_crossing_rate(y)]. *)
  zero_crossing_rate : Audio -> result (Np.array2 Q);
  (** [librosa.feature.spectral_rolloff(y=, sr=)]. *)
  spectral_rolloff : Audio -> Z -> result (Np.array2 Q);
  (** [librosa.feature.chroma_stft(y=, sr=)]. *)
  chroma_stft : Audio -> Z -> result (Np.array2 Q);
  (** [librosa.feature.melspectrogram(y=, sr=, n_mels=, fmax=)]. *)
  melspectrogram : Audio -> Z -> nat -> Z -> result (Np.array2 Q);
  (** [librosa.power_to_db(S, ref=np.max)]. *)
  power_to_db : Np.array2 Q -> result (Np.array2 Q)
}.
End Librosa.

(* ================================================================== *)
(** * src/services/audio_processing.py *)
(* ================================================================== *)

(** [AudioEmotionCNN]: [logits] is the stack conv1 .. fc3 in evaluation mode
    (dropout is the identity) on a tensor of the shape the network accepts, a
    function of the input alone with finite values; [fc3] has [num_classes]
    outputs. *)
Module AudioEmotionCNN.
Record t : Type := make {
  num_classes : nat;
  logits : tensor4 -> list Q
}.

Definition forward {E : Elementary} (net : t) (x : tensor4) : list Q :=
  F.softmax (logits net x).

(** The shape contract of [nn.Linear(256, num_classes)]. *)
Definition well_shaped (net : t) : Prop :=
  forall x, List.length (logits net x) = num_classes net.
End AudioEmotionCNN.

(** What [detect_emotion_from_audio] returns: a dict with exactly these four
    keys. *)
Module AudioEmotion.
Record t : Type := make {
  emotion : string;
  confidence : Q;
  audio_features : AudioFeatures.t;
  probabilities : Py.dict Q
}.
End AudioEmotion.

Module AudioProcessingService.

Definition EMOTIONS : list string :=
  ["angry"; "disgust"; "fear"; "happy"; "neutral"; "sad"; "surprise"].

Record t : Type := make {
  audio_model : option AudioEmotionCNN.t;
  sample_rate : Z
}.

(** [__init__]. *)
Definition init : t := {| audio_model := None; sample_rate := 22050 |}.

(** [{EMOTIONS[i]: float(probabilities[i]) for i in range(len(EMOTIONS))}]. *)
Fixpoint probability_dict (labels : list string) (probabilities : list Q)
    (idx : list nat) (d : Py.dict Q) : result (Py.dict Q) :=
  match idx with
  | [] => Ok d
  | i :: idx' =>
      k <- Py.getitem labels i ;;
      v <- Py.getitem probabilities i ;;
      probability_dict labels probabilities idx' (Py.dict_set k v d)
  end.

Section WithLibraries.
Context {E : Elementary} {B : Base64} {L : Librosa.t}.

Definition _decode_base64_audio (self : t) (audio_data : string) : result Audio :=
  reraise_as (ValueError "Invalid audio data")
    (payload <- (if Py.startswith "data:audio" audio_data
                 then Py.getitem (Py.split "," audio_data) 1
                 else Ok audio_data) ;;
     audio_bytes <- b64decode payload ;;
     loaded <- Librosa.load audio_bytes (sample_rate self) ;;
     Ok (fst loaded)).

Definition positive (p : Q) : bool := negb (Qle_bool p 0).

Definition extract_audio_features (self : t) (audio : Audio)
    : result AudioFeatures.t :=
  mfccs <- Librosa.mfcc audio (sample_rate self) 13 ;;
  let mfcc_mean := Np.mean_axis1 mfccs in
  pm <- Librosa.piptrack audio (sample_rate self) ;;
  let pitches := Np.flatten (fst pm) in
  let pitch := if existsb positive pitches
               then Np.mean (filter positive pitches)
               else Finite 0 in
  rms <- Librosa.rms audio ;;
  rms0 <- Py.getitem rms 0 ;;
  let energy := Np.mean rms0 in
  sc <- Librosa.spectral_centroid audio (sample_rate self) ;;
  sc0 <- Py.getitem sc 0 ;;
  let spectral_centroid := Np.mean sc0 in
  zcr <- Librosa.zero_crossing_rate audio ;;
  zcr0 <- Py.getitem zcr 0 ;;
  let zero_crossing_rate := Np.mean zcr0 in
  ro <- Librosa.spectral_rolloff audio (sample_rate self) ;;
  ro0 <- Py.getitem ro 0 ;;
  let spectral_rolloff := Np.mean ro0 in
  chroma <- Librosa.chroma_stft audio (sample_rate self) ;;
  let chroma_mean := Np.mean_axis1 chroma in
  Ok (AudioFeatures.make mfcc_mean pitch energy spectral_centroid
        zero_crossing_rate spectral_rolloff chroma_mean).

(** [(m - np.mean(m)) / np.std(m)], element by element. *)
Definition normalize (m : Np.array2 Q) : Np.array2 np_float :=
  let mu := Np.mean (Np.flatten m) in
  let sd := Np.std (Np.flatten m) in
  map (map (fun v => Np.truediv (Np.sub (Finite v) mu) sd)) m.

(** The fixed time-axis step: truncate a longer array, pad a shorter one. *)
Definition resize_time_axis (m : Np.array2 np_float) : Np.array2 np_float :=
  if (128 <? Np.shape1 m)%nat then Np.take_columns 128 m
  else Np.pad_right (128 - Np.shape1 m) m.

Definition _create_spectrogram (self : t) (audio : Audio) : result tensor4 :=
  mel_spec <- Librosa.melspectrogram audio (sample_rate self) 128 8000 ;;
  log_mel_spec <- Librosa.power_to_db mel_spec ;;
  let log_mel_spec := normalize log_mel_spec in
  let log_mel_spec := resize_time_axis log_mel_spec in
  Ok (unsqueeze2 log_mel_spec).

Definition detect_emotion_from_audio (self : t) (audio_data : string)
    : result AudioEmotion.t :=
  audio <- _decode_base64_audio self audio_data ;;
  features <- extract_audio_features self audio ;;
  spectrogram <- _create_spectrogram self audio ;;
  match audio_model self with
  | None => Raise (TypeError "'NoneType' object is not callable")
  | Some net =>
      let probabilities := AudioEmotionCNN.forward net spectrogram in
      emotion_idx <- Np.argmax probabilities ;;
      emotion <- Py.getitem EMOTIONS emotion_idx ;;
      confidence <- Py.getitem probabilities emotion_idx ;;
      probs <- probability_dict EMOTIONS probabilities
                 (seq 0 (List.length EMOTIONS)) [] ;;
      Ok (AudioEmotion.make emotion confidence features probs)
  end.

End WithLibraries.

End AudioProcessingService.

(* ================================================================== *)
(** * Images, OpenCV, PIL, MediaPipe, torch's generator *)
(* ================================================================== *)

(** A decoded image: rows of RGB pixels.  [_decode_base64_image] converts
    every image to mode RGB, so the array always has three axes and three
    channels, and the tests [len(image.shape) == 3] of the source hold. *)
Definition Pixel : Type := (Z * Z * Z)%type.
Definition Image : Type := Np.array2 Pixel.
Definition GrayImage : Type := Np.array2 Z.

(** [np.array(Image.open(io.BytesIO(bytes)).convert('RGB'))]. *)
Class Pil : Type := {
  open_rgb_array : string -> result Image
}.

Module Cv2.
Class t : Type := {
  (** [cv2.cvtColor(img, cv2.COLOR_BGR2RGB)]. *)
  cvtColor_BGR2RGB : Image -> result Image;
  (** [cv2.cvtColor(img, cv2.COLOR_RGB2GRAY)]. *)
  cvtColor_RGB2GRAY : Image -> result GrayImage;
  (** [cv2.resize(img, (w, h))]. *)
  resize : Image -> nat -> nat -> result Image
}.
End Cv2.

(** One point of a MediaPipe face: coordinates normalised to the image, and a
    visibility when the attribute exists. *)
Module NormalizedLandmark.
Record t : Type := make {
  x : Q;
  y : Q;
  visibility : option Q
}.
End NormalizedLandmark.

(** [mp.solutions.face_mesh.FaceMesh(static_image_mode=False, ...)]: with
    this setting the solution treats its inputs as a video stream and tracks
    the face from frame to frame, so what [process] answers may depend on the
    frames it was given before.  The object is its answer function and the
    frames seen so far, most recent first.  [multi_face_landmarks] is the list
    of faces, empty when the library reports none. *)
Module FaceMesh.
Definition Face : Type := list NormalizedLandmark.t.
Record t : Type := make {
  respond : list Image -> Image -> result (list Face);
  history : list Image
}.

Definition process (fm : t) (img : Image) : result (list Face) * t :=
  (respond fm (history fm) img, make (respond fm) (img :: history fm)).
End FaceMesh.

(** torch's process-wide random generator: the draws made so far select the
    next sample. *)
Module Rng.
Record t : Type := make {
  stream : nat -> nat -> list Q;
  draws : nat
}.

(** [torch.randn(1, n)]. *)
Definition randn (g : t) (n : nat) : list Q * t :=
  (stream g (draws g) n, make (stream g) (S (draws g))).
End Rng.

(* ================================================================== *)
(** * src/services/emotion_detection.py *)
(* ================================================================== *)

(** [EmotionCNN]: as for the audio network, [logits] is conv1 .. fc3 in
    evaluation mode. *)
Module EmotionCNN.
Record t : Type := make {
  num_classes : nat;
  logits : tensor4 -> list Q
}.

Definition forward {E : Elementary} (net : t) (x : tensor4) : list Q :=
  F.softmax (logits net x).

Definition well_shaped (net : t) : Prop :=
  forall x, List.length (logits net x) = num_classes net.
End EmotionCNN.

(** [MultimodalFusionNet]: [logits] is the two encoders, the fusion layer and
    the classifier, in evaluation mode. *)
Module MultimodalFusionNet.
Record t : Type := make {
  num_classes : nat;
  logits : list Q -> list Q -> list Q
}.

Definition forward {E : Elementary} (net : t) (visual_features audio_features : list Q)
    : list Q :=
  F.softmax (logits net visual_features audio_features).
End MultimodalFusionNet.

Module EmotionDetectionService.

Definition EMOTIONS : list string :=
  ["angry"; "disgust"; "fear"; "happy"; "neutral"; "sad"; "surprise"].

(** The state the methods read and write: the attributes the source uses
    after [initialize], and torch's generator. *)
Record t : Type := make {
  emotion_model : option EmotionCNN.t;
  multimodal_model : option MultimodalFusionNet.t;
  face_mesh : option FaceMesh.t;
  torch_rng : Rng.t
}.

Definition with_face_mesh (self : t) (fm : FaceMesh.t) : t :=
  make (emotion_model self) (multimodal_model self) (Some fm) (torch_rng self).

Definition with_torch_rng (self : t) (g : Rng.t) : t :=
  make (emotion_model self) (multimodal_model self) (face_mesh self) g.

(** [min(xs)] and [max(xs)] of a list: ValueError on an empty one. *)
Definition py_min (xs : list Q) : result Q :=
  match xs with
  | [] => Raise (ValueError "min() arg is an empty sequence")
  | v :: xs' => Ok (fold_left Qmin xs' v)
  end.

Definition py_max (xs : list Q) : result Q :=
  match xs with
  | [] => Raise (ValueError "max() arg is an empty sequence")
  | v :: xs' => Ok (fold_left Qmax xs' v)
  end.

(** The verdict returned when no face is found. *)
Definition no_face_response (source : string) : EmotionDetectionResponse.t :=
  EmotionDetectionResponse.make "neutral" (1 # 2) source None None.

Section WithLibraries.
Context {E : Elementary} {B : Base64} {P : Pil} {C : Cv2.t}.

Definition _decode_base64_image (self : t) (image_data : option string)
    : result Image :=
  reraise_as (ValueError "Invalid image data")
    match image_data with
    | None =>
        Raise (AttributeError "'NoneType' object has no attribute 'startswith'")
    | Some s =>
        payload <- (if Py.startswith "data:image" s
                    then Py.getitem (Py.split "," s) 1
                    else Ok s) ;;
        image_bytes <- b64decode payload ;;
        open_rgb_array image_bytes
    end.

(** The body of [_extract_facial_landmarks] after [face_mesh.process]
    returned: the landmark set of the first face, if any. *)
Definition landmarks_of_faces (image : Image) (faces : list FaceMesh.Face)
    : result (option FacialLandmarks.t) :=
  match faces with
  | [] => Ok None
  | face :: _ =>
      let h := inject_Z (Z.of_nat (List.length image)) in
      let w := inject_Z (Z.of_nat (Np.shape1 image)) in
      let landmark_points :=
        map (fun l => [NormalizedLandmark.x l * w; NormalizedLandmark.y l * h]) face in
      let visibility_scores :=
        map (fun l => match NormalizedLandmark.visibility l with
                      | Some v => v
                      | None => 1
                      end) face in
      let x_coords := map (fun l => NormalizedLandmark.x l * w) face in
      let y_coords := map (fun l => NormalizedLandmark.y l * h) face in
      min_x <- py_min x_coords ;;
      min_y <- py_min y_coords ;;
      max_x <- py_max x_coords ;;
      max_y <- py_max y_coords ;;
      Ok (Some (FacialLandmarks.make landmark_points visibility_scores
                  (FacialLandmarks.make_bbox min_x min_y
                     (max_x - min_x) (max_y - min_y))))
  end.

(** Every exception inside is caught and turned into [None]; the tracker has
    moved on whenever [process] was reached. *)
Definition _extract_facial_landmarks (self : t) (image : Image)
    : option FacialLandmarks.t * t :=
  match Cv2.cvtColor_BGR2RGB image with
  | Raise _ => (None, self)
  | Ok rgb_image =>
      match face_mesh self with
      | None => (None, self)
      | Some fm =>
          let (results, fm') := FaceMesh.process fm rgb_image in
          (or_none (faces <- results ;; landmarks_of_faces image faces),
           with_face_mesh self fm')
      end
  end.

Definition _preprocess_face_for_emotion (self : t) (image : Image)
    (landmarks : FacialLandmarks.t) : result tensor4 :=
  let bbox := FacialLandmarks.bounding_box landmarks in
  let x := Py.int (FacialLandmarks.x bbox) in
  let y := Py.int (FacialLandmarks.y bbox) in
  let w := Py.int (FacialLandmarks.width bbox) in
  let h := Py.int (FacialLandmarks.height bbox) in
  let padding := 20%Z in
  let x := Z.max 0 (x - padding) in
  let y := Z.max 0 (y - padding) in
  let w := Z.min (Z.of_nat (Np.shape1 image) - x) (w + 2 * padding) in
  let h := Z.min (Z.of_nat (List.length image) - y) (h + 2 * padding) in
  let face_region := map (Py.slice x (x + w)) (Py.slice y (y + h) image) in
  face_resized <- Cv2.resize face_region 48 48 ;;
  face_gray <- Cv2.cvtColor_RGB2GRAY face_resized ;;
  let face_normalized := map (map (fun g => Finite (inject_Z g / 255))) face_gray in
  Ok (unsqueeze2 face_normalized).

Definition _classify_emotion (self : t) (face_tensor : tensor4)
    : result EmotionClassification.t :=
  match emotion_model self with
  | None => Raise (TypeError "'NoneType' object is not callable")
  | Some net =>
      let probabilities := EmotionCNN.forward net face_tensor in
      emotion_idx <- Np.argmax probabilities ;;
      emotion <- Py.getitem EMOTIONS emotion_idx ;;
      confidence <- Py.getitem probabilities emotion_idx ;;
      emotion_probs <- AudioProcessingService.probability_dict EMOTIONS
                         probabilities (seq 0 (List.length EMOTIONS)) [] ;;
      Ok (EmotionClassification.make emotion confidence emotion_probs)
  end.

Definition detect_emotion (self : t) (image_data audio_data : option string)
    (session_id : string) : result EmotionDetectionResponse.t * t :=
  if negb (Py.truthy image_data) then
    (Raise (ValueError "Image data is required for emotion detection"), self)
  else
    match _decode_base64_image self image_data with
    | Raise e => (Raise e, self)
    | Ok image =>
        let (landmarks, self') := _extract_facial_landmarks self image in
        match landmarks with
        | None => (Ok (no_face_response "video"), self')
        | Some lm =>
            (face_tensor <- _preprocess_face_for_emotion self' image lm ;;
             emotion_result <- _classify_emotion self' face_tensor ;;
             Ok (EmotionDetectionResponse.make
                   (EmotionClassification.emotion emotion_result)
                   (EmotionClassification.confidence emotion_result)
                   "video"
                   (Some (FacialLandmarks.landmarks lm))
                   None),
             self')
        end
    end.

Definition detect_multimodal_emotion (self : t)
    (image_data audio_data : option string) (session_id : string)
    : result EmotionDetectionResponse.t * t :=
  match _decode_base64_image self image_data with
  | Raise e => (Raise e, self)
  | Ok image =>
      let (landmarks, self1) := _extract_facial_landmarks self image in
      match landmarks with
      | None => (Ok (no_face_response "audio"), self1)
      | Some lm =>
          let (visual_features, g1) := Rng.randn (torch_rng self1) 512 in
          let (audio_features, g2) := Rng.randn g1 128 in
          let self2 := with_torch_rng self1 g2 in
          (match multimodal_model self2 with
           | None => Raise (TypeError "'NoneType' object is not callable")
           | Some net =>
               let probabilities :=
                 MultimodalFusionNet.forward net visual_features audio_features in
               emotion_idx <- Np.argmax probabilities ;;
               emotion <- Py.getitem EMOTIONS emotion_idx ;;
               confidence <- Py.getitem probabilities emotion_idx ;;
               Ok (EmotionDetectionResponse.make emotion confidence "multimodal"
                     (Some (FacialLandmarks.landmarks lm)) None)
           end,
           self2)
      end
  end.

End WithLibraries.

End EmotionDetectionService.

(* ================================================================== *)
(** * src/services/audio_processing.py: detect_speech_patterns *)
(* ================================================================== *)

(** The two further library functions the speech analysis calls. *)
Class FrameAnalysis : Type := {
  (** [np.percentile(a, q)] of a flat array. *)
  percentile : list Q -> Q -> result np_float;
  (** [librosa.frames_to_time(frames, sr=)]. *)
  frames_to_time : Z -> Z -> result np_float
}.

Module SpeechPatterns.

(** [a > b] on floats: false as soon as nan is involved. *)
Definition greater (a b : np_float) : bool :=
  match a, b with
  | NaN, _ | _, NaN => false
  | Finite x, Finite y => negb (Qle_bool x y)
  | Finite _, Inf s => s
  | Inf s, Finite _ => negb s
  | Inf s, Inf t => negb s && t
  end.

(** [a * b] on floats: zero times an infinity is nan. *)
Definition mul (a b : np_float) : np_float :=
  match a, b with
  | NaN, _ | _, NaN => NaN
  | Finite x, Finite y => Finite (x * y)
  | Finite x, Inf s | Inf s, Finite x =>
      if Qeq_bool x 0 then NaN else Inf (xorb s (Np.negative x))
  | Inf s, Inf t => Inf (xorb s t)
  end.

(** [np.sum(mask)] of a boolean array: the number of [True]. *)
Definition count_true (mask : list bool) : nat :=
  List.length (filter (fun b : bool => b) mask).

(** [np.mean(mask)] of a boolean array: [True] counts 1, [False] 0. *)
Definition mean_mask (mask : list bool) : np_float :=
  Np.mean (map (fun b : bool => if b then 1 else 0) mask).

(** Inside [try: ... except Exception: return {}] the exception raised is
    not observable: a step either gives a value or ends the body. *)
Definition caught {A : Type} (r : result A) : option A :=
  match r with
  | Ok a => Some a
  | Raise _ => None
  end.

(** [a / b] on two ints: ZeroDivisionError for a zero divisor. *)
Definition int_truediv (a b : Z) : option Q :=
  if (b =? 0)%Z then None else Some (inject_Z a / inject_Z b).

Definition or_empty {V : Type} (o : option (Py.dict V)) : Py.dict V :=
  match o with
  | Some d => d
  | None => []
  end.

Notation "x <~ r ;; k" := (match r with Some x => k | None => None end)
  (at level 100, r at next level, right associativity, only parsing).

Section WithLibraries.
Context {E : Elementary} {L : Librosa.t} {N : FrameAnalysis}.

Definition detect_speech_patterns (self : AudioProcessingService.t)
    (audio : Audio) : Py.dict np_float :=
  let sample_rate := AudioProcessingService.sample_rate self in
  or_empty
    (rms1 <~ caught (Librosa.rms audio) ;;
     row1 <~ caught (Py.getitem rms1 0) ;;
     energy_threshold <~ caught (percentile row1 30) ;;
     rms2 <~ caught (Librosa.rms audio) ;;
     row2 <~ caught (Py.getitem rms2 0) ;;
     let voice_segments :=
       map (fun e => greater (Finite e) energy_threshold) row2 in
     frame_rate <~ caught (frames_to_time 1 sample_rate) ;;
     let speaking_time :=
       mul (Finite (inject_Z (Z.of_nat (count_true voice_segments)))) frame_rate in
     speaking_rate <~ (if greater speaking_time (Finite 0)
                       then duration <~ int_truediv (Z.of_nat (List.length audio))
                                          sample_rate ;;
                            Some (Np.truediv (Finite duration) speaking_time)
                       else Some (Finite 0)) ;;
     pm <~ caught (Librosa.piptrack audio sample_rate) ;;
     let valid_pitches :=
       filter AudioProcessingService.positive (Np.flatten (fst pm)) in
     let pitch_variation :=
       if (0 <? List.length valid_pitches)%nat then Np.std valid_pitches
       else Finite 0 in
     rms3 <~ caught (Librosa.rms audio) ;;
     energy <~ caught (Py.getitem rms3 0) ;;
     let energy_variation := Np.std energy in
     Some [("speaking_rate", speaking_rate);
           ("pitch_variation", pitch_variation);
           ("energy_variation", energy_variation);
           ("voice_activity_ratio", mean_mask voice_segments)]).

End WithLibraries.

End SpeechPatterns.

(* ================================================================== *)
(** * The services before [initialize] *)
(* ================================================================== *)

(** [EmotionDetectionService.__init__]: no model, no MediaPipe processor;
    [g] is the state of torch's generator when the object is made. *)
Definition uninitialised (g : Rng.t) : EmotionDetectionService.t :=
  EmotionDetectionService.make None None None g.

(* ================================================================== *)
(** * app.py: the two emotion endpoints *)
(* ================================================================== *)

Module EmotionDetectionRequest.
Record t : Type := make {
  image_data : option string;
  audio_data : option string;
  session_id : string
}.
End EmotionDetectionRequest.

(** The text of the exception a library raised, which the embedding does not
    fix. *)
Class LibraryText : Type := {
  library_message : string -> string
}.

Module App.

Record HTTPException : Type := http_exception {
  status_code : Z;
  detail : string
}.

(** What an endpoint gives back: the value it returns, or the
    [HTTPException] it raises. *)
Inductive response (A : Type) : Type :=
| Returned (a : A)
| Rejected (e : HTTPException).

Arguments Returned {A} a.
Arguments Rejected {A} e.

(** [str(e)]. *)
Definition str {T : LibraryText} (e : exn) : string :=
  match e with
  | ValueError msg | IndexError msg | TypeError msg | AttributeError msg => msg
  | LibraryError origin => library_message origin
  end.

(** The module-level service objects the two endpoints read; a service
    object, once made, is true. *)
Record t : Type := make {
  emotion_service : option EmotionDetectionService.t;
  audio_service : option AudioProcessingService.t
}.

Section WithLibraries.
Context {E : Elementary} {B : Base64} {P : Pil} {C : Cv2.t} {T : LibraryText}.

(** [POST /emotion/detect]. *)
Definition detect_emotion (app : t) (request : EmotionDetectionRequest.t)
    : response EmotionDetectionResponse.t * t :=
  match emotion_service app with
  | None =>
      (Rejected (http_exception 503 "Emotion detection service not available"),
       app)
  | Some service =>
      let (result, service') :=
        EmotionDetectionService.detect_emotion service
          (EmotionDetectionRequest.image_data request)
          (EmotionDetectionRequest.audio_data request)
          (EmotionDetectionRequest.session_id request) in
      (match result with
       | Ok r => Returned r
       | Raise e =>
           Rejected (http_exception 500
                       (String.append "Emotion detection failed: " (str e)))
       end,
       make (Some service') (audio_service app))
  end.

(** [POST /emotion/multimodal]. *)
Definition detect_multimodal_emotion (app : t)
    (request : EmotionDetectionRequest.t)
    : response EmotionDetectionResponse.t * t :=
  match emotion_service app, audio_service app with
  | Some service, Some _ =>
      let (result, service') :=
        EmotionDetectionService.detect_multimodal_emotion service
          (EmotionDetectionRequest.image_data request)
          (EmotionDetectionRequest.audio_data request)
          (EmotionDetectionRequest.session_id request) in
      (match result with
       | Ok r => Returned r
       | Raise e =>
           Rejected (http_exception 500
                       (String.append "Multimodal detection failed: " (str e)))
       end,
       make (Some service') (audio_service app))
  | _, _ =>
      (Rejected (http_exception 503 "Required services not available"), app)
  end.

End WithLibraries.

End App.

(* ================================================================== *)
(** * Loading the models: initialize, reload_models, health_check *)
(* ================================================================== *)

(** [ModelStatus].  [last_updated] is a wall-clock value and is left out;
    [memory_usage] and [inference_time] keep their default [None]. *)
Module ModelStatus.
Record t : Type := make {
  model_name : string;
  status : string;
  version : string
}.

(** [m.status = s]. *)
Definition set_status (m : t) (s : string) : t :=
  make (model_name m) s (version m).
End ModelStatus.

Module Torch.

(** What [net.load_state_dict(torch.load(path, ...))] does to a network: it
    returns, the network holding the stored weights; or [torch.load] raises
    FileNotFoundError, before the network is touched; or another exception
    is raised, the network being as the failed call left it. *)
Inductive loading (Net : Type) : Type :=
| Loaded (net : Net)
| FileNotFound
| Failed (e : exn) (net : Net).

Arguments Loaded {Net} net.
Arguments FileNotFound {Net}.
Arguments Failed {Net} e net.

(** torch as the loaders use it.  A constructor draws the initial weights
    from torch's generator; [to(device)] and [eval()] return and leave the
    evaluation-mode function of the network as it is. *)
Class t : Type := {
  cuda_is_available : bool;
  new_emotion_cnn : nat -> Rng.t -> EmotionCNN.t * Rng.t;
  new_multimodal_fusion_net : nat -> Rng.t -> MultimodalFusionNet.t * Rng.t;
  new_audio_emotion_cnn : nat -> Rng.t -> AudioEmotionCNN.t * Rng.t;
  (** The path, [map_location] when given, and the network to load into. *)
  load_emotion_cnn :
    string -> option string -> EmotionCNN.t -> loading EmotionCNN.t;
  load_multimodal_fusion_net :
    string -> option string -> MultimodalFusionNet.t
    -> loading MultimodalFusionNet.t;
  load_audio_emotion_cnn :
    string -> option string -> AudioEmotionCNN.t -> loading AudioEmotionCNN.t
}.

(** [map_location='cpu'] is passed exactly when CUDA is not available. *)
Definition map_location {T : t} : option string :=
  if cuda_is_available then None else Some "cpu".

(** [str(torch.device('cuda' if torch.cuda.is_available() else 'cpu'))]. *)
Definition device {T : t} : string :=
  if cuda_is_available then "cuda" else "cpu".

End Torch.

(** The two MediaPipe constructors [initialize] calls: a face detector, of
    which only the existence is ever read, and a face mesh, given by the
    answer function of the new tracker. *)
Class MediaPipe : Type := {
  new_face_detection : result unit;
  new_face_mesh : result (list Image -> Image -> result (list FaceMesh.Face))
}.

(** What [health_check] of the emotion service returns. *)
Module Health.
Record t : Type := make {
  status : string;
  models_loaded : Py.dict bool;
  device : string
}.
End Health.

Definition is_not_none {A : Type} (o : option A) : bool :=
  match o with
  | Some _ => true
  | None => false
  end.

(** The emotion service with the attributes the loaders write: the service
    state the detectors use, whether [face_detection] is set, and the two
    entries of [model_status]. *)
Module EmotionLoader.

Record t : Type := make {
  service : EmotionDetectionService.t;
  face_detection : bool;
  emotion_cnn : ModelStatus.t;
  multimodal_fusion : ModelStatus.t
}.

(** [__init__]. *)
Definition init (g : Rng.t) : t :=
  make (EmotionDetectionService.make None None None g) false
    (ModelStatus.make "emotion_cnn" "not_loaded" "1.0.0")
    (ModelStatus.make "multimodal_fusion" "not_loaded" "1.0.0").

Definition with_service (self : t) (s : EmotionDetectionService.t) : t :=
  make s (face_detection self) (emotion_cnn self) (multimodal_fusion self).

Definition with_emotion_model (self : t) (net : EmotionCNN.t) : t :=
  let s := service self in
  with_service self
    (EmotionDetectionService.make (Some net)
       (EmotionDetectionService.multimodal_model s)
       (EmotionDetectionService.face_mesh s)
       (EmotionDetectionService.torch_rng s)).

Definition with_multimodal_model (self : t) (net : MultimodalFusionNet.t) : t :=
  let s := service self in
  with_service self
    (EmotionDetectionService.make (EmotionDetectionService.emotion_model s)
       (Some net)
       (EmotionDetectionService.face_mesh s)
       (EmotionDetectionService.torch_rng s)).

Definition with_emotion_cnn_status (self : t) (status : string) : t :=
  make (service self) (face_detection self)
    (ModelStatus.set_status (emotion_cnn self) status) (multimodal_fusion self).

Definition with_multimodal_fusion_status (self : t) (status : string) : t :=
  make (service self) (face_detection self) (emotion_cnn self)
    (ModelStatus.set_status (multimodal_fusion self) status).

Section WithLibraries.
Context {T : Torch.t} {M : MediaPipe}.

Definition _load_emotion_model (self : t) : result unit * t :=
  let (net, g) :=
    Torch.new_emotion_cnn (List.length EmotionDetectionService.EMOTIONS)
      (EmotionDetectionService.torch_rng (service self)) in
  let self :=
    with_emotion_model
      (with_service self
         (EmotionDetectionService.with_torch_rng (service self) g)) net in
  match Torch.load_emotion_cnn "models/emotion_cnn.pth" Torch.map_location net with
  | Torch.Loaded net' =>
      (Ok tt, with_emotion_cnn_status (with_emotion_model self net') "loaded")
  | Torch.FileNotFound => (Ok tt, with_emotion_cnn_status self "loaded")
  | Torch.Failed e net' =>
      (Raise e, with_emotion_cnn_status (with_emotion_model self net') "error")
  end.

Definition _load_multimodal_model (self : t) : result unit * t :=
  let (net, g) :=
    Torch.new_multimodal_fusion_net
      (List.length EmotionDetectionService.EMOTIONS)
      (EmotionDetectionService.torch_rng (service self)) in
  let self :=
    with_multimodal_model
      (with_service self
         (EmotionDetectionService.with_torch_rng (service self) g)) net in
  match Torch.load_multimodal_fusion_net "models/multimodal_fusion.pth"
          Torch.map_location net with
  | Torch.Loaded net' =>
      (Ok tt,
       with_multimodal_fusion_status (with_multimodal_model self net') "loaded")
  | Torch.FileNotFound => (Ok tt, with_multimodal_fusion_status self "loaded")
  | Torch.Failed e net' =>
      (Raise e,
       with_multimodal_fusion_status (with_multimodal_model self net') "error")
  end.

(** [await self._load_emotion_model(); await self._load_multimodal_model()]. *)
Definition reload_models (self : t) : result unit * t :=
  match _load_emotion_model self with
  | (Raise e, self1) => (Raise e, self1)
  | (Ok _, self1) => _load_multimodal_model self1
  end.

Definition initialize (self : t) : result unit * t :=
  match new_face_detection with
  | Raise e => (Raise e, self)
  | Ok _ =>
      let self :=
        make (service self) true (emotion_cnn self) (multimodal_fusion self) in
      match new_face_mesh with
      | Raise e => (Raise e, self)
      | Ok respond =>
          reload_models
            (with_service self
               (EmotionDetectionService.with_face_mesh (service self)
                  (FaceMesh.make respond [])))
      end
  end.

Definition health_check (self : t) : Health.t :=
  let s := service self in
  Health.make
    (if is_not_none (EmotionDetectionService.emotion_model s)
        && is_not_none (EmotionDetectionService.multimodal_model s)
     then "ready" else "not_ready")
    [("emotion_cnn", is_not_none (EmotionDetectionService.emotion_model s));
     ("multimodal_fusion",
      is_not_none (EmotionDetectionService.multimodal_model s));
     ("mediapipe",
      face_detection self && is_not_none (EmotionDetectionService.face_mesh s))]
    Torch.device.

Definition get_model_status (self : t) : Py.dict ModelStatus.t :=
  [("emotion_cnn", emotion_cnn self);
   ("multimodal_fusion", multimodal_fusion self)].

End WithLibraries.

End EmotionLoader.

(** The audio service with its [model_status], and torch's generator, from
    which the constructor of the network draws. *)
Module AudioLoader.

Record t : Type := make {
  service : AudioProcessingService.t;
  model_status : ModelStatus.t;
  torch_rng : Rng.t
}.

(** What [health_check] returns. *)
Record health : Type := make_health {
  status : string;
  model_loaded : bool;
  device : string
}.

(** [__init__]. *)
Definition init (g : Rng.t) : t :=
  make AudioProcessingService.init
    (ModelStatus.make "audio_emotion_cnn" "not_loaded" "1.0.0") g.

Definition with_audio_model (self : t) (net : AudioEmotionCNN.t) : t :=
  make (AudioProcessingService.make (Some net)
          (AudioProcessingService.sample_rate (service self)))
    (model_status self) (torch_rng self).

Definition with_status (self : t) (status : string) : t :=
  make (service self) (ModelStatus.set_status (model_status self) status)
    (torch_rng self).

Section WithLibraries.
Context {T : Torch.t}.

Definition initialize (self : t) : result unit * t :=
  let (net, g) :=
    Torch.new_audio_emotion_cnn
      (List.length AudioProcessingService.EMOTIONS) (torch_rng self) in
  let self :=
    with_audio_model (make (service self) (model_status self) g) net in
  match Torch.load_audio_emotion_cnn "models/audio_emotion_cnn.pth"
          Torch.map_location net with
  | Torch.Loaded net' => (Ok tt, with_status (with_audio_model self net') "loaded")
  | Torch.FileNotFound => (Ok tt, with_status self "loaded")
  | Torch.Failed e net' =>
      (Raise e, with_status (with_audio_model self net') "error")
  end.

Definition reload_models (self : t) : result unit * t := initialize self.

Definition health_check (self : t) : health :=
  let loaded := is_not_none (AudioProcessingService.audio_model (service self)) in
  make_health (if loaded then "ready" else "not_ready") loaded Torch.device.

Definition get_model_status (self : t) : ModelStatus.t := model_status self.

End WithLibraries.

End AudioLoader.

(* ================================================================== *)
(** * Concrete collaborators

    Instances of the third-party interfaces on which the pipeline can be run:
    they discharge the hypotheses of the theorems below at concrete inputs.
    Where a library function has a simple documented definition it is
    followed ([zero_crossing_rate], [rms], the channel swap, the shapes of the
    feature arrays); the other values are placeholders. *)
(* ================================================================== *)

Module Fixtures.

(** A positive, increasing rational stand-in for the exponential. *)
Definition exp_q (v : Q) : Q :=
  if Qle_bool 0 v then 1 + v else 1 / (1 - v).

(** The square root to six decimals. *)
Definition sqrt_q (v : Q) : Q :=
  Qmake (Z.sqrt (Qnum v * 10 ^ 12 / Zpos (Qden v))) (10 ^ 6).

Definition elementary : Elementary := {| exp := exp_q; sqrt := sqrt_q |}.

Definition base64 : Base64 := {| b64decode := fun s => Ok s |}.

(** Eight-bit samples, one per byte, centred on 128. *)
Definition pcm8 (s : string) : Audio :=
  map (fun c => inject_Z (Z.of_nat (nat_of_ascii c) - 128) / 128)
      (list_ascii_of_string s).

(** librosa's framing with [center=True]: [frame_length // 2] samples are
    added at both ends, and frame [i] is the window of [frame_length] samples
    starting at [i * hop_length]; a clip of [n] samples has
    [1 + n // hop_length] frames. *)
Definition frame_length : nat := 2048.
Definition hop_length : nat := 512.

Definition n_frames (y : Audio) : nat := 1 + List.length y / hop_length.

Definition frames (padded : Audio) (n : nat) : list (list Q) :=
  map (fun i => firstn frame_length (skipn (i * hop_length) padded)) (seq 0 n).

(** [np.pad(y, frame_length // 2, mode='edge')]; an empty array cannot be
    extended. *)
Definition pad_edge (y : Audio) : result Audio :=
  match y with
  | [] => Raise (LibraryError "numpy.pad")
  | first :: _ =>
      Ok (repeat first (frame_length / 2) ++ y
          ++ repeat (last y first) (frame_length / 2))
  end.

(** [np.pad(y, frame_length // 2, mode='constant')]. *)
Definition pad_zero (y : Audio) : Audio :=
  repeat 0 (frame_length / 2) ++ y ++ repeat 0 (frame_length / 2).

(** [librosa.zero_crossings(frame, pad=False)]: the number of positions whose
    sign bit differs from the one before. *)
Fixpoint sign_changes (prev : bool) (xs : list Q) : nat :=
  match xs with
  | [] => 0
  | v :: xs' =>
      let s := Np.negative v in
      (if Bool.eqb s prev then 0 else 1) + sign_changes s xs'
  end.

Definition zero_crossings (frame : list Q) : nat :=
  match frame with
  | [] => 0
  | v :: xs => sign_changes (Np.negative v) xs
  end.

(** [librosa.feature.zero_crossing_rate]: the fraction of zero crossings in
    each frame of the edge-padded signal. *)
Definition zero_crossing_rate (y : Audio) : result (Np.array2 Q) :=
  padded <- pad_edge y ;;
  Ok [map (fun f => inject_Z (Z.of_nat (zero_crossings f))
                    / inject_Z (Z.of_nat frame_length))
          (frames padded (n_frames y))].

Definition mean_square (f : list Q) : Q :=
  Np.sum (map (fun v => v * v) f) / inject_Z (Z.of_nat frame_length).

(** [librosa.feature.rms]: the root of the mean square of each frame of the
    zero-padded signal. *)
Definition rms (y : Audio) : result (Np.array2 Q) :=
  Ok [map (fun f => sqrt_q (mean_square f)) (frames (pad_zero y) (n_frames y))].

(** The power of each frame, repeated for every band: zero on silence, as the
    mel spectrogram is. *)
Definition melspectrogram (y : Audio) (sr : Z) (n_mels : nat) (fmax : Z)
    : result (Np.array2 Q) :=
  Ok (repeat (map mean_square (frames (pad_zero y) (n_frames y))) n_mels).

(** Decibels relative to the maximum, with the logarithm left out: the largest
    entry maps to 0, and a zero array to a zero array, as with
    [power_to_db(S, ref=np.max)]. *)
Definition power_to_db (power : Np.array2 Q) : result (Np.array2 Q) :=
  match Np.flatten power with
  | [] => Raise (LibraryError "numpy.max")
  | v :: vs =>
      let top := fold_left Qmax vs v in
      Ok (map (map (fun s => s - top)) power)
  end.

Definition zeros (rows : nat) (y : Audio) : Np.array2 Q :=
  repeat (repeat 0 (n_frames y)) rows.

Definition librosa : Librosa.t := {|
  Librosa.load := fun bytes sr => Ok (pcm8 bytes, sr);
  Librosa.mfcc := fun y sr n_mfcc => Ok (zeros n_mfcc y);
  Librosa.piptrack := fun y sr => Ok (zeros 1025 y, zeros 1025 y);
  Librosa.rms := rms;
  Librosa.spectral_centroid := fun y sr => Ok (zeros 1 y);
  Librosa.zero_crossing_rate := zero_crossing_rate;
  Librosa.spectral_rolloff := fun y sr => Ok (zeros 1 y);
  Librosa.chroma_stft := fun y sr => Ok (zeros 12 y);
  Librosa.melspectrogram := melspectrogram;
  Librosa.power_to_db := power_to_db
|}.

(** A one-row bitmap: one grey pixel per byte; no bytes, no image. *)
Definition bitmap (s : string) : result Image :=
  match s with
  | EmptyString => Raise (LibraryError "PIL.Image.open")
  | String _ _ =>
      Ok [map (fun c => let v := Z.of_nat (nat_of_ascii c) in (v, v, v))
              (list_ascii_of_string s)]
  end.

Definition pil : Pil := {| open_rgb_array := bitmap |}.

Definition is_empty (img : Image) : bool :=
  match Np.flatten img with
  | [] => true
  | _ :: _ => false
  end.

(** The channel swap of [COLOR_BGR2RGB]. *)
Definition swap_channels (img : Image) : result Image :=
  if is_empty img then Raise (LibraryError "cv2.cvtColor")
  else Ok (map (map (fun '(c0, c1, c2) => (c2, c1, c0))) img).

(** The luma of [COLOR_RGB2GRAY], rounded. *)
Definition luma (img : Image) : result GrayImage :=
  if is_empty img then Raise (LibraryError "cv2.cvtColor")
  else Ok (map (map (fun '(r, g, b) =>
                       ((299 * r + 587 * g + 114 * b + 500) / 1000)%Z)) img).

(** Nearest-neighbour resampling; an empty source is an error, as in OpenCV. *)
Definition nearest (img : Image) (w h : nat) : result Image :=
  if is_empty img then Raise (LibraryError "cv2.resize")
  else
    let src_h := List.length img in
    let src_w := Np.shape1 img in
    Ok (map (fun i =>
               let row := nth (i * src_h / h) img [] in
               map (fun j => nth (j * src_w / w) row (0, 0, 0)%Z) (seq 0 w))
            (seq 0 h)).

Definition cv2 : Cv2.t := {|
  Cv2.cvtColor_BGR2RGB := swap_channels;
  Cv2.cvtColor_RGB2GRAY := luma;
  Cv2.resize := nearest
|}.

(** A face of two landmarks, at opposite corners of the middle of the frame. *)
Definition face : FaceMesh.Face :=
  [NormalizedLandmark.make (1 # 4) 0 None;
   NormalizedLandmark.make (3 # 4) 1 (Some (9 # 10))].

(** A detector that never finds a face. *)
Definition blind : FaceMesh.t := FaceMesh.make (fun _ _ => Ok []) [].

(** A detector that finds the same face in every frame. *)
Definition steady : FaceMesh.t := FaceMesh.make (fun _ _ => Ok [face]) [].


(** A face between the normalised abscissas [x0] and [x1]. *)
Definition face_between (x0 x1 : Q) : FaceMesh.Face :=
  [NormalizedLandmark.make x0 0 None; NormalizedLandmark.make x1 1 None].

(** A tracker whose landmarks move by one hundredth of the frame width after
    its first frame. *)
Definition drifting : FaceMesh.t :=
  FaceMesh.make (fun seen _ => match seen with
                               | [] => Ok [face_between (30 # 100) (40 # 100)]
                               | _ :: _ => Ok [face_between (31 # 100) (41 # 100)]
                               end) [].

(** Networks given by their logits. *)
Definition angry_cnn : EmotionCNN.t :=
  EmotionCNN.make 7 (fun _ => [2; 0; 0; 1; 0; 0; 0]).

(** Logits level on "fear" and "sad", the two largest. *)
Definition tied_cnn : EmotionCNN.t :=
  EmotionCNN.make 7 (fun _ => [0; -1; 3; 1; 0; 3; 0]).

Definition brightest (t : tensor4) : Q :=
  fold_right (fun v acc => match v with
                           | Finite q => Qmax q acc
                           | _ => acc
                           end) 0 (concat (concat (concat t))).

(** "happy" on a face with a pixel brighter than one half, "angry" on a
    darker one. *)
Definition bright_is_happy_cnn : EmotionCNN.t :=
  EmotionCNN.make 7 (fun t => if Qle_bool (brightest t) (1 # 2)
                              then [1; 0; 0; 0; 0; 0; 0]
                              else [0; 0; 0; 1; 0; 0; 0]).

Definition happy_audio_cnn : AudioEmotionCNN.t :=
  AudioEmotionCNN.make 7 (fun _ => [0; 0; 0; 3; 0; 0; 0]).

Definition fusion : MultimodalFusionNet.t :=
  MultimodalFusionNet.make 7 (fun _ _ => [0; 0; 0; 0; 0; 1; 0]).

Definition rng : Rng.t :=
  Rng.make (fun k n => repeat (inject_Z (Z.of_nat k)) n) 0.

Definition service (net : EmotionCNN.t) (fm : FaceMesh.t)
    : EmotionDetectionService.t :=
  EmotionDetectionService.make (Some net) (Some fusion) (Some fm) rng.

Definition audio_service : AudioProcessingService.t :=
  AudioProcessingService.make (Some happy_audio_cnn) 22050.

(** Request payloads: a four-pixel image, a clip of 600 eight-bit samples
    rising from silence, and 600 samples of silence. *)
Definition picture : string := "MAIT".

Definition clip : string :=
  string_of_list_ascii (map ascii_of_nat (seq 128 100 ++ repeat 28%nat 500)).

(** A one-row image of 200 pixels, the left half dark, the right half
    bright. *)
Definition wide_picture : string :=
  string_of_list_ascii (map ascii_of_nat (repeat 10%nat 100 ++ repeat 250%nat 100)).

Definition silence : Audio := repeat 0 600.

Definition samples : Audio := pcm8 clip.


(** The two services run on the stand-ins. *)
Definition detect_emotion :=
  EmotionDetectionService.detect_emotion
    (E := elementary) (B := base64) (P := pil) (C := cv2).

Definition detect_multimodal_emotion :=
  EmotionDetectionService.detect_multimodal_emotion
    (E := elementary) (B := base64) (P := pil) (C := cv2).

Definition classify_emotion :=
  EmotionDetectionService._classify_emotion (E := elementary).

Definition detect_emotion_from_audio :=
  AudioProcessingService.detect_emotion_from_audio
    (E := elementary) (B := base64) (L := librosa).

Definition extract_audio_features :=
  AudioProcessingService.extract_audio_features (L := librosa).

Definition create_spectrogram :=
  AudioProcessingService._create_spectrogram (E := elementary) (L := librosa).

(** Half a second and five seconds of a constant signal at 22050 Hz. *)
Definition half_second : Audio := repeat (1 # 2) (Z.to_nat 11025).
Definition five_seconds : Audio := repeat (1 # 2) (Z.to_nat 110250).

(** The log-mel spectrogram the stand-in library computes for a clip. *)
Definition log_mel_of (y : Audio) : Np.array2 Q :=
  match (mel <- melspectrogram y 22050 128 8000 ;; power_to_db mel) with
  | Ok m => m
  | Raise _ => []
  end.

(** What the audio service computes for the clip with the stand-in library. *)
Definition or_default {A : Type} (d : A) (r : result A) : A :=
  match r with
  | Ok a => a
  | Raise _ => d
  end.

Definition clip_features : AudioFeatures.t :=
  or_default (AudioFeatures.make [] NaN NaN NaN NaN NaN [])
    (extract_audio_features audio_service samples).

Definition clip_spectrogram : tensor4 :=
  or_default [] (create_spectrogram audio_service samples).

(** The shape [rows, columns] of the only plane of a tensor. *)
Definition plane_shape (r : result tensor4) : option (nat * nat) :=
  match r with
  | Ok [[m]] =>
      if forallb (fun row => Nat.eqb (List.length row) (Np.shape1 m)) m
      then Some (List.length m, Np.shape1 m)
      else None
  | _ => None
  end.

End Fixtures.

(* ================================================================== *)
(** * Specification vocabulary *)
(* ================================================================== *)

(** [v] is the entry of [xs] at [i], no entry is larger, and every entry
    before [i] is strictly smaller: [i] is the first position of the
    maximum. *)
Definition first_max (xs : list Q) (i : nat) (v : Q) : Prop :=
  nth_error xs i = Some v /\
  (forall j w, nth_error xs j = Some w -> w <= v) /\
  (forall j w, (j < i)%nat -> nth_error xs j = Some w -> w < v).

(** The exact sum of a list, without the intermediate reductions of
    [Np.sum]. *)
Definition total (xs : list Q) : Q := fold_right Qplus 0 xs.

(** Every entry of a tensor is a finite number. *)
Definition all_finite (t : tensor4) : bool :=
  forallb (forallb (forallb (forallb is_finite))) t.

(** A feature record whose every field is zero. *)
Definition is_zero (v : np_float) : bool :=
  match v with
  | Finite q => Qeq_bool q 0
  | _ => false
  end.


(** The emotion of a result, when there is one. *)
Definition emotion_of (r : result EmotionDetectionResponse.t) : option string :=
  match r with
  | Ok v => Some (EmotionDetectionResponse.emotion v)
  | Raise _ => None
  end.

(** The verdict of [detect_emotion] is a function of the decoded image, the
    landmarks found and the visual classifier. *)
Definition verdict {E : Elementary} {C : Cv2.t} (model : option EmotionCNN.t) (image : Image)
    (landmarks : option FacialLandmarks.t) : result EmotionDetectionResponse.t :=
  let self := EmotionDetectionService.make model None None
                (Rng.make (fun _ _ => []) 0) in
  match landmarks with
  | None => Ok (EmotionDetectionService.no_face_response "video")
  | Some lm =>
      face_tensor <- EmotionDetectionService._preprocess_face_for_emotion self image lm ;;
      emotion_result <- EmotionDetectionService._classify_emotion self face_tensor ;;
      Ok (EmotionDetectionResponse.make
            (EmotionClassification.emotion emotion_result)
            (EmotionClassification.confidence emotion_result)
            "video" (Some (FacialLandmarks.landmarks lm)) None)
  end.

(* ================================================================== *)
(** * Further vocabulary for the two services *)
(* ================================================================== *)

(** [c in s] for a character. *)
Fixpoint contains (c : ascii) (s : string) : bool :=
  match s with
  | EmptyString => false
  | String a s' => if Ascii.eqb a c then true else contains c s'
  end.

(** A data URL: a header, a comma, the payload. *)
Definition data_url (header payload : string) : string :=
  String.append header (String "," payload).

(** The source's [face_region]: the rows [y : y + h] and columns
    [x : x + w] of the image, for the bounding box enlarged by the padding of
    20 pixels and clamped as the source clamps it. *)
Definition crop_box (image : Image) (landmarks : FacialLandmarks.t)
    : Z * Z * Z * Z :=
  let bbox := FacialLandmarks.bounding_box landmarks in
  let x := Py.int (FacialLandmarks.x bbox) in
  let y := Py.int (FacialLandmarks.y bbox) in
  let w := Py.int (FacialLandmarks.width bbox) in
  let h := Py.int (FacialLandmarks.height bbox) in
  let padding := 20%Z in
  let x := Z.max 0 (x - padding) in
  let y := Z.max 0 (y - padding) in
  let w := Z.min (Z.of_nat (Np.shape1 image) - x) (w + 2 * padding) in
  let h := Z.min (Z.of_nat (List.length image) - y) (h + 2 * padding) in
  (x, y, w, h).

Definition face_region (image : Image) (landmarks : FacialLandmarks.t) : Image :=
  let '(x, y, w, h) := crop_box image landmarks in
  map (Py.slice x (x + w)) (Py.slice y (y + h) image).

(** An image of [H] rows and [W] columns. *)
Definition has_shape {A : Type} (H W : nat) (m : Np.array2 A) : Prop :=
  List.length m = H /\ Forall (fun row => List.length row = W) m.

(** Emotion and confidence of a result, when there is one. *)
Definition label_and_confidence (r : result EmotionDetectionResponse.t)
    : option (string * Q) :=
  match r with
  | Ok v => Some (EmotionDetectionResponse.emotion v,
                  EmotionDetectionResponse.confidence v)
  | Raise _ => None
  end.

(** The population variance [np.std] takes the root of. *)
Definition variance (xs : list Q) : np_float :=
  match Np.mean xs with
  | Finite mu => Np.mean (map (fun x => (x - mu) * (x - mu)) xs)
  | other => other
  end.

(** Further concrete inputs. *)
Module Samples.

(** The decoded four-pixel picture and the landmark set the steady detector
    yields on it. *)
Definition picture_image : Image :=
  Fixtures.or_default [] (Fixtures.bitmap Fixtures.picture).

Definition found_landmarks : FacialLandmarks.t :=
  match fst (EmotionDetectionService._extract_facial_landmarks
               (C := Fixtures.cv2)
               (Fixtures.service Fixtures.angry_cnn Fixtures.steady)
               picture_image) with
  | Some lm => lm
  | None => FacialLandmarks.make [] [] (FacialLandmarks.make_bbox 0 0 0 0)
  end.

(** The face tensor OpenCV's stand-in prepares from them. *)
Definition face_tensor : tensor4 :=
  Fixtures.or_default []
    (EmotionDetectionService._preprocess_face_for_emotion (C := Fixtures.cv2)
       (Fixtures.service Fixtures.angry_cnn Fixtures.steady)
       picture_image found_landmarks).

End Samples.

(** Stand-ins for the frame analysis. *)
Module Frames.

Fixpoint insert_sorted (v : Q) (xs : list Q) : list Q :=
  match xs with
  | [] => [v]
  | x :: xs' => if Qle_bool v x then v :: xs else x :: insert_sorted v xs'
  end.

Definition sort (xs : list Q) : list Q := fold_right insert_sorted [] xs.

(** The percentile by linear interpolation between the two closest ranks,
    numpy's default method. *)
Definition percentile_linear (xs : list Q) (q : Q) : result np_float :=
  match sort xs with
  | [] => Ok NaN
  | first :: _ as sorted =>
      let position := q / 100 * inject_Z (Z.of_nat (List.length xs) - 1) in
      let rank := (Qnum position / Zpos (Qden position))%Z in
      let below := Z.to_nat rank in
      let fraction := position - inject_Z rank in
      let lower := nth below sorted first in
      let upper := nth (S below) sorted lower in
      Ok (Finite (Qred (lower + fraction * (upper - lower))))
  end.

(** [frames * hop_length / sr] with librosa's default hop of 512 samples. *)
Definition frames_to_time_512 (frames sr : Z) : result np_float :=
  Ok (Np.truediv (Finite (inject_Z (frames * 512))) (Finite (inject_Z sr))).

Definition frame_analysis : FrameAnalysis :=
  {| percentile := percentile_linear; frames_to_time := frames_to_time_512 |}.

Definition detect_speech_patterns :=
  SpeechPatterns.detect_speech_patterns (E := Fixtures.elementary)
    (L := Fixtures.librosa) (N := frame_analysis).

(** A burst of sound followed by silence, and its frame energies. *)
Definition burst : Audio := repeat (1 # 2) 1500 ++ repeat 0 1500.

Definition burst_energy : list Q :=
  match Fixtures.rms burst with
  | Ok (row :: _) => row
  | _ => []
  end.

(** The threshold the stand-in percentile gives for them. *)
Definition burst_threshold : np_float :=
  Fixtures.or_default NaN (percentile_linear burst_energy 30).

End Frames.

(** A running application on the stand-ins. *)
Module Running.

Definition library_text : LibraryText :=
  {| library_message := fun origin => String.append origin " failed" |}.

Definition app : App.t :=
  App.make (Some (Fixtures.service Fixtures.angry_cnn Fixtures.steady))
    (Some Fixtures.audio_service).

Definition detect_emotion :=
  App.detect_emotion (E := Fixtures.elementary) (B := Fixtures.base64)
    (P := Fixtures.pil) (C := Fixtures.cv2) (T := library_text).

Definition detect_multimodal_emotion :=
  App.detect_multimodal_emotion (E := Fixtures.elementary)
    (B := Fixtures.base64) (P := Fixtures.pil) (C := Fixtures.cv2)
    (T := library_text).

End Running.

(** Stand-ins for torch's loaders and the MediaPipe constructors. *)
Module Loading.

Definition next (g : Rng.t) : Rng.t := Rng.make (Rng.stream g) (S (Rng.draws g)).

(** No weight file on disk. *)
Definition without_files : Torch.t := {|
  Torch.cuda_is_available := false;
  Torch.new_emotion_cnn := fun n g => (Fixtures.tied_cnn, next g);
  Torch.new_multimodal_fusion_net := fun n g => (Fixtures.fusion, next g);
  Torch.new_audio_emotion_cnn := fun n g => (Fixtures.happy_audio_cnn, next g);
  Torch.load_emotion_cnn := fun _ _ _ => Torch.FileNotFound;
  Torch.load_multimodal_fusion_net := fun _ _ _ => Torch.FileNotFound;
  Torch.load_audio_emotion_cnn := fun _ _ _ => Torch.FileNotFound
|}.

(** Weight files that do not fit the networks. *)
Definition mismatched : Torch.t := {|
  Torch.cuda_is_available := false;
  Torch.new_emotion_cnn := fun n g => (Fixtures.tied_cnn, next g);
  Torch.new_multimodal_fusion_net := fun n g => (Fixtures.fusion, next g);
  Torch.new_audio_emotion_cnn := fun n g => (Fixtures.happy_audio_cnn, next g);
  Torch.load_emotion_cnn :=
    fun _ _ net => Torch.Failed (LibraryError "load_state_dict") net;
  Torch.load_multimodal_fusion_net :=
    fun _ _ net => Torch.Failed (LibraryError "load_state_dict") net;
  Torch.load_audio_emotion_cnn :=
    fun _ _ net => Torch.Failed (LibraryError "load_state_dict") net
|}.

Definition media_pipe : MediaPipe := {|
  new_face_detection := Ok tt;
  new_face_mesh := Ok (FaceMesh.respond Fixtures.steady)
|}.

(** A service that was initialised and has seen one frame. *)
Definition running : EmotionLoader.t :=
  EmotionLoader.make
    (EmotionDetectionService.make (Some Fixtures.angry_cnn) (Some Fixtures.fusion)
       (Some (FaceMesh.make (FaceMesh.respond Fixtures.steady)
                [Samples.picture_image]))
       Fixtures.rng)
    true
    (ModelStatus.make "emotion_cnn" "loaded" "1.0.0")
    (ModelStatus.make "multimodal_fusion" "loaded" "1.0.0").

End Loading.

(* ================================================================== *)
(** * Facts about the Python and numpy primitives *)
(* ================================================================== *)

Section Primitives.

Lemma sum_total (xs : list Q) : Np.sum xs == total xs.
Proof.
  induction xs as [|v xs IH].
  - reflexivity.
  - unfold Np.sum, total in *. cbn [fold_right].
    rewrite Qred_correct, IH. reflexivity.
Qed.

Lemma total_scaled (xs : list Q) (s : Q) :
  ~ s == 0 -> total (map (fun v => v / s) xs) == total xs / s.
Proof.
  intros Hs. induction xs as [|v xs IH].
  - unfold total. cbn [map fold_right]. field. exact Hs.
  - unfold total in *. cbn [map fold_right]. rewrite IH. field. exact Hs.
Qed.

Lemma total_positive (xs : list Q) :
  xs <> [] -> Forall (fun v => 0 < v) xs -> 0 < total xs.
Proof.
  intros Hne Hpos. induction Hpos as [|v xs Hv Hxs IH].
  - congruence.
  - change (0 < v + total xs). destruct xs as [|w xs].
    + change (0 < v + 0). lra.
    + assert (0 < total (w :: xs)) by (apply IH; discriminate). lra.
Qed.

Lemma total_repeat (c : Q) (n : nat) :
  total (repeat c n) == inject_Z (Z.of_nat n) * c.
Proof.
  induction n as [|n IH].
  - change (0 == inject_Z 0 * c). ring.
  - change (c + total (repeat c n) == inject_Z (Z.of_nat (S n)) * c).
    rewrite IH, Nat2Z.inj_succ. unfold Z.succ. rewrite inject_Z_plus. ring.
Qed.

Lemma argmax_scan_first_max (xs seen : list Q) (best : Q) (best_i : nat) :
  first_max seen best_i best ->
  exists v, first_max (seen ++ xs)
              (Np.argmax_scan best best_i (List.length seen) xs) v.
Proof.
  revert seen best best_i.
  induction xs as [|x xs IH]; intros seen best best_i (Hat & Hle & Hlt).
  - exists best. rewrite app_nil_r. simpl. repeat split; assumption.
  - cbn [Np.argmax_scan].
    assert (Hlen : List.length (seen ++ [x]) = S (List.length seen))
      by (rewrite length_app; simpl; lia).
    replace (seen ++ x :: xs) with ((seen ++ [x]) ++ xs)
      by (rewrite <- app_assoc; reflexivity).
    rewrite <- Hlen.
    assert (Hin : (best_i < List.length seen)%nat)
      by (apply nth_error_Some; congruence).
    destruct (Qle_bool x best) eqn:Hcmp; apply IH.
    + apply Qle_bool_iff in Hcmp. repeat split.
      * rewrite nth_error_app1 by exact Hin. exact Hat.
      * intros j w Hj.
        destruct (Nat.lt_ge_cases j (List.length seen)) as [Hlt'|Hge].
        -- rewrite nth_error_app1 in Hj by exact Hlt'. eauto.
        -- rewrite nth_error_app2 in Hj by exact Hge.
           destruct (j - List.length seen)%nat as [|k]; simpl in Hj.
           ++ injection Hj as <-. exact Hcmp.
           ++ destruct k; discriminate.
      * intros j w Hj Hw.
        rewrite nth_error_app1 in Hw by lia. eauto.
    + assert (Hbx : best < x).
      { apply Qnot_le_lt. intros Hc. apply Qle_bool_iff in Hc. congruence. }
      repeat split.
      * rewrite nth_error_app2 by lia. rewrite Nat.sub_diag. reflexivity.
      * intros j w Hj.
        destruct (Nat.lt_ge_cases j (List.length seen)) as [Hlt'|Hge].
        -- rewrite nth_error_app1 in Hj by exact Hlt'.
           apply Qlt_le_weak. eapply Qle_lt_trans; [eapply Hle; exact Hj | exact Hbx].
        -- rewrite nth_error_app2 in Hj by exact Hge.
           destruct (j - List.length seen)%nat as [|k]; simpl in Hj.
           ++ injection Hj as <-. apply Qle_refl.
           ++ destruct k; discriminate.
      * intros j w Hj Hw.
        rewrite nth_error_app1 in Hw by exact Hj.
        eapply Qle_lt_trans; [eapply Hle; exact Hw | exact Hbx].
Qed.

(** [np.argmax] of a non-empty array is the first position of its maximum. *)
Lemma argmax_first_max (xs : list Q) :
  xs <> [] -> exists i v, Np.argmax xs = Ok i /\ first_max xs i v.
Proof.
  destruct xs as [|x xs]; [congruence | intros _].
  destruct (argmax_scan_first_max xs [x] x 0) as [v Hv].
  - repeat split.
    + intros [|j] w Hj; simpl in Hj.
      * injection Hj as <-. apply Qle_refl.
      * destruct j; discriminate.
    + intros j w Hj. lia.
  - exists (Np.argmax_scan x 0 1 xs), v. split; [reflexivity | exact Hv].
Qed.

Lemma first_max_bound (xs : list Q) (i : nat) (v : Q) :
  first_max xs i v -> (i < List.length xs)%nat.
Proof.
  intros (Hat & _). apply nth_error_Some. congruence.
Qed.

End Primitives.

(* ================================================================== *)
(** * Softmax and the classification head *)
(* ================================================================== *)

Section Softmax.
Context {E : Elementary}.
Hypothesis exp_pos : forall v, 0 < exp v.

Lemma softmax_length (x : list Q) : List.length (F.softmax x) = List.length x.
Proof.
  unfold F.softmax. rewrite !length_map. reflexivity.
Qed.

Lemma exp_total_positive (x : list Q) : x <> [] -> 0 < total (map exp x).
Proof.
  intros Hne. apply total_positive.
  - destruct x; [congruence | discriminate].
  - apply Forall_forall. intros v Hv. apply in_map_iff in Hv.
    destruct Hv as (u & <- & _). apply exp_pos.
Qed.

Lemma softmax_nonnegative (x : list Q) :
  x <> [] -> Forall (fun p => 0 <= p) (F.softmax x).
Proof.
  intros Hne. unfold F.softmax. apply Forall_forall. intros p Hp.
  apply in_map_iff in Hp. destruct Hp as (e & <- & He).
  apply in_map_iff in He. destruct He as (u & <- & _).
  assert (Hs : 0 < Np.sum (map exp x))
    by (rewrite sum_total; apply exp_total_positive; exact Hne).
  apply Qlt_le_weak. apply Qlt_shift_div_l; [exact Hs |].
  rewrite Qmult_0_l. apply exp_pos.
Qed.

Lemma softmax_total (x : list Q) : x <> [] -> total (F.softmax x) == 1.
Proof.
  intros Hne. unfold F.softmax.
  assert (Hs : 0 < Np.sum (map exp x))
    by (rewrite sum_total; apply exp_total_positive; exact Hne).
  rewrite total_scaled by lra.
  rewrite <- sum_total. field. lra.
Qed.

End Softmax.

Section ClassificationHead.

Let EMOTIONS := EmotionDetectionService.EMOTIONS.


(** What the three lines after the forward pass and the dict comprehension
    compute on a 7-entry probability row. *)
Lemma classification_head (p : list Q) :
  List.length p = 7%nat ->
  exists i v label,
    Np.argmax p = Ok i /\
    Py.getitem EMOTIONS i = Ok label /\
    Py.getitem p i = Ok v /\
    AudioProcessingService.probability_dict EMOTIONS p (seq 0 7) []
      = Ok (combine EMOTIONS p) /\
    first_max p i v /\
    nth_error EMOTIONS i = Some label /\
    Py.dict_get label (combine EMOTIONS p) = Some v.
Proof.
  intros Hlen.
  destruct (argmax_first_max p) as (i & v & Harg & Hmax).
  { intros ->. discriminate. }
  pose proof (first_max_bound _ _ _ Hmax) as Hi. rewrite Hlen in Hi.
  exists i, v, (nth i EMOTIONS "").
  pose proof Hmax as (Hat & _).
  destruct p as [|p0 [|p1 [|p2 [|p3 [|p4 [|p5 [|p6 [|p7 p]]]]]]]];
    try discriminate Hlen.
  repeat split; try assumption; try apply Hmax; try reflexivity;
    do 7 (destruct i as [|i];
          [cbn in Hat; injection Hat as <-; reflexivity |]); lia.
Qed.

End ClassificationHead.

Section Classifiers.
Context {E : Elementary} {B : Base64} {L : Librosa.t}.



(** [_classify_emotion] on a loaded 7-class network: it returns, and what it
    returns is read off the probability row. *)
Lemma classify_emotion_returns (self : EmotionDetectionService.t)
    (net : EmotionCNN.t) (x : tensor4) :
  EmotionDetectionService.emotion_model self = Some net ->
  List.length (EmotionCNN.logits net x) = 7%nat ->
  exists i v label,
    EmotionDetectionService._classify_emotion self x
      = Ok (EmotionClassification.make label v
              (combine EmotionDetectionService.EMOTIONS (EmotionCNN.forward net x))) /\
    first_max (EmotionCNN.forward net x) i v /\
    nth_error EmotionDetectionService.EMOTIONS i = Some label /\
    Py.dict_get label
      (combine EmotionDetectionService.EMOTIONS (EmotionCNN.forward net x)) = Some v.
Proof.
  intros Hnet Hlen.
  assert (Hp : List.length (EmotionCNN.forward net x) = 7%nat).
  { unfold EmotionCNN.forward, F.softmax. rewrite !length_map. exact Hlen. }
  destruct (classification_head _ Hp)
    as (i & v & label & Harg & Hlab & Hconf & Hdict & Hmax & Hnth & Hget).
  exists i, v, label.
  split; [| split; [exact Hmax | split; assumption]].
  unfold EmotionDetectionService._classify_emotion. rewrite Hnet. cbv zeta.
  rewrite Harg. cbn [bind]. rewrite Hlab. cbn [bind]. rewrite Hconf. cbn [bind].
  change (seq 0 (List.length EmotionDetectionService.EMOTIONS)) with (seq 0 7).
  rewrite Hdict. reflexivity.
Qed.


Lemma first_max_bounds_all (xs : list Q) (i : nat) (v : Q) :
  first_max xs i v -> Forall (fun w => w <= v) xs.
Proof.
  intros (_ & Hle & _). apply Forall_forall. intros w Hw.
  apply In_nth_error in Hw. destruct Hw as (j & Hj). eauto.
Qed.

End Classifiers.

Lemma exp_q_positive (v : Q) : 0 < Fixtures.exp_q v.
Proof.
  unfold Fixtures.exp_q. destruct (Qle_bool 0 v) eqn:Hv.
  - apply Qle_bool_iff in Hv. lra.
  - assert (Hneg : v < 0).
    { apply Qnot_le_lt. intros Hc. apply Qle_bool_iff in Hc. congruence. }
    apply Qlt_shift_div_l; lra.
Qed.

(* ================================================================== *)
(** * The classifiers: distribution, selection rule, confidence *)
(* ================================================================== *)





(** The tie of the fixture: "fear" and "sad" share the largest probability
    and "fear", the earlier label, is returned. *)
Example tie_goes_to_the_earlier_label :
  Fixtures.classify_emotion
    (Fixtures.service Fixtures.tied_cnn Fixtures.steady) []
  = Ok (EmotionClassification.make "fear" (8 # 27)
          [("angry", 2 # 27); ("disgust", 2 # 54); ("fear", 8 # 27);
           ("happy", 4 # 27); ("neutral", 2 # 27); ("sad", 8 # 27);
           ("surprise", 2 # 27)]).
Proof. vm_compute. reflexivity. Qed.



(* ================================================================== *)
(** * The spectrogram builder *)
(* ================================================================== *)

Section Spectrogram.
Context {E : Elementary} {L : Librosa.t}.

Lemma normalize_rows (m : Np.array2 Q) (T : nat) :
  Forall (fun row => List.length row = T) m ->
  Forall (fun row => List.length row = T)
    (AudioProcessingService.normalize m).
Proof.
  intros Hm. unfold AudioProcessingService.normalize.
  apply Forall_map. eapply Forall_impl; [| exact Hm].
  intros row Hrow. cbn beta. rewrite length_map. exact Hrow.
Qed.

(** The fixed time-axis step on an array whose rows all have [T] columns. *)
Lemma resize_time_axis_rows (m : Np.array2 np_float) (T : nat) :
  Forall (fun row => List.length row = T) m ->
  AudioProcessingService.resize_time_axis m
    = (if (128 <? T)%nat then map (firstn 128) m
       else map (fun row => row ++ repeat (Finite 0) (128 - T)) m)
  /\ Forall (fun row => List.length row = 128%nat)
       (AudioProcessingService.resize_time_axis m).
Proof.
  intros Hm. destruct m as [|row m].
  - split; [destruct (128 <? T)%nat; reflexivity | constructor].
  - assert (Hshape : Np.shape1 (row :: m) = T) by (inversion Hm; assumption).
    unfold AudioProcessingService.resize_time_axis. rewrite Hshape.
    unfold Np.take_columns, Np.pad_right.
    split; [reflexivity |].
    destruct (128 <? T)%nat eqn:Hcmp; apply Forall_map;
      (eapply Forall_impl; [| exact Hm]); intros r Hr; cbn beta in *.
    + apply Nat.ltb_lt in Hcmp. rewrite length_firstn. lia.
    + apply Nat.ltb_ge in Hcmp. rewrite length_app, repeat_length. lia.
Qed.

End Spectrogram.

(** C6.  Whatever the length of the clip, the tensor the spectrogram builder
    returns has a time axis of exactly 128 columns: the normalised log-mel
    spectrogram the library computed, with [T] frames, is cut to its first 128
    columns when [T > 128] and extended with [128 - T] zero columns
    otherwise. *)
Theorem spectrogram_time_axis_is_128 {E : Elementary} {L : Librosa.t}
    (self : AudioProcessingService.t) (audio : Audio)
    (mel_spec log_mel_spec : Np.array2 Q) (T : nat) :
  Librosa.melspectrogram audio (AudioProcessingService.sample_rate self) 128 8000
    = Ok mel_spec ->
  Librosa.power_to_db mel_spec = Ok log_mel_spec ->
  Forall (fun row => List.length row = T) log_mel_spec ->
  exists m,
    AudioProcessingService._create_spectrogram self audio = Ok [[m]] /\
    last_axis_is 128 [[m]] /\
    List.length m = List.length log_mel_spec /\
    m = (if (128 <? T)%nat
         then map (firstn 128) (AudioProcessingService.normalize log_mel_spec)
         else map (fun row => row ++ repeat (Finite 0) (128 - T))
                (AudioProcessingService.normalize log_mel_spec)).
Proof.
  intros Hmel Hdb Hrows.
  pose proof (normalize_rows _ _ Hrows) as Hnorm.
  destruct (resize_time_axis_rows _ _ Hnorm) as (Heq & Hlen).
  exists (AudioProcessingService.resize_time_axis
            (AudioProcessingService.normalize log_mel_spec)).
  split; [| split; [| split]].
  - unfold AudioProcessingService._create_spectrogram.
    rewrite Hmel. cbn [bind]. rewrite Hdb. reflexivity.
  - unfold last_axis_is. repeat constructor. exact Hlen.
  - rewrite Heq. unfold AudioProcessingService.normalize.
    destruct (128 <? T)%nat; rewrite !length_map; reflexivity.
  - exact Heq.
Qed.

Lemma spectrogram_time_axis_is_128_witness :
  exists m,
    Fixtures.create_spectrogram Fixtures.audio_service Fixtures.samples = Ok [[m]] /\
    last_axis_is 128 [[m]] /\
    List.length m = List.length (Fixtures.log_mel_of Fixtures.samples) /\
    m = (if (128 <? 2)%nat
         then map (firstn 128)
                (AudioProcessingService.normalize (E := Fixtures.elementary)
                   (Fixtures.log_mel_of Fixtures.samples))
         else map (fun row => row ++ repeat (Finite 0) (128 - 2))
                (AudioProcessingService.normalize (E := Fixtures.elementary)
                   (Fixtures.log_mel_of Fixtures.samples))).
Proof.
  eapply (spectrogram_time_axis_is_128 (E := Fixtures.elementary)
            (L := Fixtures.librosa) Fixtures.audio_service Fixtures.samples).
  - vm_compute. reflexivity.
  - vm_compute. reflexivity.
  - vm_compute. repeat constructor.
Defined.

(** A clip of half a second (22 frames, padded) and one of five seconds
    (216 frames, truncated) both give a 128 x 128 plane. *)
Example half_second_and_five_seconds_same_shape :
  Fixtures.plane_shape
    (Fixtures.create_spectrogram Fixtures.audio_service Fixtures.half_second)
  = Some (128, 128)%nat /\
  Fixtures.plane_shape
    (Fixtures.create_spectrogram Fixtures.audio_service Fixtures.five_seconds)
  = Some (128, 128)%nat.
Proof. split; vm_compute; reflexivity. Qed.

Section Silence.
Context {E : Elementary} {L : Librosa.t}.
Hypothesis sqrt_zero : forall v, v == 0 -> sqrt v == 0.

Lemma mean_repeat (c : Q) (n : nat) :
  (0 < n)%nat -> exists q, Np.mean (repeat c n) = Finite q /\ q == c.
Proof.
  intros Hn. destruct n as [|n]; [lia |].
  eexists. split; [reflexivity |].
  change (c :: repeat c n) with (repeat c (S n)).
  rewrite sum_total, total_repeat, repeat_length.
  field. change 0 with (inject_Z 0). rewrite inject_Z_injective. lia.
Qed.

Lemma flatten_repeat {A : Type} (row : list A) (v : A) (T rows : nat) :
  row = repeat v T -> Np.flatten (repeat row rows) = repeat v (rows * T).
Proof.
  intros ->. unfold Np.flatten. induction rows as [|rows IH].
  - reflexivity.
  - cbn [repeat concat]. rewrite IH, <- repeat_app. reflexivity.
Qed.

(** The normalisation of a constant array divides zero by zero at every
    entry. *)
Lemma normalize_constant (c : Q) (T rows : nat) :
  (0 < T)%nat -> (0 < rows)%nat ->
  AudioProcessingService.normalize (repeat (repeat c T) rows)
    = repeat (repeat NaN T) rows.
Proof.
  intros HT Hrows. unfold AudioProcessingService.normalize.
  rewrite (flatten_repeat _ c T rows eq_refl).
  assert (Hn : (0 < rows * T)%nat) by nia.
  destruct (mean_repeat c _ Hn) as (mu & Hmu & Hmuc).
  unfold Np.std. rewrite Hmu. repeat (rewrite map_repeat; cbv beta).
  destruct (mean_repeat ((c - mu) * (c - mu)) _ Hn) as (var & Hvar & Hvarc).
  rewrite Hvar.
  assert (Hsd : Qeq_bool (sqrt var) 0 = true).
  { apply Qeq_bool_iff, sqrt_zero. rewrite Hvarc, Hmuc. ring. }
  assert (Hnum : Qeq_bool (c - mu) 0 = true).
  { apply Qeq_bool_iff. rewrite Hmuc. ring. }
  cbn [Np.sub Np.truediv]. rewrite Hsd, Hnum. reflexivity.
Qed.

Lemma firstn_of_repeat {A : Type} (v : A) (n m : nat) :
  firstn n (repeat v m) = repeat v (Nat.min n m).
Proof.
  revert m. induction n as [|n IH]; intros [|m]; try reflexivity.
  cbn [repeat firstn Nat.min]. f_equal. apply IH.
Qed.

Lemma resize_time_axis_nan (T rows : nat) :
  (0 < rows)%nat ->
  AudioProcessingService.resize_time_axis (repeat (repeat NaN T) rows)
    = repeat (repeat NaN (Nat.min T 128) ++ repeat (Finite 0) (128 - T)) rows.
Proof.
  intros Hrows.
  assert (Hall : Forall (fun row : list np_float => List.length row = T)
                   (repeat (repeat NaN T) rows)).
  { apply Forall_forall. intros row Hrow. apply repeat_spec in Hrow.
    subst row. apply repeat_length. }
  destruct (resize_time_axis_rows _ _ Hall) as (-> & _).
  destruct (128 <? T)%nat eqn:Hcmp; rewrite map_repeat; f_equal.
  - apply Nat.ltb_lt in Hcmp. rewrite firstn_of_repeat.
    replace (128 - T)%nat with 0%nat by lia. rewrite app_nil_r.
    f_equal. lia.
  - apply Nat.ltb_ge in Hcmp. replace (Nat.min T 128) with T by lia.
    reflexivity.
Qed.

(** Whenever the log-mel spectrogram of a clip is constant (as it is for
    silence), the builder returns, and every column that comes from the clip
    holds nan. *)
Lemma constant_spectrogram_is_nan (self : AudioProcessingService.t)
    (audio : Audio) (mel_spec : Np.array2 Q) (c : Q) (T rows : nat) :
  (0 < T)%nat -> (0 < rows)%nat ->
  Librosa.melspectrogram audio (AudioProcessingService.sample_rate self) 128 8000
    = Ok mel_spec ->
  Librosa.power_to_db mel_spec = Ok (repeat (repeat c T) rows) ->
  AudioProcessingService._create_spectrogram self audio
    = Ok [[repeat (repeat NaN (Nat.min T 128) ++ repeat (Finite 0) (128 - T)) rows]].
Proof.
  intros HT Hrows Hmel Hdb.
  unfold AudioProcessingService._create_spectrogram.
  rewrite Hmel. cbn [bind]. rewrite Hdb. cbn [bind].
  rewrite (normalize_constant c T rows HT Hrows).
  rewrite (resize_time_axis_nan T rows Hrows). reflexivity.
Qed.

End Silence.

(** C3 (the code departs from it).  On 600 samples of silence the builder
    does not raise, but no epsilon replaces the zero standard deviation: the
    two columns that come from the clip are nan in each of the 128 rows, and
    the other 126 columns are the zero padding.  The tensor is not finite. *)
Theorem silent_spectrogram_is_not_finite :
  Fixtures.create_spectrogram Fixtures.audio_service Fixtures.silence
  = Ok [[repeat ([NaN; NaN] ++ repeat (Finite 0) 126) 128]]
  /\ all_finite [[repeat ([NaN; NaN] ++ repeat (Finite 0) 126) 128]] = false
  /\ is_zero (Np.std (E := Fixtures.elementary)
                (Np.flatten (Fixtures.log_mel_of Fixtures.silence))) = true.
Proof.
  split; [| split].
  - vm_compute. reflexivity.
  - vm_compute. reflexivity.
  - vm_compute. reflexivity.
Qed.

(* ================================================================== *)
(** * The orchestrator: detect_emotion and detect_multimodal_emotion *)
(* ================================================================== *)

Section Orchestrator.
Context {E : Elementary} {B : Base64} {P : Pil} {C : Cv2.t}.

(** When the detector, whenever it is consulted, reports no face, the
    landmark extractor returns [None]. *)
Lemma no_faces_no_landmarks (self : EmotionDetectionService.t) (image : Image) :
  (forall fm rgb,
     EmotionDetectionService.face_mesh self = Some fm ->
     Cv2.cvtColor_BGR2RGB image = Ok rgb ->
     FaceMesh.respond fm (FaceMesh.history fm) rgb = Ok []) ->
  fst (EmotionDetectionService._extract_facial_landmarks self image) = None.
Proof.
  intros Hnone. unfold EmotionDetectionService._extract_facial_landmarks.
  destruct (Cv2.cvtColor_BGR2RGB image) as [rgb|e] eqn:Hrgb; [| reflexivity].
  destruct (EmotionDetectionService.face_mesh self) as [fm|] eqn:Hfm;
    [| reflexivity].
  unfold FaceMesh.process. cbn [fst]. rewrite (Hnone fm rgb eq_refl eq_refl).
  reflexivity.
Qed.

(** Inference writes nothing but the tracker: the classifier handles and the
    generator are those of the service it started from. *)
Lemma extract_facial_landmarks_frame (self : EmotionDetectionService.t)
    (image : Image) :
  let self' := snd (EmotionDetectionService._extract_facial_landmarks self image) in
  EmotionDetectionService.emotion_model self'
    = EmotionDetectionService.emotion_model self /\
  EmotionDetectionService.multimodal_model self'
    = EmotionDetectionService.multimodal_model self /\
  EmotionDetectionService.torch_rng self'
    = EmotionDetectionService.torch_rng self.
Proof.
  unfold EmotionDetectionService._extract_facial_landmarks.
  destruct (Cv2.cvtColor_BGR2RGB image); [| auto].
  destruct (EmotionDetectionService.face_mesh self); [| auto].
  cbn. auto.
Qed.


Lemma detect_emotion_verdict (self : EmotionDetectionService.t)
    (image_data audio_data : option string) (session_id : string) (image : Image) :
  Py.truthy image_data = true ->
  EmotionDetectionService._decode_base64_image self image_data = Ok image ->
  fst (EmotionDetectionService.detect_emotion self image_data audio_data session_id)
  = verdict (EmotionDetectionService.emotion_model self) image
      (fst (EmotionDetectionService._extract_facial_landmarks self image)).
Proof.
  intros Htruthy Hdec. unfold EmotionDetectionService.detect_emotion.
  rewrite Htruthy, Hdec. cbn [negb].
  pose proof (extract_facial_landmarks_frame self image) as (Hm & _).
  destruct (EmotionDetectionService._extract_facial_landmarks self image)
    as [[lm|] self']; cbn [fst snd] in *; [| reflexivity].
  unfold verdict, EmotionDetectionService._classify_emotion.
  cbn [EmotionDetectionService.emotion_model]. rewrite Hm. reflexivity.
Qed.

End Orchestrator.

(** C4.  For every image that decodes and in which the detector reports no
    face, [detect_emotion] returns, without raising, the verdict
    [{emotion = neutral, confidence = 0.5, source = video, landmarks = None}],
    with or without an audio input. *)
Theorem no_face_gives_neutral_video_verdict
    {E : Elementary} {B : Base64} {P : Pil} {C : Cv2.t}
    (self : EmotionDetectionService.t) (image_data audio_data : option string)
    (session_id : string) (image : Image) :
  Py.truthy image_data = true ->
  EmotionDetectionService._decode_base64_image self image_data = Ok image ->
  (forall fm rgb,
     EmotionDetectionService.face_mesh self = Some fm ->
     Cv2.cvtColor_BGR2RGB image = Ok rgb ->
     FaceMesh.respond fm (FaceMesh.history fm) rgb = Ok []) ->
  fst (EmotionDetectionService.detect_emotion self image_data audio_data session_id)
  = Ok (EmotionDetectionResponse.make "neutral" (1 # 2) "video" None None).
Proof.
  intros Htruthy Hdec Hnone.
  rewrite (detect_emotion_verdict self image_data audio_data session_id image
             Htruthy Hdec).
  rewrite (no_faces_no_landmarks self image Hnone). reflexivity.
Qed.

Lemma no_face_gives_neutral_video_verdict_witness :
  fst (Fixtures.detect_emotion
         (Fixtures.service Fixtures.angry_cnn Fixtures.blind)
         (Some Fixtures.picture) None "s1")
  = Ok (EmotionDetectionResponse.make "neutral" (1 # 2) "video" None None).
Proof.
  eapply (no_face_gives_neutral_video_verdict (E := Fixtures.elementary)
            (B := Fixtures.base64) (P := Fixtures.pil) (C := Fixtures.cv2)).
  - reflexivity.
  - vm_compute. reflexivity.
  - intros fm rgb Hfm _. injection Hfm as <-. reflexivity.
Defined.




Section MultimodalFallback.
Context {E : Elementary} {B : Base64} {P : Pil} {C : Cv2.t}.

(** With no face found, [detect_multimodal_emotion] answers with one fixed
    verdict: [audio_data] is never read. *)
Lemma multimodal_no_face_is_constant (self : EmotionDetectionService.t)
    (image_data audio_data : option string) (session_id : string) (image : Image) :
  EmotionDetectionService._decode_base64_image self image_data = Ok image ->
  fst (EmotionDetectionService._extract_facial_landmarks self image) = None ->
  fst (EmotionDetectionService.detect_multimodal_emotion self image_data
         audio_data session_id)
  = Ok (EmotionDetectionResponse.make "neutral" (1 # 2) "audio" None None).
Proof.
  intros Hdec Hnone. unfold EmotionDetectionService.detect_multimodal_emotion.
  rewrite Hdec.
  destruct (EmotionDetectionService._extract_facial_landmarks self image)
    as [landmarks self1].
  cbn [fst] in Hnone. subst landmarks. reflexivity.
Qed.

End MultimodalFallback.

(** C2 (the code departs from it).  Image without a face, audio present: the
    multimodal operation returns the fixed verdict
    [{neutral, 0.5, source = audio}] with no distribution, while the audio
    classifier run on the same clip returns "happy" with confidence 2/5. *)
Theorem multimodal_fallback_skips_the_audio_classifier :
  fst (Fixtures.detect_multimodal_emotion
         (Fixtures.service Fixtures.angry_cnn Fixtures.blind)
         (Some Fixtures.picture) (Some Fixtures.clip) "s1")
  = Ok (EmotionDetectionResponse.make "neutral" (1 # 2) "audio" None None)
  /\ exists r,
       Fixtures.detect_emotion_from_audio
         Fixtures.audio_service Fixtures.clip = Ok r /\
       AudioEmotion.emotion r = "happy" /\
       AudioEmotion.confidence r == 2 # 5.
Proof.
  split.
  - vm_compute. reflexivity.
  - eexists. split; [vm_compute; reflexivity |].
    split; [reflexivity | reflexivity].
Qed.




(** The same with a face found both times: the landmarks of the second
    invocation lie one hundredth of the frame width to the right, the crop
    then reaches the bright half of the image, and the label goes from
    "angry" to "happy". *)
Example landmark_drift_changes_the_label :
  emotion_of
    (fst (Fixtures.detect_emotion
            (Fixtures.service Fixtures.bright_is_happy_cnn Fixtures.drifting)
            (Some Fixtures.wide_picture) (Some Fixtures.clip) "s1"))
    = Some "angry" /\
  emotion_of
    (fst (Fixtures.detect_emotion
            (snd (Fixtures.detect_emotion
                    (Fixtures.service Fixtures.bright_is_happy_cnn Fixtures.drifting)
                    (Some Fixtures.wide_picture) (Some Fixtures.clip) "s1"))
            (Some Fixtures.wide_picture) (Some Fixtures.clip) "s1"))
    = Some "happy".
Proof. split; vm_compute; reflexivity. Qed.

(* ================================================================== *)
(** * The acoustic feature extractor *)
(* ================================================================== *)



(* ================================================================== *)
(** * Decoding the payloads *)
(* ================================================================== *)

Section Strings.

Lemma startswith_append (p s t : string) :
  Py.startswith p s = true -> Py.startswith p (String.append s t) = true.
Proof.
  revert s. induction p as [|a p IH]; intros s Hs; [reflexivity |].
  destruct s as [|b s]; [discriminate |].
  cbn [String.append Py.startswith] in *.
  destruct (Ascii.eqb a b); [apply IH; exact Hs | discriminate].
Qed.

Lemma split_without_separator (c : ascii) (s : string) :
  contains c s = false -> Py.split c s = [s].
Proof.
  induction s as [|a s IH]; intros Hs; [reflexivity |].
  cbn [contains Py.split] in *.
  destruct (Ascii.eqb a c); [discriminate |].
  rewrite (IH Hs). reflexivity.
Qed.

Lemma split_at_first_separator (c : ascii) (s t : string) :
  contains c s = false ->
  Py.split c (String.append s (String c t)) = s :: Py.split c t.
Proof.
  induction s as [|a s IH]; intros Hs.
  - cbn [String.append Py.split]. rewrite Ascii.eqb_refl. reflexivity.
  - cbn [contains String.append Py.split] in *.
    destruct (Ascii.eqb a c); [discriminate |].
    rewrite (IH Hs). reflexivity.
Qed.

Lemma payload_of_data_url (header payload : string) :
  contains "," header = false -> contains "," payload = false ->
  Py.getitem (Py.split "," (data_url header payload)) 1 = Ok payload.
Proof.
  intros Hh Hp. unfold data_url.
  rewrite (split_at_first_separator _ _ _ Hh), (split_without_separator _ _ Hp).
  reflexivity.
Qed.

End Strings.

(** X1.  A data URL is decoded as its payload: for a header that starts with
    "data:audio" (for the image decoder, "data:image") and holds no comma,
    and a payload without comma that is not itself such a URL, decoding
    [header,payload] gives what decoding the bare payload gives. *)
Theorem data_url_header_is_stripped {B : Base64} {L : Librosa.t} {P : Pil}
    (aps : AudioProcessingService.t) (self : EmotionDetectionService.t)
    (audio_header image_header payload : string) :
  Py.startswith "data:audio" audio_header = true ->
  Py.startswith "data:image" image_header = true ->
  contains "," audio_header = false ->
  contains "," image_header = false ->
  contains "," payload = false ->
  Py.startswith "data:audio" payload = false ->
  Py.startswith "data:image" payload = false ->
  AudioProcessingService._decode_base64_audio aps (data_url audio_header payload)
    = AudioProcessingService._decode_base64_audio aps payload /\
  EmotionDetectionService._decode_base64_image self
      (Some (data_url image_header payload))
    = EmotionDetectionService._decode_base64_image self (Some payload).
Proof.
  intros Ha Hi Hca Hci Hcp Hpa Hpi. split.
  - unfold AudioProcessingService._decode_base64_audio.
    unfold data_url at 1. rewrite (startswith_append _ _ _ Ha).
    rewrite (payload_of_data_url _ _ Hca Hcp), Hpa. reflexivity.
  - unfold EmotionDetectionService._decode_base64_image.
    unfold data_url at 1. rewrite (startswith_append _ _ _ Hi).
    rewrite (payload_of_data_url _ _ Hci Hcp), Hpi. reflexivity.
Qed.

Lemma data_url_header_is_stripped_witness :
  AudioProcessingService._decode_base64_audio (B := Fixtures.base64)
      (L := Fixtures.librosa) Fixtures.audio_service
      (data_url "data:audio/wav;base64" "UklGRg")
    = AudioProcessingService._decode_base64_audio (B := Fixtures.base64)
        (L := Fixtures.librosa) Fixtures.audio_service "UklGRg" /\
  EmotionDetectionService._decode_base64_image (B := Fixtures.base64)
      (P := Fixtures.pil) (Fixtures.service Fixtures.angry_cnn Fixtures.steady)
      (Some (data_url "data:image/png;base64" "UklGRg"))
    = EmotionDetectionService._decode_base64_image (B := Fixtures.base64)
        (P := Fixtures.pil) (Fixtures.service Fixtures.angry_cnn Fixtures.steady)
        (Some "UklGRg").
Proof.
  apply (data_url_header_is_stripped (B := Fixtures.base64)
           (L := Fixtures.librosa) (P := Fixtures.pil)); reflexivity.
Defined.

(** X2.  The decoders fail in one way only: whatever goes wrong inside
    (a missing comma, base64, the codec), the caller sees
    [ValueError("Invalid audio data")], respectively
    [ValueError("Invalid image data")].  A string that starts with
    "data:audio" or "data:image" and holds no comma always fails, before
    base64 is consulted, and so does a missing image. *)
Theorem decoders_fail_with_value_error {B : Base64} {L : Librosa.t} {P : Pil}
    (aps : AudioProcessingService.t) (self : EmotionDetectionService.t) :
  (forall audio_data e,
     AudioProcessingService._decode_base64_audio aps audio_data = Raise e ->
     e = ValueError "Invalid audio data") /\
  (forall image_data e,
     EmotionDetectionService._decode_base64_image self image_data = Raise e ->
     e = ValueError "Invalid image data") /\
  (forall s,
     Py.startswith "data:audio" s = true -> contains "," s = false ->
     AudioProcessingService._decode_base64_audio aps s
       = Raise (ValueError "Invalid audio data")) /\
  (forall s,
     Py.startswith "data:image" s = true -> contains "," s = false ->
     EmotionDetectionService._decode_base64_image self (Some s)
       = Raise (ValueError "Invalid image data")) /\
  EmotionDetectionService._decode_base64_image self None
    = Raise (ValueError "Invalid image data").
Proof.
  repeat split.
  - intros audio_data e. unfold AudioProcessingService._decode_base64_audio.
    destruct (bind _ _); cbn [reraise_as]; congruence.
  - intros image_data e. unfold EmotionDetectionService._decode_base64_image.
    destruct image_data as [s|]; [destruct (bind _ _) |];
      cbn [reraise_as]; congruence.
  - intros s Hs Hc. unfold AudioProcessingService._decode_base64_audio.
    rewrite Hs, (split_without_separator _ _ Hc). reflexivity.
  - intros s Hs Hc. unfold EmotionDetectionService._decode_base64_image.
    rewrite Hs, (split_without_separator _ _ Hc). reflexivity.
Qed.

(* ================================================================== *)
(** * The landmark extractor *)
(* ================================================================== *)

Section Envelope.

Lemma fold_min_lower (xs : list Q) (v : Q) :
  fold_left Qmin xs v <= v /\ Forall (fun w => fold_left Qmin xs v <= w) xs.
Proof.
  revert v. induction xs as [|a xs IH]; intros v; cbn [fold_left].
  - split; [apply Qle_refl | constructor].
  - destruct (IH (Qmin v a)) as (Hv & Hxs).
    pose proof (Q.le_min_l v a). pose proof (Q.le_min_r v a).
    split; [eapply Qle_trans; eassumption |].
    constructor; [eapply Qle_trans; eassumption | exact Hxs].
Qed.

Lemma fold_max_upper (xs : list Q) (v : Q) :
  v <= fold_left Qmax xs v /\ Forall (fun w => w <= fold_left Qmax xs v) xs.
Proof.
  revert v. induction xs as [|a xs IH]; intros v; cbn [fold_left].
  - split; [apply Qle_refl | constructor].
  - destruct (IH (Qmax v a)) as (Hv & Hxs).
    pose proof (Q.le_max_l v a). pose proof (Q.le_max_r v a).
    split; [eapply Qle_trans; eassumption |].
    constructor; [eapply Qle_trans; eassumption | exact Hxs].
Qed.

Lemma py_min_lower (xs : list Q) (m : Q) :
  EmotionDetectionService.py_min xs = Ok m -> Forall (fun w => m <= w) xs.
Proof.
  destruct xs as [|v xs]; [discriminate |].
  cbn [EmotionDetectionService.py_min]. intros [= <-].
  destruct (fold_min_lower xs v). constructor; assumption.
Qed.

Lemma py_max_upper (xs : list Q) (m : Q) :
  EmotionDetectionService.py_max xs = Ok m -> Forall (fun w => w <= m) xs.
Proof.
  destruct xs as [|v xs]; [discriminate |].
  cbn [EmotionDetectionService.py_max]. intros [= <-].
  destruct (fold_max_upper xs v). constructor; assumption.
Qed.

End Envelope.

(** The landmark set built from a face: the points scaled to the image, the
    visibilities (1 where the attribute is missing), and the envelope. *)
Lemma landmarks_of_faces_some (image : Image) (faces : list FaceMesh.Face)
    (lm : FacialLandmarks.t) :
  EmotionDetectionService.landmarks_of_faces image faces = Ok (Some lm) ->
  exists face rest min_x min_y max_x max_y,
    faces = face :: rest /\ face <> [] /\
    let h := inject_Z (Z.of_nat (List.length image)) in
    let w := inject_Z (Z.of_nat (Np.shape1 image)) in
    EmotionDetectionService.py_min
      (map (fun l => NormalizedLandmark.x l * w) face) = Ok min_x /\
    EmotionDetectionService.py_min
      (map (fun l => NormalizedLandmark.y l * h) face) = Ok min_y /\
    EmotionDetectionService.py_max
      (map (fun l => NormalizedLandmark.x l * w) face) = Ok max_x /\
    EmotionDetectionService.py_max
      (map (fun l => NormalizedLandmark.y l * h) face) = Ok max_y /\
    lm = FacialLandmarks.make
           (map (fun l => [NormalizedLandmark.x l * w; NormalizedLandmark.y l * h])
              face)
           (map (fun l => match NormalizedLandmark.visibility l with
                          | Some v => v
                          | None => 1
                          end) face)
           (FacialLandmarks.make_bbox min_x min_y (max_x - min_x) (max_y - min_y)).
Proof.
  unfold EmotionDetectionService.landmarks_of_faces.
  destruct faces as [|face rest]; [discriminate |]. cbv zeta.
  destruct (EmotionDetectionService.py_min
              (map (fun l => NormalizedLandmark.x l * _) face))
    as [min_x|] eqn:Hminx; [| discriminate].
  destruct (EmotionDetectionService.py_min
              (map (fun l => NormalizedLandmark.y l * _) face))
    as [min_y|] eqn:Hminy; [| discriminate].
  destruct (EmotionDetectionService.py_max
              (map (fun l => NormalizedLandmark.x l * _) face))
    as [max_x|] eqn:Hmaxx; [| discriminate].
  destruct (EmotionDetectionService.py_max
              (map (fun l => NormalizedLandmark.y l * _) face))
    as [max_y|] eqn:Hmaxy; [| discriminate].
  cbn [bind]. intros [= <-].
  exists face, rest, min_x, min_y, max_x, max_y.
  repeat split; try assumption.
  intros ->. discriminate.
Qed.

Section FoundFace.
Context {C : Cv2.t}.

Lemma fold_min_glb (xs : list Q) (v c : Q) :
  c <= v -> Forall (fun w => c <= w) xs -> c <= fold_left Qmin xs v.
Proof.
  revert v. induction xs as [|a xs IH]; intros v Hv Hxs; cbn [fold_left].
  - exact Hv.
  - inversion Hxs; subst. apply IH; [apply Q.min_glb; assumption | assumption].
Qed.

Lemma py_min_glb (xs : list Q) (m c : Q) :
  EmotionDetectionService.py_min xs = Ok m ->
  Forall (fun w => c <= w) xs -> c <= m.
Proof.
  destruct xs as [|v xs]; [discriminate |].
  cbn [EmotionDetectionService.py_min]. intros [= <-] Hall.
  inversion Hall; subst. apply fold_min_glb; assumption.
Qed.

(** What the extractor found, traced back to the answer of the tracker. *)
Lemma extract_facial_landmarks_origin
    (self : EmotionDetectionService.t) (image : Image) (lm : FacialLandmarks.t) :
  fst (EmotionDetectionService._extract_facial_landmarks self image) = Some lm ->
  exists rgb fm faces,
    Cv2.cvtColor_BGR2RGB image = Ok rgb /\
    EmotionDetectionService.face_mesh self = Some fm /\
    FaceMesh.respond fm (FaceMesh.history fm) rgb = Ok faces /\
    EmotionDetectionService.landmarks_of_faces image faces = Ok (Some lm).
Proof.
  unfold EmotionDetectionService._extract_facial_landmarks.
  destruct (Cv2.cvtColor_BGR2RGB image) as [rgb|]; [| discriminate].
  destruct (EmotionDetectionService.face_mesh self) as [fm|]; [| discriminate].
  unfold FaceMesh.process. cbn [fst].
  destruct (FaceMesh.respond fm (FaceMesh.history fm) rgb) as [faces|] eqn:Hresp;
    [| discriminate].
  cbn [bind]. intros Hsome. exists rgb, fm, faces.
  split; [reflexivity | split; [reflexivity | split; [exact Hresp |]]].
  destruct (EmotionDetectionService.landmarks_of_faces image faces) as [o|];
    cbn [or_none] in Hsome; [congruence | discriminate].
Qed.

End FoundFace.

(** X3.  Every landmark set the extractor returns is well formed: it has as
    many visibility scores as points, at least one point, each point is a
    pair [x, y], and the bounding box is the envelope of the points: its
    width and height are not negative and every point lies between
    [(x, y)] and [(x + width, y + height)]. *)
Theorem landmark_set_is_enveloped {C : Cv2.t}
    (self : EmotionDetectionService.t) (image : Image) (lm : FacialLandmarks.t) :
  fst (EmotionDetectionService._extract_facial_landmarks self image) = Some lm ->
  let box := FacialLandmarks.bounding_box lm in
  FacialLandmarks.landmarks lm <> [] /\
  List.length (FacialLandmarks.visibility lm)
    = List.length (FacialLandmarks.landmarks lm) /\
  0 <= FacialLandmarks.width box /\
  0 <= FacialLandmarks.height box /\
  Forall (fun point =>
            exists px py,
              point = [px; py] /\
              FacialLandmarks.x box <= px /\
              px <= FacialLandmarks.x box + FacialLandmarks.width box /\
              FacialLandmarks.y box <= py /\
              py <= FacialLandmarks.y box + FacialLandmarks.height box)
    (FacialLandmarks.landmarks lm).
Proof.
  intros Hsome.
  destruct (extract_facial_landmarks_origin self image lm Hsome)
    as (rgb & fm & faces & _ & _ & _ & Hfaces).
  destruct (landmarks_of_faces_some image faces lm Hfaces)
    as (face & rest & min_x & min_y & max_x & max_y & -> & Hne
        & Hminx & Hminy & Hmaxx & Hmaxy & ->).
  cbn [FacialLandmarks.bounding_box FacialLandmarks.landmarks
       FacialLandmarks.visibility FacialLandmarks.x FacialLandmarks.y
       FacialLandmarks.width FacialLandmarks.height].
  pose proof (py_min_lower _ _ Hminx) as Lx.
  pose proof (py_min_lower _ _ Hminy) as Ly.
  pose proof (py_max_upper _ _ Hmaxx) as Ux.
  pose proof (py_max_upper _ _ Hmaxy) as Uy.
  rewrite Forall_map in Lx, Ly, Ux, Uy.
  rewrite Forall_forall in Lx, Ly, Ux, Uy.
  destruct face as [|l0 face]; [congruence |].
  pose proof (Lx l0 (or_introl eq_refl)). pose proof (Ux l0 (or_introl eq_refl)).
  pose proof (Ly l0 (or_introl eq_refl)). pose proof (Uy l0 (or_introl eq_refl)).
  cbv beta in *.
  split; [discriminate |].
  split; [rewrite !length_map; reflexivity |].
  split; [lra |]. split; [lra |].
  apply Forall_map, Forall_forall. intros l Hl.
  pose proof (Lx l Hl). pose proof (Ux l Hl).
  pose proof (Ly l Hl). pose proof (Uy l Hl). cbv beta in *.
  eexists _, _. split; [reflexivity |]. repeat split; lra.
Qed.

Lemma landmark_set_is_enveloped_witness :
  let box := FacialLandmarks.bounding_box Samples.found_landmarks in
  FacialLandmarks.landmarks Samples.found_landmarks <> [] /\
  List.length (FacialLandmarks.visibility Samples.found_landmarks)
    = List.length (FacialLandmarks.landmarks Samples.found_landmarks) /\
  0 <= FacialLandmarks.width box /\
  0 <= FacialLandmarks.height box /\
  Forall (fun point =>
            exists px py,
              point = [px; py] /\
              FacialLandmarks.x box <= px /\
              px <= FacialLandmarks.x box + FacialLandmarks.width box /\
              FacialLandmarks.y box <= py /\
              py <= FacialLandmarks.y box + FacialLandmarks.height box)
    (FacialLandmarks.landmarks Samples.found_landmarks).
Proof.
  apply (landmark_set_is_enveloped (C := Fixtures.cv2)
           (Fixtures.service Fixtures.angry_cnn Fixtures.steady)
           Samples.picture_image).
  vm_compute. reflexivity.
Defined.

(** X4.  The extractor never raises, and it returns [None] in exactly these
    cases: the colour conversion raises, the face mesh was never created,
    [process] raises, [process] reports no face, or the first face it
    reports has no point ([min()] of an empty list raises and is swallowed).
    Faces after the first are ignored.  The tracker is consulted at most
    once, on the converted image, and nothing else of the service changes. *)
Theorem extractor_returns_none_exactly_when {C : Cv2.t}
    (self : EmotionDetectionService.t) (image : Image) :
  (fst (EmotionDetectionService._extract_facial_landmarks self image) = None <->
   (exists e, Cv2.cvtColor_BGR2RGB image = Raise e) \/
   EmotionDetectionService.face_mesh self = None \/
   (exists rgb fm,
      Cv2.cvtColor_BGR2RGB image = Ok rgb /\
      EmotionDetectionService.face_mesh self = Some fm /\
      ((exists e, FaceMesh.respond fm (FaceMesh.history fm) rgb = Raise e) \/
       FaceMesh.respond fm (FaceMesh.history fm) rgb = Ok [] \/
       (exists rest, FaceMesh.respond fm (FaceMesh.history fm) rgb
                     = Ok ([] :: rest))))) /\
  (forall rgb fm face rest rest',
     Cv2.cvtColor_BGR2RGB image = Ok rgb ->
     EmotionDetectionService.face_mesh self = Some fm ->
     FaceMesh.respond fm (FaceMesh.history fm) rgb = Ok (face :: rest) ->
     fst (EmotionDetectionService._extract_facial_landmarks self image)
     = or_none (EmotionDetectionService.landmarks_of_faces image (face :: rest'))) /\
  snd (EmotionDetectionService._extract_facial_landmarks self image)
  = match Cv2.cvtColor_BGR2RGB image, EmotionDetectionService.face_mesh self with
    | Ok rgb, Some fm =>
        EmotionDetectionService.with_face_mesh self
          (FaceMesh.make (FaceMesh.respond fm) (rgb :: FaceMesh.history fm))
    | _, _ => self
    end.
Proof.
  unfold EmotionDetectionService._extract_facial_landmarks, FaceMesh.process.
  split; [| split].
  - destruct (Cv2.cvtColor_BGR2RGB image) as [rgb|e] eqn:Hrgb.
    2:{ cbn [fst]. split; [intros _; left; eauto | reflexivity]. }
    destruct (EmotionDetectionService.face_mesh self) as [fm|] eqn:Hfm.
    2:{ cbn [fst]. split; [intros _; right; left; reflexivity | reflexivity]. }
    cbn [fst].
    destruct (FaceMesh.respond fm (FaceMesh.history fm) rgb)
      as [[|[|l face] rest]|e] eqn:Hresp; cbn [bind or_none].
    + split; [intros _ | reflexivity].
      right; right. exists rgb, fm. auto.
    + split; [intros _ | reflexivity].
      right; right. exists rgb, fm. repeat split; eauto.
    + split.
      * unfold EmotionDetectionService.landmarks_of_faces.
        cbn. discriminate.
      * intros [(e & He) | [Hn | (rgb' & fm' & [= <-] & [= <-] & Hcases)]];
          try discriminate.
        destruct Hcases as [(e & He) | [He | (r & He)]]; congruence.
    + split; [intros _ | reflexivity].
      right; right. exists rgb, fm. repeat split; eauto.
  - intros rgb fm face rest rest' -> -> Hresp. cbn [fst]. rewrite Hresp.
    reflexivity.
  - destruct (Cv2.cvtColor_BGR2RGB image) as [rgb|e]; [| reflexivity].
    destruct (EmotionDetectionService.face_mesh self) as [fm|]; reflexivity.
Qed.

(* ================================================================== *)
(** * The face preprocessor *)
(* ================================================================== *)

Section Crop.

Lemma int_bounds (q : Q) (n : Z) :
  0 <= q -> q <= inject_Z n -> (0 <= Py.int q <= n)%Z.
Proof.
  destruct q as [num den]. unfold Py.int, Qle, inject_Z. cbn [Qnum Qden].
  intros H0 Hn. rewrite Z.mul_1_r in H0. rewrite Z.mul_1_r in Hn.
  rewrite Z.quot_div_nonneg by lia. split.
  - apply Z.div_pos; lia.
  - apply Z.div_le_upper_bound; lia.
Qed.

Lemma int_nonnegative (q : Q) : 0 <= q -> (0 <= Py.int q)%Z.
Proof.
  destruct q as [num den]. unfold Py.int, Qle. cbn [Qnum Qden].
  intros H0. rewrite Z.mul_1_r in H0.
  rewrite Z.quot_div_nonneg by lia. apply Z.div_pos; lia.
Qed.

Lemma in_firstn {A : Type} (n : nat) (xs : list A) (a : A) :
  In a (firstn n xs) -> In a xs.
Proof.
  intros Ha. rewrite <- (firstn_skipn n xs). apply in_or_app. left. exact Ha.
Qed.

Lemma in_skipn {A : Type} (n : nat) (xs : list A) (a : A) :
  In a (skipn n xs) -> In a xs.
Proof.
  intros Ha. rewrite <- (firstn_skipn n xs). apply in_or_app. right. exact Ha.
Qed.

(** A slice with bounds inside the sequence, or past its end. *)
Lemma slice_nonnegative {A : Type} (lo hi : Z) (xs : list A) :
  (0 <= lo)%Z -> (0 <= hi <= Z.of_nat (List.length xs))%Z ->
  Py.slice lo hi xs
    = firstn (Z.to_nat (hi - lo)) (skipn (Z.to_nat lo) xs).
Proof.
  intros Hlo Hhi. unfold Py.slice, Py.slice_bound.
  destruct (Z.ltb_spec lo 0); [lia |].
  destruct (Z.ltb_spec hi 0); [lia |].
  rewrite (Z.min_l hi) by lia.
  destruct (Z.le_gt_cases lo (Z.of_nat (List.length xs))) as [Hin|Hout].
  - rewrite Z.min_l by lia. reflexivity.
  - rewrite Z.min_r by lia.
    rewrite !skipn_all2 by lia. rewrite !firstn_nil. reflexivity.
Qed.

Lemma length_slice_nonnegative {A : Type} (lo hi : Z) (xs : list A) :
  (0 <= lo)%Z -> (0 <= hi <= Z.of_nat (List.length xs))%Z ->
  List.length (Py.slice lo hi xs) = Z.to_nat (hi - lo).
Proof.
  intros Hlo Hhi. rewrite slice_nonnegative by assumption.
  rewrite length_firstn, length_skipn. lia.
Qed.

End Crop.

(** [_preprocess_face_for_emotion] hands [face_region] to [cv2.resize]. *)
Lemma preprocess_resizes_face_region {C : Cv2.t}
    (self : EmotionDetectionService.t) (image : Image)
    (landmarks : FacialLandmarks.t) :
  EmotionDetectionService._preprocess_face_for_emotion self image landmarks
  = (face_resized <- Cv2.resize (face_region image landmarks) 48 48 ;;
     face_gray <- Cv2.cvtColor_RGB2GRAY face_resized ;;
     Ok (unsqueeze2 (map (map (fun g => Finite (inject_Z g / 255))) face_gray))).
Proof. reflexivity. Qed.

(** The crop window of the preprocessor and the region it cuts out. *)
Lemma crop_window
    (image : Image) (landmarks : FacialLandmarks.t) (H W : nat) :
  has_shape H W image ->
  0 <= FacialLandmarks.width (FacialLandmarks.bounding_box landmarks) ->
  0 <= FacialLandmarks.height (FacialLandmarks.bounding_box landmarks) ->
  let '(x, y, w, h) := crop_box image landmarks in
  (0 <= x /\ 0 <= y /\ x + w <= Z.of_nat W /\ y + h <= Z.of_nat H)%Z /\
  face_region image landmarks
    = map (fun row => firstn (Z.to_nat w) (skipn (Z.to_nat x) row))
        (firstn (Z.to_nat h) (skipn (Z.to_nat y) image)) /\
  has_shape (Z.to_nat h) (Z.to_nat w) (face_region image landmarks) /\
  ((x < Z.of_nat W)%Z -> (y < Z.of_nat H)%Z -> (1 <= w /\ 1 <= h)%Z).
Proof.
  intros (Hrows & Hcols) Hw0 Hh0.
  apply int_nonnegative in Hw0. apply int_nonnegative in Hh0.
  unfold face_region, crop_box. cbv zeta.
  set (bbox := FacialLandmarks.bounding_box landmarks) in *.
  set (x := Z.max 0 (Py.int (FacialLandmarks.x bbox) - 20)).
  set (y := Z.max 0 (Py.int (FacialLandmarks.y bbox) - 20)).
  assert (HW : H <> 0%nat -> Np.shape1 image = W).
  { destruct image as [|row image]; [simpl in Hrows; lia |].
    intros _. inversion Hcols. assumption. }
  assert (HW' : (Z.of_nat (Np.shape1 image) <= Z.of_nat W)%Z).
  { destruct image as [|row image]; [simpl; lia |].
    rewrite HW by (simpl in Hrows; lia). lia. }
  set (w := Z.min (Z.of_nat (Np.shape1 image) - x)
              (Py.int (FacialLandmarks.width bbox) + 2 * 20)).
  set (h := Z.min (Z.of_nat (List.length image) - y)
              (Py.int (FacialLandmarks.height bbox) + 2 * 20)).
  assert (Hx : (0 <= x)%Z) by (unfold x; lia).
  assert (Hy : (0 <= y)%Z) by (unfold y; lia).
  assert (Hxw : (x + w <= Z.of_nat (Np.shape1 image))%Z) by (unfold w; lia).
  assert (Hyh : (y + h <= Z.of_nat H)%Z) by (unfold h; lia).
  assert (Hyh0 : (0 <= y + h)%Z) by (unfold h; lia).
  assert (Hxw0 : (0 <= x + w)%Z) by (unfold w; lia).
  assert (Hregion :
    map (Py.slice x (x + w)) (Py.slice y (y + h) image)
    = map (fun row => firstn (Z.to_nat w) (skipn (Z.to_nat x) row))
        (firstn (Z.to_nat h) (skipn (Z.to_nat y) image))).
  { rewrite slice_nonnegative by lia.
    replace (y + h - y)%Z with h by lia.
    apply map_ext_in. intros row Hrow.
    apply in_firstn in Hrow. apply in_skipn in Hrow.
    rewrite Forall_forall in Hcols. pose proof (Hcols row Hrow) as Hlen.
    assert (H <> 0%nat) by (destruct image; [contradiction | simpl in Hrows; lia]).
    rewrite slice_nonnegative by (rewrite ?Hlen, <- ?HW by assumption; lia).
    replace (x + w - x)%Z with w by lia. reflexivity. }
  split; [lia |]. split; [exact Hregion |]. split.
  - rewrite Hregion. split.
    + rewrite length_map, length_firstn, length_skipn. lia.
    + apply Forall_map, Forall_forall. intros row Hrow.
      apply in_firstn in Hrow. apply in_skipn in Hrow.
      rewrite Forall_forall in Hcols. pose proof (Hcols row Hrow) as Hlen.
      assert (H <> 0%nat) by (destruct image; [contradiction | simpl in Hrows; lia]).
      rewrite length_firstn, length_skipn, Hlen.
      rewrite HW in Hxw by assumption. lia.
  - intros Hxin Hyin.
    assert (H <> 0%nat) by lia.
    unfold w, h. rewrite HW by assumption. lia.
Qed.

(** X5.  Cropping clamps to the image.  For an image of [H] rows and [W]
    columns and a bounding box of non-negative width and height, the crop
    window satisfies [0 <= x], [0 <= y], [x + w <= W], [y + h <= H], the face
    region is exactly the rows [y .. y + h) and columns [x .. x + w) of the
    image, with [h] rows of [w] pixels (none when [h] or [w] is not
    positive), and it has at least one row and one column as soon as the
    padded corner lies inside the image. *)
Theorem face_crop_is_clamped_to_the_image
    (image : Image) (landmarks : FacialLandmarks.t) (H W : nat) :
  has_shape H W image ->
  0 <= FacialLandmarks.width (FacialLandmarks.bounding_box landmarks) ->
  0 <= FacialLandmarks.height (FacialLandmarks.bounding_box landmarks) ->
  let '(x, y, w, h) := crop_box image landmarks in
  (0 <= x /\ 0 <= y /\ x + w <= Z.of_nat W /\ y + h <= Z.of_nat H)%Z /\
  face_region image landmarks
    = map (fun row => firstn (Z.to_nat w) (skipn (Z.to_nat x) row))
        (firstn (Z.to_nat h) (skipn (Z.to_nat y) image)) /\
  has_shape (Z.to_nat h) (Z.to_nat w) (face_region image landmarks) /\
  ((x < Z.of_nat W)%Z -> (y < Z.of_nat H)%Z -> (1 <= w /\ 1 <= h)%Z).
Proof.
  intros Hshape Hwidth Hheight.
  pose proof (crop_window image landmarks H W Hshape Hwidth Hheight) as Hwindow.
  destruct (crop_box image landmarks) as [[[x y] w] h].
  exact Hwindow.
Qed.

Lemma face_crop_is_clamped_to_the_image_witness :
  let '(x, y, w, h) := crop_box Samples.picture_image Samples.found_landmarks in
  (0 <= x /\ 0 <= y /\ x + w <= Z.of_nat 4 /\ y + h <= Z.of_nat 1)%Z /\
  face_region Samples.picture_image Samples.found_landmarks
    = map (fun row => firstn (Z.to_nat w) (skipn (Z.to_nat x) row))
        (firstn (Z.to_nat h) (skipn (Z.to_nat y) Samples.picture_image)) /\
  has_shape (Z.to_nat h) (Z.to_nat w)
    (face_region Samples.picture_image Samples.found_landmarks) /\
  ((x < Z.of_nat 4)%Z -> (y < Z.of_nat 1)%Z -> (1 <= w /\ 1 <= h)%Z).
Proof.
  apply (face_crop_is_clamped_to_the_image Samples.picture_image
           Samples.found_landmarks 1 4).
  - split; [reflexivity | repeat constructor].
  - vm_compute. discriminate.
  - vm_compute. discriminate.
Defined.

(** X6.  A face found in the frame never gives an empty crop.  When the
    tracker's points are normalised to the image (coordinates in [0, 1]), the
    face region cut out for the landmark set the extractor returns has at
    least one row and at least one pixel in every row, whatever the position
    of the face, the image edge included. *)
Theorem found_face_gives_a_nonempty_crop {C : Cv2.t}
    (self : EmotionDetectionService.t) (image : Image)
    (lm : FacialLandmarks.t) (H W : nat) :
  has_shape H W image ->
  (forall rgb fm face rest,
     Cv2.cvtColor_BGR2RGB image = Ok rgb ->
     EmotionDetectionService.face_mesh self = Some fm ->
     FaceMesh.respond fm (FaceMesh.history fm) rgb = Ok (face :: rest) ->
     Forall (fun l => 0 <= NormalizedLandmark.x l <= 1 /\
                      0 <= NormalizedLandmark.y l <= 1) face) ->
  (1 <= H)%nat -> (1 <= W)%nat ->
  fst (EmotionDetectionService._extract_facial_landmarks self image) = Some lm ->
  exists h w,
    (1 <= h)%nat /\ (1 <= w)%nat /\ has_shape h w (face_region image lm).
Proof.
  intros Hshape Hnorm HH HW Hsome.
  destruct (extract_facial_landmarks_origin self image lm Hsome)
    as (rgb & fm & faces & Hrgb & Hfm & Hresp & Hfaces).
  destruct (landmarks_of_faces_some image faces lm Hfaces)
    as (face & rest & min_x & min_y & max_x & max_y & -> & Hne
        & Hminx & Hminy & Hmaxx & Hmaxy & Hlm).
  pose proof (Hnorm rgb fm face rest Hrgb Hfm Hresp) as Hface.
  assert (Hshape1 : Np.shape1 image = W).
  { destruct Hshape as (Hrows & Hcols).
    destruct image as [|row image]; [simpl in Hrows; lia |].
    inversion Hcols. assumption. }
  assert (Hlen : List.length image = H) by apply Hshape.
  rewrite Hshape1, Hlen in *.
  assert (HW0 : 0 <= inject_Z (Z.of_nat W))
    by (change 0 with (inject_Z 0); rewrite <- Zle_Qle; lia).
  assert (HH0 : 0 <= inject_Z (Z.of_nat H))
    by (change 0 with (inject_Z 0); rewrite <- Zle_Qle; lia).
  destruct face as [|l0 face]; [congruence |].
  pose proof (Forall_inv Hface) as (Hx0 & Hy0). cbv beta in Hx0, Hy0.
  assert (Hminx0 : 0 <= min_x).
  { apply (py_min_glb _ _ _ Hminx). apply Forall_map.
    eapply Forall_impl; [| exact Hface]. cbv beta. intros l (Hlx & _).
    apply Qmult_le_0_compat; [apply Hlx | exact HW0]. }
  assert (Hminy0 : 0 <= min_y).
  { apply (py_min_glb _ _ _ Hminy). apply Forall_map.
    eapply Forall_impl; [| exact Hface]. cbv beta. intros l (_ & Hly).
    apply Qmult_le_0_compat; [apply Hly | exact HH0]. }
  pose proof (Forall_inv (py_min_lower _ _ Hminx)) as Lx0. cbv beta in Lx0.
  pose proof (Forall_inv (py_min_lower _ _ Hminy)) as Ly0. cbv beta in Ly0.
  pose proof (Forall_inv (py_max_upper _ _ Hmaxx)) as Ux0. cbv beta in Ux0.
  pose proof (Forall_inv (py_max_upper _ _ Hmaxy)) as Uy0. cbv beta in Uy0.
  assert (Hminx1 : min_x <= inject_Z (Z.of_nat W)).
  { eapply Qle_trans; [exact Lx0 |].
    rewrite <- (Qmult_1_l (inject_Z (Z.of_nat W))) at 2.
    apply Qmult_le_compat_r; [apply Hx0 | exact HW0]. }
  assert (Hminy1 : min_y <= inject_Z (Z.of_nat H)).
  { eapply Qle_trans; [exact Ly0 |].
    rewrite <- (Qmult_1_l (inject_Z (Z.of_nat H))) at 2.
    apply Qmult_le_compat_r; [apply Hy0 | exact HH0]. }
  pose proof (int_bounds _ _ Hminx0 Hminx1) as Hix.
  pose proof (int_bounds _ _ Hminy0 Hminy1) as Hiy.
  subst lm.
  match goal with
  | |- context [face_region image ?v] =>
      pose proof (crop_window image v H W Hshape) as Hcrop
  end.
  unfold crop_box in Hcrop. cbv zeta in Hcrop.
  cbn [FacialLandmarks.bounding_box FacialLandmarks.x FacialLandmarks.y
       FacialLandmarks.width FacialLandmarks.height] in Hcrop.
  rewrite Hshape1, Hlen in Hcrop.
  destruct Hcrop as (_ & _ & Hhas & Hpos); [lra | lra |].
  destruct Hpos as (Hw1 & Hh1); [lia | lia |].
  eexists _, _. split; [| split; [| exact Hhas]]; lia.
Qed.

Lemma found_face_gives_a_nonempty_crop_witness :
  exists h w,
    (1 <= h)%nat /\ (1 <= w)%nat /\
    has_shape h w (face_region Samples.picture_image Samples.found_landmarks).
Proof.
  apply (found_face_gives_a_nonempty_crop (C := Fixtures.cv2)
           (Fixtures.service Fixtures.angry_cnn Fixtures.steady)
           Samples.picture_image Samples.found_landmarks 1 4).
  - split; [reflexivity | repeat constructor].
  - intros rgb fm face rest _ Hfm Hresp.
    injection Hfm as <-. injection Hresp as <- _.
    repeat constructor; vm_compute; discriminate.
  - lia.
  - lia.
  - vm_compute. reflexivity.
Defined.

(** X7.  The face tensor is normalised to the unit range: when OpenCV
    returns a 48 x 48 grey image with values in 0..255 for the face region,
    the preprocessor returns a single 48 x 48 plane whose every entry is a
    finite number between 0 and 1. *)
Theorem face_tensor_is_in_the_unit_range {C : Cv2.t}
    (self : EmotionDetectionService.t) (image : Image)
    (landmarks : FacialLandmarks.t) (resized : Image) (gray : GrayImage) :
  Cv2.resize (face_region image landmarks) 48 48 = Ok resized ->
  Cv2.cvtColor_RGB2GRAY resized = Ok gray ->
  has_shape 48 48 gray ->
  Forall (Forall (fun g => (0 <= g <= 255)%Z)) gray ->
  exists plane,
    EmotionDetectionService._preprocess_face_for_emotion self image landmarks
      = Ok [[plane]] /\
    has_shape 48 48 plane /\
    Forall (Forall (fun v => exists q, v = Finite q /\ 0 <= q <= 1)) plane.
Proof.
  intros Hresize Hgray (Hrows & Hcols) Hrange.
  rewrite preprocess_resizes_face_region, Hresize. cbn [bind].
  rewrite Hgray. cbn [bind]. unfold unsqueeze2.
  eexists. split; [reflexivity |]. split; [split |].
  - rewrite length_map. exact Hrows.
  - apply Forall_map. eapply Forall_impl; [| exact Hcols].
    intros row Hrow. cbv beta. rewrite length_map. exact Hrow.
  - apply Forall_map. eapply Forall_impl; [| exact Hrange].
    intros row Hrow. cbv beta. apply Forall_map.
    eapply Forall_impl; [| exact Hrow].
    intros g (Hg0 & Hg255). cbv beta. eexists. split; [reflexivity |].
    assert (H0 : 0 <= inject_Z g)
      by (change 0 with (inject_Z 0); rewrite <- Zle_Qle; exact Hg0).
    assert (H255 : inject_Z g <= 255)
      by (change 255 with (inject_Z 255); rewrite <- Zle_Qle; exact Hg255).
    split.
    + apply Qle_shift_div_l; lra.
    + apply Qle_shift_div_r; lra.
Qed.

Lemma face_tensor_is_in_the_unit_range_witness :
  exists plane,
    EmotionDetectionService._preprocess_face_for_emotion (C := Fixtures.cv2)
      (Fixtures.service Fixtures.angry_cnn Fixtures.steady)
      Samples.picture_image Samples.found_landmarks
      = Ok [[plane]] /\
    has_shape 48 48 plane /\
    Forall (Forall (fun v => exists q, v = Finite q /\ 0 <= q <= 1)) plane.
Proof.
  eapply (face_tensor_is_in_the_unit_range (C := Fixtures.cv2)).
  - vm_compute. reflexivity.
  - vm_compute. reflexivity.
  - split; [reflexivity | repeat constructor].
  - repeat constructor; vm_compute; discriminate.
Defined.

(* ================================================================== *)
(** * The orchestrator, face found *)
(* ================================================================== *)

Section Confidence.

Lemma total_nonnegative (xs : list Q) :
  Forall (fun p => 0 <= p) xs -> 0 <= total xs.
Proof.
  induction 1 as [|p xs Hp Hxs IH]; [apply Qle_refl |].
  change (0 <= p + total xs). lra.
Qed.

Lemma entry_le_total (xs : list Q) (i : nat) (v : Q) :
  Forall (fun p => 0 <= p) xs -> nth_error xs i = Some v -> v <= total xs.
Proof.
  intros Hxs. revert i. induction Hxs as [|p xs Hp Hxs IH]; intros i Hi.
  - destruct i; discriminate.
  - change (v <= p + total xs). destruct i as [|i]; cbn in Hi.
    + injection Hi as ->. pose proof (total_nonnegative xs Hxs). lra.
    + pose proof (IH i Hi). lra.
Qed.

Lemma total_le_scaled (xs : list Q) (v : Q) :
  Forall (fun p => p <= v) xs ->
  total xs <= inject_Z (Z.of_nat (List.length xs)) * v.
Proof.
  induction 1 as [|p xs Hp Hxs IH].
  - change (0 <= 0 * v). lra.
  - change (p + total xs <= inject_Z (Z.of_nat (S (List.length xs))) * v).
    rewrite Nat2Z.inj_succ. unfold Z.succ. rewrite inject_Z_plus.
    change (inject_Z 1) with 1. lra.
Qed.

(** The largest of seven non-negative numbers that sum to one lies between
    one seventh and one. *)
Lemma seven_way_maximum_bounds (p : list Q) (i : nat) (v : Q) :
  List.length p = 7%nat -> Forall (fun q => 0 <= q) p -> total p == 1 ->
  first_max p i v -> 1 # 7 <= v /\ v <= 1.
Proof.
  intros Hlen Hpos Hsum Hmax.
  pose proof (total_le_scaled p v (first_max_bounds_all p i v Hmax)) as Hup.
  rewrite Hlen, Hsum in Hup. change (inject_Z (Z.of_nat 7)) with 7 in Hup.
  destruct Hmax as (Hat & _).
  pose proof (entry_le_total p i v Hpos Hat) as Hlow. rewrite Hsum in Hlow.
  split; lra.
Qed.

End Confidence.

(** X8.  Face found: when the image decodes, the extractor returns a
    landmark set and OpenCV prepares the face tensor, [detect_emotion] on a
    loaded 7-class classifier returns the verdict of [_classify_emotion] on
    that tensor with [source = "video"] and the landmark points; the emotion
    is one of the seven labels and the confidence lies between 1/7 and 1. *)
Theorem found_face_gives_the_classifier_verdict
    {E : Elementary} {B : Base64} {P : Pil} {C : Cv2.t}
    (self : EmotionDetectionService.t) (net : EmotionCNN.t)
    (image_data audio_data : option string) (session_id : string)
    (image : Image) (lm : FacialLandmarks.t) (face_tensor : tensor4) :
  (forall v, 0 < exp v) ->
  Py.truthy image_data = true ->
  EmotionDetectionService._decode_base64_image self image_data = Ok image ->
  fst (EmotionDetectionService._extract_facial_landmarks self image) = Some lm ->
  EmotionDetectionService._preprocess_face_for_emotion self image lm
    = Ok face_tensor ->
  EmotionDetectionService.emotion_model self = Some net ->
  EmotionCNN.well_shaped net ->
  EmotionCNN.num_classes net = 7%nat ->
  exists c,
    EmotionDetectionService._classify_emotion self face_tensor = Ok c /\
    fst (EmotionDetectionService.detect_emotion self image_data audio_data
           session_id)
    = Ok (EmotionDetectionResponse.make
            (EmotionClassification.emotion c)
            (EmotionClassification.confidence c)
            "video" (Some (FacialLandmarks.landmarks lm)) None) /\
    In (EmotionClassification.emotion c) EmotionDetectionService.EMOTIONS /\
    1 # 7 <= EmotionClassification.confidence c /\
    EmotionClassification.confidence c <= 1.
Proof.
  intros exp_pos Htruthy Hdec Hlm Hpre Hnet Hshape Hseven.
  assert (Hlen : List.length (EmotionCNN.logits net face_tensor) = 7%nat)
    by (rewrite Hshape; exact Hseven).
  destruct (classify_emotion_returns self net face_tensor Hnet Hlen)
    as (i & v & label & Hret & Hmax & Hnth & _).
  eexists. split; [exact Hret |].
  cbn [EmotionClassification.emotion EmotionClassification.confidence].
  split; [| split].
  - rewrite (detect_emotion_verdict self image_data audio_data session_id image
               Htruthy Hdec), Hlm.
    unfold verdict.
    change (EmotionDetectionService._preprocess_face_for_emotion _ image lm)
      with (EmotionDetectionService._preprocess_face_for_emotion self image lm).
    rewrite Hpre. cbn [bind].
    unfold EmotionDetectionService._classify_emotion in *.
    cbn [EmotionDetectionService.emotion_model]. rewrite Hnet in *.
    rewrite Hret. reflexivity.
  - eapply nth_error_In. exact Hnth.
  - assert (Hne : EmotionCNN.logits net face_tensor <> [])
      by (intros Hc; rewrite Hc in Hlen; discriminate).
    apply (seven_way_maximum_bounds (EmotionCNN.forward net face_tensor) i v).
    + unfold EmotionCNN.forward. rewrite softmax_length. exact Hlen.
    + apply softmax_nonnegative; assumption.
    + apply softmax_total; assumption.
    + exact Hmax.
Qed.

Lemma found_face_gives_the_classifier_verdict_witness :
  exists c,
    Fixtures.classify_emotion
      (Fixtures.service Fixtures.tied_cnn Fixtures.steady)
      Samples.face_tensor = Ok c /\
    fst (Fixtures.detect_emotion
           (Fixtures.service Fixtures.tied_cnn Fixtures.steady)
           (Some Fixtures.picture) None "s1")
    = Ok (EmotionDetectionResponse.make
            (EmotionClassification.emotion c)
            (EmotionClassification.confidence c)
            "video" (Some (FacialLandmarks.landmarks Samples.found_landmarks))
            None) /\
    In (EmotionClassification.emotion c) EmotionDetectionService.EMOTIONS /\
    1 # 7 <= EmotionClassification.confidence c /\
    EmotionClassification.confidence c <= 1.
Proof.
  eapply (found_face_gives_the_classifier_verdict (E := Fixtures.elementary)
            (B := Fixtures.base64) (P := Fixtures.pil) (C := Fixtures.cv2)
            (Fixtures.service Fixtures.tied_cnn Fixtures.steady)
            Fixtures.tied_cnn (Some Fixtures.picture) None "s1"
            Samples.picture_image Samples.found_landmarks Samples.face_tensor).
  - exact exp_q_positive.
  - reflexivity.
  - vm_compute. reflexivity.
  - vm_compute. reflexivity.
  - vm_compute. reflexivity.
  - reflexivity.
  - intros t. reflexivity.
  - reflexivity.
Defined.

(** X9.  What [detect_emotion] can raise.  On a loaded 7-class classifier a
    failing call raises [ValueError("Image data is required for emotion
    detection")] (no image), [ValueError("Invalid image data")] (the payload
    does not decode), or what OpenCV raised while resizing or converting the
    face region of a found face; nothing else.  In the first two cases the
    service, tracker included, is left untouched. *)
Theorem detect_emotion_failure_modes
    {E : Elementary} {B : Base64} {P : Pil} {C : Cv2.t}
    (self : EmotionDetectionService.t) (net : EmotionCNN.t)
    (image_data audio_data : option string) (session_id : string) (e : exn) :
  EmotionDetectionService.emotion_model self = Some net ->
  EmotionCNN.well_shaped net ->
  EmotionCNN.num_classes net = 7%nat ->
  fst (EmotionDetectionService.detect_emotion self image_data audio_data
         session_id) = Raise e ->
  (Py.truthy image_data = false /\
   e = ValueError "Image data is required for emotion detection" /\
   snd (EmotionDetectionService.detect_emotion self image_data audio_data
          session_id) = self) \/
  (Py.truthy image_data = true /\
   e = ValueError "Invalid image data" /\
   snd (EmotionDetectionService.detect_emotion self image_data audio_data
          session_id) = self) \/
  (exists image lm,
     EmotionDetectionService._decode_base64_image self image_data = Ok image /\
     fst (EmotionDetectionService._extract_facial_landmarks self image) = Some lm /\
     (Cv2.resize (face_region image lm) 48 48 = Raise e \/
      exists resized,
        Cv2.resize (face_region image lm) 48 48 = Ok resized /\
        Cv2.cvtColor_RGB2GRAY resized = Raise e)).
Proof.
  intros Hnet Hshape Hseven Hraise.
  destruct (Py.truthy image_data) eqn:Htruthy.
  2:{ left. unfold EmotionDetectionService.detect_emotion in *.
      rewrite Htruthy in *. cbn in Hraise. injection Hraise as <-. auto. }
  right.
  destruct (EmotionDetectionService._decode_base64_image self image_data)
    as [image|e'] eqn:Hdec.
  2:{ left. unfold EmotionDetectionService.detect_emotion in *.
      rewrite Htruthy, Hdec in *. cbn in Hraise. injection Hraise as <-.
      repeat split.
      unfold EmotionDetectionService._decode_base64_image in Hdec.
      destruct image_data as [s|]; [destruct (bind _ _) |];
        cbn [reraise_as] in Hdec; congruence. }
  right.
  rewrite (detect_emotion_verdict self image_data audio_data session_id image
             Htruthy Hdec) in Hraise.
  destruct (fst (EmotionDetectionService._extract_facial_landmarks self image))
    as [lm|] eqn:Hlm; [| discriminate].
  exists image, lm. split; [reflexivity | split; [exact Hlm |]].
  unfold verdict in Hraise.
  rewrite preprocess_resizes_face_region in Hraise.
  destruct (Cv2.resize (face_region image lm) 48 48) as [resized|e1];
    [| cbn in Hraise; left; congruence].
  right. exists resized. split; [reflexivity |]. cbn [bind] in Hraise.
  destruct (Cv2.cvtColor_RGB2GRAY resized) as [gray|e2];
    [| cbn in Hraise; congruence].
  cbn [bind] in Hraise. exfalso.
  match type of Hraise with
  | context [EmotionDetectionService._classify_emotion ?s ?t] =>
      destruct (classify_emotion_returns s net t) as (i & v & label & Hret & _);
        [exact Hnet | rewrite Hshape; exact Hseven |];
        rewrite Hret in Hraise
  end.
  discriminate.
Qed.

Lemma detect_emotion_failure_modes_witness :
  (Py.truthy (Some "") = false /\
   ValueError "Image data is required for emotion detection"
     = ValueError "Image data is required for emotion detection" /\
   snd (Fixtures.detect_emotion
          (Fixtures.service Fixtures.angry_cnn Fixtures.steady)
          (Some "") None "s1")
     = Fixtures.service Fixtures.angry_cnn Fixtures.steady) \/
  (Py.truthy (Some "") = true /\
   ValueError "Image data is required for emotion detection"
     = ValueError "Invalid image data" /\
   snd (Fixtures.detect_emotion
          (Fixtures.service Fixtures.angry_cnn Fixtures.steady)
          (Some "") None "s1")
     = Fixtures.service Fixtures.angry_cnn Fixtures.steady) \/
  (exists image lm,
     EmotionDetectionService._decode_base64_image (B := Fixtures.base64)
       (P := Fixtures.pil) (Fixtures.service Fixtures.angry_cnn Fixtures.steady)
       (Some "") = Ok image /\
     fst (EmotionDetectionService._extract_facial_landmarks (C := Fixtures.cv2)
            (Fixtures.service Fixtures.angry_cnn Fixtures.steady) image)
       = Some lm /\
     (Cv2.resize (t := Fixtures.cv2) (face_region image lm) 48 48
        = Raise (ValueError "Image data is required for emotion detection") \/
      exists resized,
        Cv2.resize (t := Fixtures.cv2) (face_region image lm) 48 48 = Ok resized /\
        Cv2.cvtColor_RGB2GRAY (t := Fixtures.cv2) resized
          = Raise (ValueError "Image data is required for emotion detection"))).
Proof.
  apply (detect_emotion_failure_modes (E := Fixtures.elementary)
           (B := Fixtures.base64) (P := Fixtures.pil) (C := Fixtures.cv2)
           (Fixtures.service Fixtures.angry_cnn Fixtures.steady)
           Fixtures.angry_cnn (Some "") None "s1").
  - reflexivity.
  - intros t. reflexivity.
  - reflexivity.
  - reflexivity.
Defined.

(* ================================================================== *)
(** * The fusion path *)
(* ================================================================== *)

(** X10.  On the fusion path the verdict does not depend on the request.
    Two requests to [detect_multimodal_emotion] on the same service state,
    each with an image that decodes and in which a face is found, get the
    same emotion and the same confidence, whatever their images and audio
    clips: both are computed from the next two draws of torch's generator
    (512 and 128 values) and from nothing else.  Each call advances the
    generator by exactly those two draws and leaves both classifiers as they
    were. *)
Theorem fusion_verdict_ignores_the_request
    {E : Elementary} {B : Base64} {P : Pil} {C : Cv2.t}
    (self : EmotionDetectionService.t)
    (image_data1 audio_data1 image_data2 audio_data2 : option string)
    (session_id1 session_id2 : string)
    (image1 image2 : Image) (lm1 lm2 : FacialLandmarks.t) :
  EmotionDetectionService._decode_base64_image self image_data1 = Ok image1 ->
  EmotionDetectionService._decode_base64_image self image_data2 = Ok image2 ->
  fst (EmotionDetectionService._extract_facial_landmarks self image1) = Some lm1 ->
  fst (EmotionDetectionService._extract_facial_landmarks self image2) = Some lm2 ->
  let first := EmotionDetectionService.detect_multimodal_emotion self
                 image_data1 audio_data1 session_id1 in
  let second := EmotionDetectionService.detect_multimodal_emotion self
                  image_data2 audio_data2 session_id2 in
  label_and_confidence (fst first) = label_and_confidence (fst second) /\
  Rng.draws (EmotionDetectionService.torch_rng (snd first))
    = S (S (Rng.draws (EmotionDetectionService.torch_rng self))) /\
  EmotionDetectionService.emotion_model (snd first)
    = EmotionDetectionService.emotion_model self /\
  EmotionDetectionService.multimodal_model (snd first)
    = EmotionDetectionService.multimodal_model self.
Proof.
  intros Hdec1 Hdec2 Hlm1 Hlm2 first second. subst first second.
  unfold EmotionDetectionService.detect_multimodal_emotion.
  rewrite Hdec1, Hdec2.
  pose proof (extract_facial_landmarks_frame self image1) as (He1 & Hm1 & Hg1).
  pose proof (extract_facial_landmarks_frame self image2) as (He2 & Hm2 & Hg2).
  destruct (EmotionDetectionService._extract_facial_landmarks self image1)
    as [o1 self1].
  destruct (EmotionDetectionService._extract_facial_landmarks self image2)
    as [o2 self2].
  cbn [fst snd] in *. subst o1 o2.
  unfold Rng.randn. cbn [fst snd Rng.draws Rng.stream
    EmotionDetectionService.torch_rng EmotionDetectionService.with_torch_rng
    EmotionDetectionService.multimodal_model
    EmotionDetectionService.emotion_model].
  rewrite Hg1, Hg2, Hm1, Hm2, He1.
  repeat split.
  destruct (EmotionDetectionService.multimodal_model self) as [net|];
    [| reflexivity].
  cbv zeta.
  destruct (Np.argmax _) as [i|]; [| reflexivity]. cbn [bind].
  destruct (Py.getitem EmotionDetectionService.EMOTIONS i) as [label|];
    [| reflexivity]. cbn [bind].
  destruct (Py.getitem _ i) as [conf|]; reflexivity.
Qed.

Lemma fusion_verdict_ignores_the_request_witness :
  let first := Fixtures.detect_multimodal_emotion
                 (Fixtures.service Fixtures.angry_cnn Fixtures.steady)
                 (Some Fixtures.picture) (Some Fixtures.clip) "s1" in
  let second := Fixtures.detect_multimodal_emotion
                  (Fixtures.service Fixtures.angry_cnn Fixtures.steady)
                  (Some Fixtures.wide_picture) None "s2" in
  label_and_confidence (fst first) = label_and_confidence (fst second) /\
  Rng.draws (EmotionDetectionService.torch_rng (snd first))
    = S (S (Rng.draws (EmotionDetectionService.torch_rng
                         (Fixtures.service Fixtures.angry_cnn Fixtures.steady)))) /\
  EmotionDetectionService.emotion_model (snd first)
    = EmotionDetectionService.emotion_model
        (Fixtures.service Fixtures.angry_cnn Fixtures.steady) /\
  EmotionDetectionService.multimodal_model (snd first)
    = EmotionDetectionService.multimodal_model
        (Fixtures.service Fixtures.angry_cnn Fixtures.steady).
Proof.
  eapply (fusion_verdict_ignores_the_request (E := Fixtures.elementary)
            (B := Fixtures.base64) (P := Fixtures.pil) (C := Fixtures.cv2)
            (Fixtures.service Fixtures.angry_cnn Fixtures.steady)
            (Some Fixtures.picture) (Some Fixtures.clip)
            (Some Fixtures.wide_picture) None "s1" "s2").
  - vm_compute. reflexivity.
  - vm_compute. reflexivity.
  - vm_compute. reflexivity.
  - vm_compute. reflexivity.
Defined.

(* ================================================================== *)
(** * The services before initialisation *)
(* ================================================================== *)

(** X11.  Before [initialize] the two services differ.  The emotion service
    answers every image that decodes with the no-face verdict (neutral, 0.5):
    the missing face mesh is an exception the landmark extractor swallows,
    so the missing classifier is never reached, and nothing changes.  The
    audio service decodes the clip, extracts the features, builds the
    spectrogram and only then raises TypeError on its missing classifier. *)
Theorem uninitialised_services_answer_differently
    {E : Elementary} {B : Base64} {P : Pil} {C : Cv2.t} {L : Librosa.t}
    (g : Rng.t) (image_data audio_data : option string) (session_id : string)
    (image : Image) (clip : string) (audio : Audio) (features : AudioFeatures.t)
    (spectrogram : tensor4) :
  Py.truthy image_data = true ->
  EmotionDetectionService._decode_base64_image (uninitialised g) image_data
    = Ok image ->
  AudioProcessingService._decode_base64_audio AudioProcessingService.init clip
    = Ok audio ->
  AudioProcessingService.extract_audio_features AudioProcessingService.init audio
    = Ok features ->
  AudioProcessingService._create_spectrogram AudioProcessingService.init audio
    = Ok spectrogram ->
  EmotionDetectionService.detect_emotion (uninitialised g) image_data audio_data
      session_id
    = (Ok (EmotionDetectionService.no_face_response "video"), uninitialised g) /\
  EmotionDetectionService.detect_multimodal_emotion (uninitialised g) image_data
      audio_data session_id
    = (Ok (EmotionDetectionService.no_face_response "audio"), uninitialised g) /\
  AudioProcessingService.detect_emotion_from_audio AudioProcessingService.init clip
    = Raise (TypeError "'NoneType' object is not callable").
Proof.
  intros Htruthy Hdec Haudio Hfeatures Hspec.
  assert (Hnone : EmotionDetectionService._extract_facial_landmarks
                    (uninitialised g) image = (None, uninitialised g)).
  { unfold EmotionDetectionService._extract_facial_landmarks.
    destruct (Cv2.cvtColor_BGR2RGB image); reflexivity. }
  split; [| split].
  - unfold EmotionDetectionService.detect_emotion.
    rewrite Htruthy, Hdec, Hnone. reflexivity.
  - unfold EmotionDetectionService.detect_multimodal_emotion.
    rewrite Hdec, Hnone. reflexivity.
  - unfold AudioProcessingService.detect_emotion_from_audio.
    rewrite Haudio. cbn [bind]. rewrite Hfeatures. cbn [bind].
    rewrite Hspec. reflexivity.
Qed.

Lemma uninitialised_services_answer_differently_witness :
  Fixtures.detect_emotion (uninitialised Fixtures.rng) (Some Fixtures.picture)
      None "s1"
    = (Ok (EmotionDetectionService.no_face_response "video"),
       uninitialised Fixtures.rng) /\
  Fixtures.detect_multimodal_emotion (uninitialised Fixtures.rng)
      (Some Fixtures.picture) None "s1"
    = (Ok (EmotionDetectionService.no_face_response "audio"),
       uninitialised Fixtures.rng) /\
  Fixtures.detect_emotion_from_audio AudioProcessingService.init Fixtures.clip
    = Raise (TypeError "'NoneType' object is not callable").
Proof.
  eapply (uninitialised_services_answer_differently (E := Fixtures.elementary)
            (B := Fixtures.base64) (P := Fixtures.pil) (C := Fixtures.cv2)
            (L := Fixtures.librosa) Fixtures.rng (Some Fixtures.picture) None
            "s1" Samples.picture_image Fixtures.clip Fixtures.samples
            Fixtures.clip_features Fixtures.clip_spectrogram).
  - reflexivity.
  - vm_compute. reflexivity.
  - vm_compute. reflexivity.
  - vm_compute. reflexivity.
  - vm_compute. reflexivity.
Defined.

(* ================================================================== *)
(** * Normalisation of the spectrogram *)
(* ================================================================== *)

Section Standardise.
Context {E : Elementary}.

Lemma total_app (xs ys : list Q) : total (xs ++ ys) == total xs + total ys.
Proof.
  induction xs as [|x xs IH].
  - change (total ys == 0 + total ys). ring.
  - change (x + total (xs ++ ys) == x + total xs + total ys). rewrite IH. ring.
Qed.

Lemma total_shifted_scaled (xs : list Q) (c s : Q) :
  ~ s == 0 ->
  total (map (fun v => (v - c) / s) xs)
  == (total xs - inject_Z (Z.of_nat (List.length xs)) * c) / s.
Proof.
  intros Hs. induction xs as [|x xs IH].
  - change (0 == (0 - 0 * c) / s). field. exact Hs.
  - change ((x - c) / s + total (map (fun v => (v - c) / s) xs)
            == (x + total xs - inject_Z (Z.of_nat (S (List.length xs))) * c) / s).
    rewrite IH, Nat2Z.inj_succ. unfold Z.succ. rewrite inject_Z_plus.
    change (inject_Z 1) with 1. field. exact Hs.
Qed.

Lemma total_squares_scaled (xs : list Q) (c s : Q) :
  ~ s == 0 ->
  total (map (fun v => ((v - c) / s) * ((v - c) / s)) xs)
  == total (map (fun v => (v - c) * (v - c)) xs) / (s * s).
Proof.
  intros Hs. induction xs as [|x xs IH].
  - change (0 == 0 / (s * s)). field. exact Hs.
  - change ((x - c) / s * ((x - c) / s)
              + total (map (fun v => (v - c) / s * ((v - c) / s)) xs)
            == ((x - c) * (x - c) + total (map (fun v => (v - c) * (v - c)) xs))
               / (s * s)).
    rewrite IH. field. exact Hs.
Qed.

Lemma mean_value (xs : list Q) (mu : Q) :
  Np.mean xs = Finite mu ->
  xs <> [] /\ mu * inject_Z (Z.of_nat (List.length xs)) == total xs.
Proof.
  destruct xs as [|x xs]; [discriminate |].
  intros Hm. split; [discriminate |].
  assert (Hmu : mu = Np.sum (x :: xs)
                     / inject_Z (Z.of_nat (List.length (x :: xs))))
    by (unfold Np.mean in Hm; congruence).
  rewrite Hmu, sum_total. field.
  change 0 with (inject_Z 0). rewrite inject_Z_injective. simpl. lia.
Qed.

Lemma flatten_map_map {A B' : Type} (f : A -> B') (m : Np.array2 A) :
  Np.flatten (map (map f) m) = map f (Np.flatten m).
Proof.
  unfold Np.flatten. rewrite concat_map. reflexivity.
Qed.

End Standardise.

(** X12.  Where the standard deviation of the log-mel spectrogram is not
    zero the normalisation does what its comment says: every entry of the
    normalised array is finite, the entries sum to zero, and, where the
    square of the standard deviation is the variance (as it is for an exact
    root), their squares sum to the number of entries: mean 0, variance 1. *)
Theorem normalize_standardises {E : Elementary} (m : Np.array2 Q) (sd : Q) :
  Np.std (Np.flatten m) = Finite sd ->
  ~ sd == 0 ->
  exists z : Np.array2 Q,
    AudioProcessingService.normalize m = map (map Finite) z /\
    List.length z = List.length m /\
    total (Np.flatten z) == 0 /\
    (forall var,
       variance (Np.flatten m) = Finite var -> sd * sd == var ->
       total (map (fun v => v * v) (Np.flatten z))
       == inject_Z (Z.of_nat (List.length (Np.flatten m)))).
Proof.
  intros Hstd Hsd.
  unfold AudioProcessingService.normalize. unfold Np.std in Hstd.
  destruct (Np.mean (Np.flatten m)) as [mu| |] eqn:Hmean; try discriminate.
  destruct (Np.mean (map (fun x => (x - mu) * (x - mu)) (Np.flatten m)))
    as [v| |] eqn:Hvar; try discriminate.
  injection Hstd as Hsdv.
  exists (map (map (fun x => (x - mu) / sd)) m).
  assert (Hnz : Qeq_bool sd 0 = false).
  { destruct (Qeq_bool sd 0) eqn:Hb; [| reflexivity].
    apply Qeq_bool_iff in Hb. contradiction. }
  destruct (mean_value _ _ Hmean) as (Hne & Hmu).
  split; [| split; [| split]].
  - rewrite map_map. apply map_ext. intros row. rewrite map_map.
    apply map_ext. intros x. unfold Np.std. rewrite Hmean, Hvar, Hsdv.
    cbn [Np.sub Np.truediv]. rewrite Hnz. reflexivity.
  - apply length_map.
  - rewrite flatten_map_map, total_shifted_scaled by exact Hsd.
    rewrite <- Hmu. field. exact Hsd.
  - intros var Hvariance Hsq. unfold variance in Hvariance.
    rewrite Hmean, Hvar in Hvariance. injection Hvariance as <-.
    destruct (mean_value _ _ Hvar) as (_ & Hv). rewrite length_map in Hv.
    rewrite flatten_map_map, map_map.
    rewrite total_squares_scaled by exact Hsd.
    assert (Hss : ~ sd * sd == 0)
      by (intros Hc; destruct (Qmult_integral _ _ Hc); contradiction).
    assert (Hvnz : ~ v == 0) by (rewrite <- Hsq; exact Hss).
    rewrite <- Hv, Hsq. field. exact Hvnz.
Qed.

Lemma normalize_standardises_witness :
  exists z : Np.array2 Q,
    AudioProcessingService.normalize (E := Fixtures.elementary) [[0; 2]; [2; 0]]
      = map (map Finite) z /\
    List.length z = List.length [[0; 2]; [2; 0]] /\
    total (Np.flatten z) == 0 /\
    (forall var,
       variance (Np.flatten [[0; 2]; [2; 0]]) = Finite var ->
       Fixtures.sqrt_q 1 * Fixtures.sqrt_q 1 == var ->
       total (map (fun v => v * v) (Np.flatten z))
       == inject_Z (Z.of_nat (List.length (Np.flatten [[0; 2]; [2; 0]])))).
Proof.
  apply (normalize_standardises (E := Fixtures.elementary) [[0; 2]; [2; 0]]
           (Fixtures.sqrt_q 1)).
  - vm_compute. reflexivity.
  - discriminate.
Defined.

(* ================================================================== *)
(** * Constant spectrograms *)
(* ================================================================== *)

Lemma sqrt_q_zero (v : Q) : v == 0 -> Fixtures.sqrt_q v == 0.
Proof.
  destruct v as [num den]. unfold Qeq, Fixtures.sqrt_q. cbn [Qnum Qden].
  rewrite Z.mul_1_r. intros ->. reflexivity.
Qed.

(** X13.  No guard against a zero standard deviation.  Whenever the log-mel
    spectrogram of a clip is constant (silence, for one) and the root of
    zero is zero, the builder does not raise: it returns a single plane in
    which every column that comes from the clip holds nan and only the
    padding holds 0, so the tensor is not finite. *)
Theorem constant_spectrogram_is_not_finite {E : Elementary} {L : Librosa.t}
    (self : AudioProcessingService.t) (audio : Audio)
    (mel_spec : Np.array2 Q) (c : Q) (T rows : nat) :
  (forall v, v == 0 -> sqrt v == 0) ->
  (0 < T)%nat -> (0 < rows)%nat ->
  Librosa.melspectrogram audio (AudioProcessingService.sample_rate self) 128 8000
    = Ok mel_spec ->
  Librosa.power_to_db mel_spec = Ok (repeat (repeat c T) rows) ->
  exists plane,
    AudioProcessingService._create_spectrogram self audio = Ok [[plane]] /\
    List.length plane = rows /\
    Forall (fun row => row = repeat NaN (Nat.min T 128)
                             ++ repeat (Finite 0) (128 - T)) plane /\
    all_finite [[plane]] = false.
Proof.
  intros sqrt_zero HT Hrows Hmel Hdb.
  rewrite (constant_spectrogram_is_nan sqrt_zero self audio mel_spec c T rows
             HT Hrows Hmel Hdb).
  eexists. split; [reflexivity |]. split; [apply repeat_length |]. split.
  - apply Forall_forall. intros row Hrow. apply repeat_spec in Hrow. exact Hrow.
  - destruct rows as [|rows]; [lia |].
    destruct T as [|T]; [lia |]. reflexivity.
Qed.

Lemma constant_spectrogram_is_not_finite_witness :
  exists plane,
    Fixtures.create_spectrogram Fixtures.audio_service Fixtures.silence
      = Ok [[plane]] /\
    List.length plane = 128%nat /\
    Forall (fun row => row = repeat NaN (Nat.min 2 128)
                             ++ repeat (Finite 0) (128 - 2)) plane /\
    all_finite [[plane]] = false.
Proof.
  eapply (constant_spectrogram_is_not_finite (E := Fixtures.elementary)
            (L := Fixtures.librosa) Fixtures.audio_service Fixtures.silence
            _ ((0 # 2048) - (0 # 2048)) 2 128).
  - exact sqrt_q_zero.
  - lia.
  - lia.
  - vm_compute. reflexivity.
  - vm_compute. reflexivity.
Defined.

(* ================================================================== *)
(** * The pitch of the acoustic features *)
(* ================================================================== *)

Section Pitch.
Context {L : Librosa.t}.

Lemma extract_audio_features_pitch (self : AudioProcessingService.t)
    (audio : Audio) (f : AudioFeatures.t) :
  AudioProcessingService.extract_audio_features self audio = Ok f ->
  exists pm,
    Librosa.piptrack audio (AudioProcessingService.sample_rate self) = Ok pm /\
    AudioFeatures.pitch f
    = if existsb AudioProcessingService.positive (Np.flatten (fst pm))
      then Np.mean (filter AudioProcessingService.positive (Np.flatten (fst pm)))
      else Finite 0.
Proof.
  unfold AudioProcessingService.extract_audio_features.
  destruct (Librosa.mfcc audio _ 13) as [mfccs|]; [| discriminate].
  destruct (Librosa.piptrack audio _) as [pm|]; [| discriminate].
  cbn [bind].
  destruct (Librosa.rms audio) as [rms|]; [| discriminate]. cbn [bind].
  destruct (Py.getitem rms 0) as [rms0|]; [| discriminate]. cbn [bind].
  destruct (Librosa.spectral_centroid audio _) as [sc|]; [| discriminate].
  cbn [bind].
  destruct (Py.getitem sc 0) as [sc0|]; [| discriminate]. cbn [bind].
  destruct (Librosa.zero_crossing_rate audio) as [zcr|]; [| discriminate].
  cbn [bind].
  destruct (Py.getitem zcr 0) as [zcr0|]; [| discriminate]. cbn [bind].
  destruct (Librosa.spectral_rolloff audio _) as [ro|]; [| discriminate].
  cbn [bind].
  destruct (Py.getitem ro 0) as [ro0|]; [| discriminate]. cbn [bind].
  destruct (Librosa.chroma_stft audio _) as [chroma|]; [| discriminate].
  cbn [bind]. intros [= <-]. exists pm. split; reflexivity.
Qed.

Lemma positive_spec (p : Q) : AudioProcessingService.positive p = true <-> 0 < p.
Proof.
  unfold AudioProcessingService.positive.
  destruct (Qle_bool p 0) eqn:Hp; cbn [negb].
  - apply Qle_bool_iff in Hp. split; [discriminate | intros; lra].
  - split; [intros _ | reflexivity].
    apply Qnot_le_lt. intros Hc. apply Qle_bool_iff in Hc. congruence.
Qed.

Lemma mean_of_positives (ps : list Q) :
  ps <> [] -> Forall (fun p => 0 < p) ps ->
  exists q, Np.mean ps = Finite q /\ 0 < q.
Proof.
  intros Hne Hpos. destruct ps as [|p ps]; [congruence |].
  eexists. split; [reflexivity |].
  rewrite sum_total. apply Qlt_shift_div_l.
  - change 0 with (inject_Z 0). rewrite <- Zlt_Qlt. simpl. lia.
  - rewrite Qmult_0_l. apply total_positive; [discriminate | exact Hpos].
Qed.

End Pitch.

(** X14.  The pitch of every feature record is a finite, non-negative
    number, never nan: it is the mean of the strictly positive entries of the
    pitch track, hence positive, when there is such an entry, and exactly 0.0
    when there is none (an empty or all-zero track included). *)
Theorem pitch_is_finite_and_nonnegative {L : Librosa.t}
    (self : AudioProcessingService.t) (audio : Audio) (f : AudioFeatures.t) :
  AudioProcessingService.extract_audio_features self audio = Ok f ->
  exists pm q,
    Librosa.piptrack audio (AudioProcessingService.sample_rate self) = Ok pm /\
    AudioFeatures.pitch f = Finite q /\
    0 <= q /\
    (0 < q <-> exists p, In p (Np.flatten (fst pm)) /\ 0 < p).
Proof.
  intros Hret.
  destruct (extract_audio_features_pitch self audio f Hret) as (pm & Hpm & Hpitch).
  exists pm. rewrite Hpitch.
  destruct (existsb AudioProcessingService.positive (Np.flatten (fst pm)))
    eqn:Hany.
  - apply existsb_exists in Hany. destruct Hany as (p & Hin & Hp).
    destruct (mean_of_positives
                (filter AudioProcessingService.positive (Np.flatten (fst pm))))
      as (q & Hq & Hq0).
    + intros Hc.
      assert (Hf : In p (filter AudioProcessingService.positive
                           (Np.flatten (fst pm))))
        by (apply filter_In; auto).
      rewrite Hc in Hf. contradiction.
    + apply Forall_forall. intros x Hx. apply filter_In in Hx.
      apply positive_spec. apply Hx.
    + exists q. split; [exact Hpm |]. split; [exact Hq |].
      split; [lra |]. split; [intros _ | intros _; exact Hq0].
      exists p. split; [exact Hin | apply positive_spec; exact Hp].
  - exists 0. split; [exact Hpm |]. split; [reflexivity |].
    split; [lra |]. split; [intros Hc; lra |].
    intros (p & Hin & Hp). exfalso.
    assert (Hex : existsb AudioProcessingService.positive (Np.flatten (fst pm))
                  = true)
      by (apply existsb_exists; exists p; split;
          [exact Hin | apply positive_spec; exact Hp]).
    congruence.
Qed.

Lemma pitch_is_finite_and_nonnegative_witness :
  exists pm q,
    Librosa.piptrack (t := Fixtures.librosa) Fixtures.samples
      (AudioProcessingService.sample_rate Fixtures.audio_service) = Ok pm /\
    AudioFeatures.pitch Fixtures.clip_features = Finite q /\
    0 <= q /\
    (0 < q <-> exists p, In p (Np.flatten (fst pm)) /\ 0 < p).
Proof.
  apply (pitch_is_finite_and_nonnegative (L := Fixtures.librosa)
           Fixtures.audio_service Fixtures.samples Fixtures.clip_features).
  vm_compute. reflexivity.
Defined.

(* ================================================================== *)
(** * The outcomes of the audio detector *)
(* ================================================================== *)



(* ================================================================== *)
(** * Speech patterns *)
(* ================================================================== *)

Section Speech.
Context {E : Elementary}.

Lemma count_true_le (mask : list bool) :
  (SpeechPatterns.count_true mask <= List.length mask)%nat.
Proof. unfold SpeechPatterns.count_true. apply filter_length_le. Qed.

Lemma total_mask (mask : list bool) :
  total (map (fun b : bool => if b then 1 else 0) mask)
  == inject_Z (Z.of_nat (SpeechPatterns.count_true mask)).
Proof.
  unfold SpeechPatterns.count_true. induction mask as [|b mask IH].
  - reflexivity.
  - cbn [map filter]. destruct b.
    + change (1 + total (map (fun b : bool => if b then 1 else 0) mask)
              == inject_Z (Z.of_nat (S (List.length (filter (fun b : bool => b) mask))))).
      rewrite IH, Nat2Z.inj_succ. unfold Z.succ. rewrite inject_Z_plus.
      change (inject_Z 1) with 1. ring.
    + change (0 + total (map (fun b : bool => if b then 1 else 0) mask)
              == inject_Z (Z.of_nat (List.length (filter (fun b : bool => b) mask)))).
      rewrite IH. ring.
Qed.

Lemma std_finite (xs : list Q) :
  xs <> [] -> exists s, Np.std xs = Finite s.
Proof.
  destruct xs as [|x xs]; [congruence |]. intros _.
  unfold Np.std. cbn [Np.mean map]. eexists. reflexivity.
Qed.

Lemma inject_nat_positive (n : nat) : (0 < n)%nat -> 0 < inject_Z (Z.of_nat n).
Proof.
  intros Hn. change 0 with (inject_Z 0). rewrite <- Zlt_Qlt. lia.
Qed.

Lemma mean_mask_ratio (mask : list bool) :
  mask <> [] ->
  exists ratio,
    SpeechPatterns.mean_mask mask = Finite ratio /\
    ratio == inject_Z (Z.of_nat (SpeechPatterns.count_true mask))
             / inject_Z (Z.of_nat (List.length mask)) /\
    0 <= ratio <= 1.
Proof.
  intros Hne. destruct mask as [|b mask]; [congruence |].
  unfold SpeechPatterns.mean_mask. eexists. split; [reflexivity |].
  rewrite sum_total, total_mask, length_map.
  set (k := SpeechPatterns.count_true (b :: mask)).
  set (n := List.length (b :: mask)).
  assert (Hk : (k <= n)%nat) by apply count_true_le.
  assert (Hn : 0 < inject_Z (Z.of_nat n)) by (apply inject_nat_positive; subst n; simpl; lia).
  assert (Hk0 : 0 <= inject_Z (Z.of_nat k))
    by (change 0 with (inject_Z 0); rewrite <- Zle_Qle; lia).
  assert (Hkn : inject_Z (Z.of_nat k) <= inject_Z (Z.of_nat n))
    by (rewrite <- Zle_Qle; lia).
  split; [reflexivity |]. split.
  - apply Qle_shift_div_l; [exact Hn | lra].
  - apply Qle_shift_div_r; [exact Hn | lra].
Qed.

End Speech.

(** X16.  What the speech analysis returns.  When the sample rate is not
    zero, the energy track has at least one frame and the library calls
    return (the hop as a positive finite time), the result holds exactly the
    four keys with finite values.  The voice-activity ratio is the share of
    frames whose energy exceeds the threshold, between 0 and 1.  The speaking
    rate is 0 when no frame exceeds it, and otherwise the clip's duration
    divided by the voiced time; with librosa's hop of 512 samples that is
    len(audio) / (512 * voiced frames), whatever the sample rate. *)
Theorem speech_patterns_of_a_clip
    {E : Elementary} {L : Librosa.t} {N : FrameAnalysis}
    (self : AudioProcessingService.t) (audio : Audio)
    (rms : Np.array2 Q) (energy : list Q) (threshold : np_float) (hop : Q)
    (pm : Np.array2 Q * Np.array2 Q) :
  AudioProcessingService.sample_rate self <> 0%Z ->
  Librosa.rms audio = Ok rms ->
  Py.getitem rms 0 = Ok energy ->
  energy <> [] ->
  percentile energy 30 = Ok threshold ->
  frames_to_time 1 (AudioProcessingService.sample_rate self) = Ok (Finite hop) ->
  0 < hop ->
  Librosa.piptrack audio (AudioProcessingService.sample_rate self) = Ok pm ->
  let sr := inject_Z (AudioProcessingService.sample_rate self) in
  let samples := inject_Z (Z.of_nat (List.length audio)) in
  let voiced :=
    SpeechPatterns.count_true
      (map (fun e => SpeechPatterns.greater (Finite e) threshold) energy) in
  exists rate pitch_variation energy_variation ratio,
    SpeechPatterns.detect_speech_patterns self audio
      = [("speaking_rate", Finite rate);
         ("pitch_variation", Finite pitch_variation);
         ("energy_variation", Finite energy_variation);
         ("voice_activity_ratio", Finite ratio)] /\
    ratio == inject_Z (Z.of_nat voiced) / inject_Z (Z.of_nat (List.length energy)) /\
    0 <= ratio <= 1 /\
    (voiced = 0%nat -> rate == 0) /\
    ((0 < voiced)%nat ->
     rate == samples / sr / (inject_Z (Z.of_nat voiced) * hop) /\
     (hop == 512 / sr -> rate == samples / (512 * inject_Z (Z.of_nat voiced)))).
Proof.
  intros Hsr Hrms Hrow Hne Hth Hhop Hhop0 Hpm sr samples voiced.
  unfold SpeechPatterns.detect_speech_patterns. cbv zeta.
  rewrite Hrms. cbn [SpeechPatterns.caught]. rewrite Hrow.
  cbn [SpeechPatterns.caught]. rewrite Hth, Hhop, Hpm.
  cbn [SpeechPatterns.caught SpeechPatterns.mul].
  fold voiced.
  assert (Hmask : map (fun e => SpeechPatterns.greater (Finite e) threshold) energy
                  <> []).
  { destruct energy; [congruence | discriminate]. }
  destruct (mean_mask_ratio _ Hmask) as (ratio & Hratio & Hvalue & Hrange).
  rewrite length_map in Hvalue. fold voiced in Hvalue.
  destruct (std_finite energy Hne) as (ev & Hev).
  assert (Hpv : exists pv,
             (if (0 <? List.length
                         (filter AudioProcessingService.positive
                            (Np.flatten (fst pm))))%nat
              then Np.std (filter AudioProcessingService.positive
                             (Np.flatten (fst pm)))
              else Finite 0) = Finite pv).
  { destruct (filter AudioProcessingService.positive (Np.flatten (fst pm)))
      as [|p ps] eqn:Hf.
    - exists 0. reflexivity.
    - cbn [List.length Nat.ltb Nat.leb]. apply std_finite. discriminate. }
  destruct Hpv as (pv & Hpv). rewrite Hpv, Hev, Hratio.
  unfold SpeechPatterns.int_truediv.
  destruct (Z.eqb_spec (AudioProcessingService.sample_rate self) 0) as [|_];
    [contradiction |].
  assert (Hsrq : ~ sr == 0).
  { unfold sr. change 0 with (inject_Z 0). rewrite inject_Z_injective.
    exact Hsr. }
  cbn [SpeechPatterns.greater].
  destruct (Nat.eq_dec voiced 0) as [Hzero | Hpos].
  - assert (Hle : Qle_bool (inject_Z (Z.of_nat voiced) * hop) 0 = true).
    { apply Qle_bool_iff. rewrite Hzero. change (0 * hop <= 0). lra. }
    rewrite Hle. cbn [negb SpeechPatterns.or_empty].
    exists 0, pv, ev, ratio.
    split; [reflexivity |]. split; [exact Hvalue |]. split; [exact Hrange |].
    split; [intros _; reflexivity | intros Hc; lia].
  - assert (Hk : 0 < inject_Z (Z.of_nat voiced))
      by (apply inject_nat_positive; lia).
    assert (Htime : 0 < inject_Z (Z.of_nat voiced) * hop)
      by (apply Qmult_lt_0_compat; assumption).
    assert (Hle : Qle_bool (inject_Z (Z.of_nat voiced) * hop) 0 = false).
    { destruct (Qle_bool _ 0) eqn:Hb; [| reflexivity].
      apply Qle_bool_iff in Hb. lra. }
    rewrite Hle. cbn [negb Np.truediv].
    assert (Hnz : Qeq_bool (inject_Z (Z.of_nat voiced) * hop) 0 = false).
    { destruct (Qeq_bool _ 0) eqn:Hb; [| reflexivity].
      apply Qeq_bool_iff in Hb. lra. }
    rewrite Hnz. cbn [SpeechPatterns.or_empty].
    eexists _, pv, ev, ratio.
    split; [reflexivity |]. split; [exact Hvalue |]. split; [exact Hrange |].
    split; [intros Hc; lia |]. intros _.
    split; [reflexivity |].
    intros Hlib. fold sr samples. rewrite Hlib. field.
    split; [| exact Hsrq]. lra.
Qed.

Lemma speech_patterns_of_a_clip_witness :
  let sr := inject_Z (AudioProcessingService.sample_rate Fixtures.audio_service) in
  let samples := inject_Z (Z.of_nat (List.length Frames.burst)) in
  let voiced :=
    SpeechPatterns.count_true
      (map (fun e => SpeechPatterns.greater (Finite e) Frames.burst_threshold)
         Frames.burst_energy) in
  exists rate pitch_variation energy_variation ratio,
    Frames.detect_speech_patterns Fixtures.audio_service Frames.burst
      = [("speaking_rate", Finite rate);
         ("pitch_variation", Finite pitch_variation);
         ("energy_variation", Finite energy_variation);
         ("voice_activity_ratio", Finite ratio)] /\
    ratio == inject_Z (Z.of_nat voiced)
             / inject_Z (Z.of_nat (List.length Frames.burst_energy)) /\
    0 <= ratio <= 1 /\
    (voiced = 0%nat -> rate == 0) /\
    ((0 < voiced)%nat ->
     rate == samples / sr / (inject_Z (Z.of_nat voiced) * (512 / sr)) /\
     (512 / sr == 512 / sr ->
      rate == samples / (512 * inject_Z (Z.of_nat voiced)))).
Proof.
  eapply (speech_patterns_of_a_clip (E := Fixtures.elementary)
            (L := Fixtures.librosa) (N := Frames.frame_analysis)
            Fixtures.audio_service Frames.burst _ Frames.burst_energy
            Frames.burst_threshold
            (512 / inject_Z (AudioProcessingService.sample_rate
                               Fixtures.audio_service))).
  - discriminate.
  - vm_compute. reflexivity.
  - vm_compute. reflexivity.
  - discriminate.
  - vm_compute. reflexivity.
  - vm_compute. reflexivity.
  - reflexivity.
  - vm_compute. reflexivity.
Defined.

(** X17.  The speech analysis never raises: whatever fails inside, it
    returns the empty dict.  With a sample rate that is not zero it does so
    exactly when one of its library calls raises or the energy track has no
    row; otherwise the result has the four keys, in the order of the
    source. *)
Theorem speech_patterns_are_empty_exactly_on_failure
    {E : Elementary} {L : Librosa.t} {N : FrameAnalysis}
    (self : AudioProcessingService.t) (audio : Audio) :
  AudioProcessingService.sample_rate self <> 0%Z ->
  let sr := AudioProcessingService.sample_rate self in
  let patterns := SpeechPatterns.detect_speech_patterns self audio in
  (patterns = [] <->
   (exists e, Librosa.rms audio = Raise e) \/
   Librosa.rms audio = Ok [] \/
   (exists rms energy e,
      Librosa.rms audio = Ok rms /\ Py.getitem rms 0 = Ok energy /\
      percentile energy 30 = Raise e) \/
   (exists e, frames_to_time 1 sr = Raise e) \/
   (exists e, Librosa.piptrack audio sr = Raise e)) /\
  (patterns <> [] ->
   Py.keys patterns = ["speaking_rate"; "pitch_variation"; "energy_variation";
                       "voice_activity_ratio"]).
Proof.
  intros Hsr sr patterns. subst patterns.
  unfold SpeechPatterns.detect_speech_patterns. cbv zeta. fold sr.
  destruct (Librosa.rms audio) as [[|energy rest]|e0] eqn:Hrms;
    cbn [SpeechPatterns.caught Py.getitem nth_error SpeechPatterns.or_empty].
  - split; [| congruence]. split; [intros _; right; left; reflexivity | reflexivity].
  - destruct (percentile energy 30) as [threshold|e1] eqn:Hth;
      cbn [SpeechPatterns.caught SpeechPatterns.or_empty].
    2:{ split; [| congruence]. split; [intros _ | reflexivity].
        right; right; left. exists (energy :: rest), energy, e1. auto. }
    destruct (frames_to_time 1 sr) as [frame_rate|e2] eqn:Hhop;
      cbn [SpeechPatterns.caught SpeechPatterns.or_empty].
    2:{ split; [| congruence]. split; [intros _ | reflexivity].
        right; right; right; left. eauto. }
    unfold SpeechPatterns.int_truediv.
    destruct (Z.eqb_spec sr 0) as [|_]; [contradiction |].
    assert (Hrate : exists rate,
               (if SpeechPatterns.greater
                     (SpeechPatterns.mul
                        (Finite (inject_Z (Z.of_nat (SpeechPatterns.count_true
                           (map (fun e => SpeechPatterns.greater (Finite e) threshold)
                              energy)))))
                        frame_rate) (Finite 0)
                then Some (Np.truediv
                             (Finite (inject_Z (Z.of_nat (List.length audio))
                                      / inject_Z sr))
                             (SpeechPatterns.mul
                                (Finite (inject_Z (Z.of_nat (SpeechPatterns.count_true
                                   (map (fun e => SpeechPatterns.greater (Finite e)
                                                    threshold) energy)))))
                                frame_rate))
                else Some (Finite 0)) = Some rate).
    { destruct (SpeechPatterns.greater _ (Finite 0)); eexists; reflexivity. }
    destruct Hrate as (rate & Hrate). rewrite Hrate.
    destruct (Librosa.piptrack audio sr) as [pm|e3] eqn:Hpm;
      cbn [SpeechPatterns.caught SpeechPatterns.or_empty].
    2:{ split; [| congruence]. split; [intros _ | reflexivity].
        right; right; right; right. eauto. }
    split; [| intros _; reflexivity].
    split; [discriminate |].
    intros [(e & He) | [He | [(r & en & e & Hr & Hen & He) | [(e & He) | (e & He)]]]];
      try discriminate.
    injection Hr as <-. cbn in Hen. injection Hen as <-. congruence.
  - split; [| congruence]. split; [intros _; left; eauto | reflexivity].
Qed.

Lemma speech_patterns_are_empty_exactly_on_failure_witness :
  let sr := AudioProcessingService.sample_rate Fixtures.audio_service in
  let patterns :=
    Frames.detect_speech_patterns Fixtures.audio_service Frames.burst in
  (patterns = [] <->
   (exists e, Librosa.rms (t := Fixtures.librosa) Frames.burst = Raise e) \/
   Librosa.rms (t := Fixtures.librosa) Frames.burst = Ok [] \/
   (exists rms energy e,
      Librosa.rms (t := Fixtures.librosa) Frames.burst = Ok rms /\
      Py.getitem rms 0 = Ok energy /\
      percentile (FrameAnalysis := Frames.frame_analysis) energy 30 = Raise e) \/
   (exists e, frames_to_time (FrameAnalysis := Frames.frame_analysis) 1 sr
              = Raise e) \/
   (exists e, Librosa.piptrack (t := Fixtures.librosa) Frames.burst sr = Raise e)) /\
  (patterns <> [] ->
   Py.keys patterns = ["speaking_rate"; "pitch_variation"; "energy_variation";
                       "voice_activity_ratio"]).
Proof.
  apply (speech_patterns_are_empty_exactly_on_failure (E := Fixtures.elementary)
           (L := Fixtures.librosa) (N := Frames.frame_analysis)
           Fixtures.audio_service Frames.burst).
  discriminate.
Defined.

(* ================================================================== *)
(** * The endpoints *)
(* ================================================================== *)

(** X18.  A request without an image is answered with status 500, not with
    a client error.  [POST /emotion/detect] with [image_data] missing or
    empty gives "Emotion detection failed: Image data is required for emotion
    detection"; [POST /emotion/multimodal] with [image_data] missing gives
    "Multimodal detection failed: Invalid image data".  The audio data of the
    request plays no part, and the services are left as they were. *)
Theorem request_without_image_is_answered_500
    {E : Elementary} {B : Base64} {P : Pil} {C : Cv2.t} {T : LibraryText}
    (app : App.t) (service : EmotionDetectionService.t)
    (audio : AudioProcessingService.t) (request : EmotionDetectionRequest.t) :
  App.emotion_service app = Some service ->
  App.audio_service app = Some audio ->
  Py.truthy (EmotionDetectionRequest.image_data request) = false ->
  App.detect_emotion app request
    = (App.Rejected
         (App.http_exception 500
            "Emotion detection failed: Image data is required for emotion detection"),
       app) /\
  (EmotionDetectionRequest.image_data request = None ->
   App.detect_multimodal_emotion app request
     = (App.Rejected
          (App.http_exception 500
             "Multimodal detection failed: Invalid image data"),
        app)).
Proof.
  intros Hservice Haudio Himage. destruct app as [es aps].
  cbn [App.emotion_service App.audio_service] in *. subst es aps. split.
  - unfold App.detect_emotion, EmotionDetectionService.detect_emotion.
    cbn [App.emotion_service App.audio_service]. rewrite Himage. reflexivity.
  - intros Hnone. unfold App.detect_multimodal_emotion,
      EmotionDetectionService.detect_multimodal_emotion.
    cbn [App.emotion_service App.audio_service]. rewrite Hnone. reflexivity.
Qed.

Lemma request_without_image_is_answered_500_witness :
  Running.detect_emotion Running.app
      (EmotionDetectionRequest.make None (Some Fixtures.clip) "s1")
    = (App.Rejected
         (App.http_exception 500
            "Emotion detection failed: Image data is required for emotion detection"),
       Running.app) /\
  (EmotionDetectionRequest.image_data
     (EmotionDetectionRequest.make None (Some Fixtures.clip) "s1") = None ->
   Running.detect_multimodal_emotion Running.app
       (EmotionDetectionRequest.make None (Some Fixtures.clip) "s1")
     = (App.Rejected
          (App.http_exception 500
             "Multimodal detection failed: Invalid image data"),
        Running.app)).
Proof.
  apply (request_without_image_is_answered_500 (E := Fixtures.elementary)
           (B := Fixtures.base64) (P := Fixtures.pil) (C := Fixtures.cv2)
           (T := Running.library_text) Running.app
           (Fixtures.service Fixtures.angry_cnn Fixtures.steady)
           Fixtures.audio_service
           (EmotionDetectionRequest.make None (Some Fixtures.clip) "s1"));
    reflexivity.
Defined.

(** X19.  The multimodal endpoint demands an audio service it never
    consults.  Without one it answers 503 "Required services not available"
    and touches nothing, whatever the request.  With one, its answer is the
    same for every audio service and every [audio_data], and the audio
    service is handed back unchanged. *)
Theorem multimodal_endpoint_never_consults_the_audio_service
    {E : Elementary} {B : Base64} {P : Pil} {C : Cv2.t} {T : LibraryText}
    (service : EmotionDetectionService.t)
    (audio1 audio2 : AudioProcessingService.t)
    (image_data audio_data1 audio_data2 : option string) (session_id : string) :
  let request1 := EmotionDetectionRequest.make image_data audio_data1 session_id in
  let request2 := EmotionDetectionRequest.make image_data audio_data2 session_id in
  let app1 := App.make (Some service) (Some audio1) in
  let app2 := App.make (Some service) (Some audio2) in
  let missing := App.make (Some service) None in
  App.detect_multimodal_emotion missing request1
    = (App.Rejected (App.http_exception 503 "Required services not available"),
       missing) /\
  fst (App.detect_multimodal_emotion app1 request1)
    = fst (App.detect_multimodal_emotion app2 request2) /\
  App.emotion_service (snd (App.detect_multimodal_emotion app1 request1))
    = App.emotion_service (snd (App.detect_multimodal_emotion app2 request2)) /\
  App.audio_service (snd (App.detect_multimodal_emotion app1 request1))
    = Some audio1.
Proof.
  cbv zeta. unfold App.detect_multimodal_emotion.
  cbn [App.emotion_service App.audio_service
       EmotionDetectionRequest.image_data EmotionDetectionRequest.audio_data
       EmotionDetectionRequest.session_id].
  assert (Hsame :
    EmotionDetectionService.detect_multimodal_emotion service image_data
      audio_data1 session_id
    = EmotionDetectionService.detect_multimodal_emotion service image_data
        audio_data2 session_id) by reflexivity.
  rewrite Hsame.
  destruct (EmotionDetectionService.detect_multimodal_emotion service image_data
              audio_data2 session_id) as [result service'].
  cbn [fst snd App.emotion_service App.audio_service]. auto.
Qed.

(* ================================================================== *)
(** * Loading and reloading the models *)
(* ================================================================== *)

Section Loaders.
Context {T : Torch.t}.

(** What one loader does, whatever the outcome of the weights. *)
Lemma load_emotion_model_frame (self : EmotionLoader.t) :
  let after := snd (EmotionLoader._load_emotion_model self) in
  is_not_none (EmotionDetectionService.emotion_model (EmotionLoader.service after))
    = true /\
  EmotionDetectionService.multimodal_model (EmotionLoader.service after)
    = EmotionDetectionService.multimodal_model (EmotionLoader.service self) /\
  EmotionDetectionService.face_mesh (EmotionLoader.service after)
    = EmotionDetectionService.face_mesh (EmotionLoader.service self) /\
  EmotionLoader.face_detection after = EmotionLoader.face_detection self /\
  EmotionLoader.multimodal_fusion after = EmotionLoader.multimodal_fusion self /\
  ModelStatus.status (EmotionLoader.emotion_cnn after)
    = match fst (EmotionLoader._load_emotion_model self) with
      | Ok _ => "loaded"
      | Raise _ => "error"
      end.
Proof.
  unfold EmotionLoader._load_emotion_model.
  destruct (Torch.new_emotion_cnn _ _) as [net g].
  destruct (Torch.load_emotion_cnn _ _ net); cbn; auto 10.
Qed.

Lemma load_multimodal_model_frame (self : EmotionLoader.t) :
  let after := snd (EmotionLoader._load_multimodal_model self) in
  is_not_none (EmotionDetectionService.multimodal_model
                 (EmotionLoader.service after)) = true /\
  EmotionDetectionService.emotion_model (EmotionLoader.service after)
    = EmotionDetectionService.emotion_model (EmotionLoader.service self) /\
  EmotionDetectionService.face_mesh (EmotionLoader.service after)
    = EmotionDetectionService.face_mesh (EmotionLoader.service self) /\
  EmotionLoader.face_detection after = EmotionLoader.face_detection self /\
  EmotionLoader.emotion_cnn after = EmotionLoader.emotion_cnn self /\
  ModelStatus.status (EmotionLoader.multimodal_fusion after)
    = match fst (EmotionLoader._load_multimodal_model self) with
      | Ok _ => "loaded"
      | Raise _ => "error"
      end.
Proof.
  unfold EmotionLoader._load_multimodal_model.
  destruct (Torch.new_multimodal_fusion_net _ _) as [net g].
  destruct (Torch.load_multimodal_fusion_net _ _ net); cbn; auto 10.
Qed.

End Loaders.

(** X20.  What [reload_models] of the emotion service does in every case.
    It never touches the face mesh (the tracker keeps its history) or the
    face detector, and afterwards [emotion_model] is set, to a newly built
    network.  If it returns, both statuses are "loaded" and [health_check]
    says "ready".  If it raises, either the emotion loader failed, its
    status is "error" and the fusion model and its status are those from
    before the call, or the fusion loader failed after the emotion loader
    succeeded. *)
Theorem reload_models_outcomes {T : Torch.t} (self : EmotionLoader.t) :
  let before := EmotionLoader.service self in
  let outcome := fst (EmotionLoader.reload_models self) in
  let after := snd (EmotionLoader.reload_models self) in
  EmotionDetectionService.face_mesh (EmotionLoader.service after)
    = EmotionDetectionService.face_mesh before /\
  EmotionLoader.face_detection after = EmotionLoader.face_detection self /\
  is_not_none (EmotionDetectionService.emotion_model (EmotionLoader.service after))
    = true /\
  match outcome with
  | Ok _ =>
      ModelStatus.status (EmotionLoader.emotion_cnn after) = "loaded" /\
      ModelStatus.status (EmotionLoader.multimodal_fusion after) = "loaded" /\
      Health.status (EmotionLoader.health_check after) = "ready"
  | Raise e =>
      (fst (EmotionLoader._load_emotion_model self) = Raise e /\
       ModelStatus.status (EmotionLoader.emotion_cnn after) = "error" /\
       EmotionLoader.multimodal_fusion after = EmotionLoader.multimodal_fusion self /\
       EmotionDetectionService.multimodal_model (EmotionLoader.service after)
         = EmotionDetectionService.multimodal_model before) \/
      (fst (EmotionLoader._load_emotion_model self) = Ok tt /\
       ModelStatus.status (EmotionLoader.emotion_cnn after) = "loaded" /\
       ModelStatus.status (EmotionLoader.multimodal_fusion after) = "error")
  end.
Proof.
  cbv zeta. unfold EmotionLoader.reload_models.
  pose proof (load_emotion_model_frame self) as He. cbv zeta in He.
  destruct (EmotionLoader._load_emotion_model self) as [[[]|e] self1].
  - cbn [fst snd] in He.
    destruct He as (He1 & He2 & He3 & He4 & He5 & He6).
    pose proof (load_multimodal_model_frame self1) as Hm. cbv zeta in Hm.
    destruct (EmotionLoader._load_multimodal_model self1) as [[[]|e] self2];
      cbn [fst snd] in *;
      destruct Hm as (Hm1 & Hm2 & Hm3 & Hm4 & Hm5 & Hm6).
    + split; [congruence |]. split; [congruence |].
      split; [rewrite Hm2; exact He1 |].
      split; [rewrite Hm5; exact He6 |]. split; [exact Hm6 |].
      unfold EmotionLoader.health_check. cbn [Health.status].
      rewrite Hm2, He1, Hm1. reflexivity.
    + split; [congruence |]. split; [congruence |].
      split; [rewrite Hm2; exact He1 |].
      right. split; [reflexivity |]. split; [rewrite Hm5; exact He6 | exact Hm6].
  - cbn [fst snd] in *.
    destruct He as (He1 & He2 & He3 & He4 & He5 & He6).
    split; [exact He3 |]. split; [exact He4 |]. split; [exact He1 |].
    left. auto.
Qed.

(** X21.  A failed reload leaves a service that reports ready.  When the
    weights of the emotion network fail to load (anything but a missing
    file) on a service whose fusion model is set, [reload_models] raises
    that exception, [get_model_status] then shows "error" for emotion_cnn,
    and yet [health_check] answers "ready" with emotion_cnn loaded: the
    previous emotion model has already been replaced by the network the
    failed call left behind. *)
Theorem failed_reload_leaves_a_ready_service {T : Torch.t}
    (self : EmotionLoader.t) (fusion : MultimodalFusionNet.t)
    (e : exn) (left_behind : EmotionCNN.t) :
  EmotionDetectionService.multimodal_model (EmotionLoader.service self)
    = Some fusion ->
  Torch.load_emotion_cnn "models/emotion_cnn.pth" Torch.map_location
    (fst (Torch.new_emotion_cnn 7
            (EmotionDetectionService.torch_rng (EmotionLoader.service self))))
    = Torch.Failed e left_behind ->
  let outcome := fst (EmotionLoader.reload_models self) in
  let after := snd (EmotionLoader.reload_models self) in
  outcome = Raise e /\
  Py.dict_get "emotion_cnn" (EmotionLoader.get_model_status after)
    = Some (ModelStatus.make
              (ModelStatus.model_name (EmotionLoader.emotion_cnn self))
              "error"
              (ModelStatus.version (EmotionLoader.emotion_cnn self))) /\
  Py.dict_get "multimodal_fusion" (EmotionLoader.get_model_status after)
    = Some (EmotionLoader.multimodal_fusion self) /\
  Health.status (EmotionLoader.health_check after) = "ready" /\
  Py.dict_get "emotion_cnn" (Health.models_loaded (EmotionLoader.health_check after))
    = Some true /\
  EmotionDetectionService.emotion_model (EmotionLoader.service after)
    = Some left_behind /\
  EmotionDetectionService.multimodal_model (EmotionLoader.service after)
    = Some fusion.
Proof.
  intros Hfusion Hload. cbv zeta.
  unfold EmotionLoader.reload_models, EmotionLoader._load_emotion_model.
  change (List.length EmotionDetectionService.EMOTIONS) with 7%nat.
  destruct (Torch.new_emotion_cnn 7 _) as [net g]. cbn [fst] in Hload.
  rewrite Hload.
  unfold EmotionLoader.health_check, EmotionLoader.get_model_status.
  cbn. rewrite Hfusion. cbn. auto 10.
Qed.

Lemma failed_reload_leaves_a_ready_service_witness :
  let outcome :=
    fst (EmotionLoader.reload_models (T := Loading.mismatched) Loading.running) in
  let after :=
    snd (EmotionLoader.reload_models (T := Loading.mismatched) Loading.running) in
  outcome = Raise (LibraryError "load_state_dict") /\
  Py.dict_get "emotion_cnn" (EmotionLoader.get_model_status after)
    = Some (ModelStatus.make
              (ModelStatus.model_name (EmotionLoader.emotion_cnn Loading.running))
              "error"
              (ModelStatus.version (EmotionLoader.emotion_cnn Loading.running))) /\
  Py.dict_get "multimodal_fusion" (EmotionLoader.get_model_status after)
    = Some (EmotionLoader.multimodal_fusion Loading.running) /\
  Health.status (EmotionLoader.health_check (T := Loading.mismatched) after)
    = "ready" /\
  Py.dict_get "emotion_cnn"
    (Health.models_loaded (EmotionLoader.health_check (T := Loading.mismatched) after))
    = Some true /\
  EmotionDetectionService.emotion_model (EmotionLoader.service after)
    = Some Fixtures.tied_cnn /\
  EmotionDetectionService.multimodal_model (EmotionLoader.service after)
    = Some Fixtures.fusion.
Proof.
  apply (failed_reload_leaves_a_ready_service (T := Loading.mismatched)
           Loading.running Fixtures.fusion (LibraryError "load_state_dict")
           Fixtures.tied_cnn).
  - reflexivity.
  - reflexivity.
Defined.

(** X22.  Missing weight files count as loaded.  On a service fresh from
    [__init__], when MediaPipe's constructors return and neither weight file
    exists, [initialize] returns normally: both statuses are "loaded",
    [health_check] says "ready" with the three components loaded, the two
    models are the networks the constructors built from torch's generator
    (random weights), and the face mesh is a new tracker that has seen no
    frame. *)
Theorem missing_weights_count_as_loaded {T : Torch.t} {M : MediaPipe}
    (g : Rng.t)
    (respond : list Image -> Image -> result (list FaceMesh.Face)) :
  new_face_detection = Ok tt ->
  new_face_mesh = Ok respond ->
  (forall net,
     Torch.load_emotion_cnn "models/emotion_cnn.pth" Torch.map_location net
     = Torch.FileNotFound) ->
  (forall net,
     Torch.load_multimodal_fusion_net "models/multimodal_fusion.pth"
       Torch.map_location net = Torch.FileNotFound) ->
  let built := Torch.new_emotion_cnn 7 g in
  let built' := Torch.new_multimodal_fusion_net 7 (snd built) in
  let after := snd (EmotionLoader.initialize (EmotionLoader.init g)) in
  fst (EmotionLoader.initialize (EmotionLoader.init g)) = Ok tt /\
  EmotionLoader.service after
    = EmotionDetectionService.make (Some (fst built)) (Some (fst built'))
        (Some (FaceMesh.make respond [])) (snd built') /\
  EmotionLoader.get_model_status after
    = [("emotion_cnn", ModelStatus.make "emotion_cnn" "loaded" "1.0.0");
       ("multimodal_fusion",
        ModelStatus.make "multimodal_fusion" "loaded" "1.0.0")] /\
  EmotionLoader.health_check after
    = Health.make "ready"
        [("emotion_cnn", true); ("multimodal_fusion", true); ("mediapipe", true)]
        Torch.device.
Proof.
  intros Hfd Hfm Hemotion Hfusion. cbv zeta.
  unfold EmotionLoader.initialize. rewrite Hfd, Hfm.
  unfold EmotionLoader.reload_models, EmotionLoader._load_emotion_model.
  change (List.length EmotionDetectionService.EMOTIONS) with 7%nat.
  cbn [EmotionLoader.init EmotionLoader.service EmotionLoader.with_service
       EmotionDetectionService.with_face_mesh EmotionDetectionService.torch_rng
       EmotionDetectionService.emotion_model
       EmotionDetectionService.multimodal_model
       EmotionLoader.emotion_cnn EmotionLoader.multimodal_fusion].
  destruct (Torch.new_emotion_cnn 7 g) as [net g1]. rewrite Hemotion.
  unfold EmotionLoader._load_multimodal_model.
  change (List.length EmotionDetectionService.EMOTIONS) with 7%nat.
  cbn [fst snd].
  cbn [EmotionLoader.service EmotionLoader.with_service
       EmotionLoader.with_emotion_model EmotionLoader.with_emotion_cnn_status
       EmotionDetectionService.with_torch_rng EmotionDetectionService.torch_rng
       EmotionDetectionService.emotion_model
       EmotionDetectionService.multimodal_model
       EmotionDetectionService.face_mesh
       EmotionLoader.emotion_cnn EmotionLoader.multimodal_fusion
       EmotionLoader.face_detection].
  destruct (Torch.new_multimodal_fusion_net 7 g1) as [net' g2].
  rewrite Hfusion. cbn. auto.
Qed.

Lemma missing_weights_count_as_loaded_witness :
  let built := Torch.new_emotion_cnn (t := Loading.without_files) 7 Fixtures.rng in
  let built' :=
    Torch.new_multimodal_fusion_net (t := Loading.without_files) 7 (snd built) in
  let after :=
    snd (EmotionLoader.initialize (T := Loading.without_files)
           (M := Loading.media_pipe) (EmotionLoader.init Fixtures.rng)) in
  fst (EmotionLoader.initialize (T := Loading.without_files)
         (M := Loading.media_pipe) (EmotionLoader.init Fixtures.rng)) = Ok tt /\
  EmotionLoader.service after
    = EmotionDetectionService.make (Some (fst built)) (Some (fst built'))
        (Some (FaceMesh.make (FaceMesh.respond Fixtures.steady) []))
        (snd built') /\
  EmotionLoader.get_model_status after
    = [("emotion_cnn", ModelStatus.make "emotion_cnn" "loaded" "1.0.0");
       ("multimodal_fusion",
        ModelStatus.make "multimodal_fusion" "loaded" "1.0.0")] /\
  EmotionLoader.health_check (T := Loading.without_files) after
    = Health.make "ready"
        [("emotion_cnn", true); ("multimodal_fusion", true); ("mediapipe", true)]
        (Torch.device (T := Loading.without_files)).
Proof.
  apply (missing_weights_count_as_loaded (T := Loading.without_files)
           (M := Loading.media_pipe) Fixtures.rng
           (FaceMesh.respond Fixtures.steady)).
  - reflexivity.
  - reflexivity.
  - intros net. reflexivity.
  - intros net. reflexivity.
Defined.

(** X23.  Loading the audio model.  [initialize] of the audio service (and
    [reload_models], which is the same call) sets [audio_model] to a newly
    built network before it reads the weights, so that afterwards
    [health_check] answers "ready" in every case, a failed load included.
    It returns exactly when the weights load or their file is missing, with
    status "loaded"; otherwise it raises what the load raised, with status
    "error".  The sample rate is never changed. *)
Theorem audio_initialize_outcomes {T : Torch.t} (self : AudioLoader.t) :
  let built :=
    Torch.new_audio_emotion_cnn 7 (AudioLoader.torch_rng self) in
  let weights :=
    Torch.load_audio_emotion_cnn "models/audio_emotion_cnn.pth"
      Torch.map_location (fst built) in
  let outcome := fst (AudioLoader.initialize self) in
  let after := snd (AudioLoader.initialize self) in
  AudioLoader.reload_models self = AudioLoader.initialize self /\
  AudioLoader.health_check after
    = AudioLoader.make_health "ready" true Torch.device /\
  AudioProcessingService.sample_rate (AudioLoader.service after)
    = AudioProcessingService.sample_rate (AudioLoader.service self) /\
  AudioLoader.torch_rng after = snd built /\
  match weights with
  | Torch.Loaded net =>
      outcome = Ok tt /\
      AudioProcessingService.audio_model (AudioLoader.service after) = Some net /\
      ModelStatus.status (AudioLoader.get_model_status after) = "loaded"
  | Torch.FileNotFound =>
      outcome = Ok tt /\
      AudioProcessingService.audio_model (AudioLoader.service after)
        = Some (fst built) /\
      ModelStatus.status (AudioLoader.get_model_status after) = "loaded"
  | Torch.Failed e net =>
      outcome = Raise e /\
      AudioProcessingService.audio_model (AudioLoader.service after) = Some net /\
      ModelStatus.status (AudioLoader.get_model_status after) = "error"
  end.
Proof.
  cbv zeta. unfold AudioLoader.reload_models, AudioLoader.initialize.
  change (List.length AudioProcessingService.EMOTIONS) with 7%nat.
  destruct (Torch.new_audio_emotion_cnn 7 _) as [net g]. cbn [fst snd].
  destruct (Torch.load_audio_emotion_cnn _ _ net); cbn; auto 10.
Qed.
